(** * NAHS Caseload Counts: access policy, API surface and column removal

    A shallow embedding of the Apps Script backend (Config.js,
    UserService.js, the main API file and the column-removal routine
    exercised by the test suite) together with the properties the
    specification states about it.

    JavaScript strings are modelled by [string], one 8-bit character per
    code unit (code units above 255 are outside the model); objects used
    as dictionaries by [gmap]; exceptions by an explicit [Result] type;
    and the script's side effects (cache, logger) by state passing over a
    [World]. *)

From Stdlib Require Import ZArith Ascii String List Sorted.
From stdpp Require Import gmap strings list fin_maps pretty.

Local Open Scope string_scope.

(** ** JavaScript values that reach the access policy *)

Inductive value :=
| VUndefined
| VNull
| VBool (b : bool)
| VNumber (n : Z)
| VString (s : string)
| VObject.

(** [!!v] *)
Definition truthy (v : value) : bool :=
  match v with
  | VUndefined | VNull => false
  | VBool b => b
  | VNumber n => negb (n =? 0)%Z
  | VString s => negb (String.eqb s "")
  | VObject => true
  end.

Definition typeof (v : value) : string :=
  match v with
  | VUndefined => "undefined"
  | VNull => "object"
  | VBool _ => "boolean"
  | VNumber _ => "number"
  | VString _ => "string"
  | VObject => "object"
  end.

(** Conversion performed by template literals and property keys. *)
Definition ToString (v : value) : string :=
  match v with
  | VUndefined => "undefined"
  | VNull => "null"
  | VBool true => "true"
  | VBool false => "false"
  | VNumber n => pretty n
  | VString s => s
  | VObject => "[object Object]"
  end.

(** ** String primitives *)

(** The double-quote character, as a one-character string. *)
Definition dquote : string := String (ascii_of_nat 34) EmptyString.

(** [s.endsWith(suffix)] *)
Definition endsWith (s suffix : string) : bool :=
  let n := String.length s in
  let m := String.length suffix in
  (m <=? n)%nat && String.eqb (substring (n - m) m s) suffix.

(** [s.substring(a, b)]: both bounds are clamped to the length and
    swapped when [a > b]. *)
Definition js_substring (s : string) (a b : nat) : string :=
  substring (Nat.min a b) (Nat.max a b - Nat.min a b) s.

(** [s.includes(t)] *)
Fixpoint includes (s t : string) : bool :=
  String.prefix t s ||
  match s with
  | EmptyString => false
  | String _ s' => includes s' t
  end.

(** [s.replace(/[cs]/g, '')] for a character class given by its members. *)
Fixpoint remove_chars (cs : list ascii) (s : string) : string :=
  match s with
  | EmptyString => EmptyString
  | String c s' =>
      if existsb (Ascii.eqb c) cs then remove_chars cs s'
      else String c (remove_chars cs s')
  end.

(** ** Regular expressions (matching by derivatives) *)

Inductive regex :=
| Void
| Eps
| Class (p : ascii → bool)
| Seq (r1 r2 : regex)
| Alt (r1 r2 : regex)
| Star (r : regex).

Definition Plus (r : regex) : regex := Seq r (Star r).

Fixpoint nullable (r : regex) : bool :=
  match r with
  | Void => false
  | Eps => true
  | Class _ => false
  | Seq r1 r2 => nullable r1 && nullable r2
  | Alt r1 r2 => nullable r1 || nullable r2
  | Star _ => true
  end.

Fixpoint deriv (c : ascii) (r : regex) : regex :=
  match r with
  | Void => Void
  | Eps => Void
  | Class p => if p c then Eps else Void
  | Seq r1 r2 =>
      if nullable r1 then Alt (Seq (deriv c r1) r2) (deriv c r2)
      else Seq (deriv c r1) r2
  | Alt r1 r2 => Alt (deriv c r1) (deriv c r2)
  | Star r1 => Seq (deriv c r1) (Star r1)
  end.

(** [/^r$/.test(s)] *)
Fixpoint regex_test (r : regex) (s : string) : bool :=
  match s with
  | EmptyString => nullable r
  | String c s' => regex_test (deriv c r) s'
  end.

(** The class [\s] on 8-bit code units: TAB, LF, VT, FF, CR, SPACE, NBSP. *)
Definition is_js_space (c : ascii) : bool :=
  let n := nat_of_ascii c in
  ((9 <=? n)%nat && (n <=? 13)%nat) || (n =? 32)%nat || (n =? 160)%nat.

(** [[^\s@]] *)
Definition not_space_at (c : ascii) : bool :=
  negb (is_js_space c) && negb (Ascii.eqb c "@").

(** [/^[^\s@]+@[^\s@]+\.[^\s@]+$/] *)
Definition emailRegex : regex :=
  Seq (Plus (Class not_space_at))
    (Seq (Class (Ascii.eqb "@"))
       (Seq (Plus (Class not_space_at))
          (Seq (Class (Ascii.eqb "."))
             (Plus (Class not_space_at))))).

(** ** Config.js *)

Record AppConfig := {
  TITLE : string;
  PROJECT_NAME : string;
  DEPARTMENT : string;
  ORGANIZATION : string
}.

Record SpreadsheetConfig := {
  SPREADSHEET_ID : string;
  SHEET_NAME : string;
  USER_PERMISSIONS_SHEET : string;
  CAMPUS_COLUMN : string;
  DATE_COLUMNS : list string;
  COLUMNS_TO_REMOVE : list nat;
  DATE_FORMAT : string
}.

Record CacheConfig := {
  USER_PERMISSIONS_DURATION : Z;
  DATA_CACHE_DURATION : Z;
  PREFIX : string
}.

Record SecurityConfig := {
  ALLOWED_DOMAIN : string;
  FULL_ACCESS_CAMPUS_COUNT : nat;
  SESSION_TIMEOUT : Z
}.

Record PaginationConfig := {
  DEFAULT_PAGE_SIZE : nat;
  MAX_PAGE_SIZE : nat
}.

Record Contact := {
  contact_name : string;
  contact_email : string;
  contact_office : option string
}.

Record ContactsConfig := {
  TEACHER : Contact;
  DEVELOPER : Contact
}.

Record Config := {
  APP : AppConfig;
  SPREADSHEET : SpreadsheetConfig;
  CACHE : CacheConfig;
  SECURITY : SecurityConfig;
  PAGINATION : PaginationConfig;
  CAMPUSES : list string;
  CONTACTS : ContactsConfig;
  LEGACY_EMAIL_CAMPUS_MAPPING : gmap string (list string)
}.

(** The entries of [CONFIG.LEGACY_EMAIL_CAMPUS_MAPPING], in source order. *)
Definition LEGACY_EMAIL_CAMPUS_MAPPING_entries : list (string * list string) :=
  [ ("alvaro.gomez@nisd.net", ["Brandeis"; "Brennan"; "Clark"; "Harlan"]);
    ("desiree.stjean@nisd.net", ["Brandeis"]);
    ("belinda.myles@nisd.net", ["Brandeis"]);
    ("sabina.turov@nisd.net", ["Brandeis"]);
    ("dora.salazar@nisd.net", ["Brennan"]);
    ("elizabeth.rockgutierrez@nisd.net", ["Clark"]);
    ("karen.pumphrey@nisd.net", ["Clark"]);
    ("erica.koegellara@nisd.net", ["Harlan"]);
    ("andrea.aguirre@nisd.net", ["Harlan"]);
    ("eva.longoria@nisd.net", ["Health Careers"; "Excel"; "Holmgreen"]);
    ("leticia.lerma@nisd.net", ["Holmes"]);
    ("demi.cruz@nisd.net", ["Holmes"]);
    ("erin.ramos@nisd.net", ["Jay"]);
    ("richard.ramos@nisd.net", ["Jay"]);
    ("kayla.webb@nisd.net", ["Marshall"]);
    ("shelley.stogsdill@nisd.net", ["Marshall"]);
    ("anita.packen@nisd.net", ["O'Connor"]);
    ("mike.mcnierney@nisd.net", ["O'Connor"]);
    ("linda.rodriguez@nisd.net",
      ["Brandeis"; "Brennan"; "Clark"; "Harlan"; "Holmgreen";
       "Health Careers"; "Excel"; "Holmes"; "Jay"; "Marshall";
       "O'Connor"; "NAHS"; "Sotomayor"; "Stevens"; "Taft";
       "Warren"; "Reddix"]);
    ("javonne.collier@nisd.net", ["Sotomayor"]);
    ("claudia.justice@nisd.net", ["Stevens"]);
    ("ariel.hill@nisd.net", ["Stevens"]);
    ("jasmine-1.flores@nisd.net", ["Taft"]);
    ("judy.harlin-alamo@nisd.net", ["Taft"]);
    ("stephanie.lucero-moncada@nisd.net", ["Warren"]);
    ("jace.pierson@nisd.net", ["Warren"]);
    ("mark.marcinik@nisd.net", ["Reddix"]);
    ("lizeth.herrera@nisd.net", ["Reddix"]) ].

Definition CONFIG : Config := {|
  APP := {|
    TITLE := "NAHS Caseload";
    PROJECT_NAME := "NAHS CASELOAD/COUNTS";
    DEPARTMENT := "Academic Technology";
    ORGANIZATION := "Northside ISD - Northside Alternative High School" |};
  SPREADSHEET := {|
    SPREADSHEET_ID := "1SxbUOEIaogQyy66E4fvLcIqblGnvueduSaYz1ftsAEA";
    SHEET_NAME := "CURRENT CASELOAD";
    USER_PERMISSIONS_SHEET := "User Permissions";
    CAMPUS_COLUMN := "HOME CAMPUS";
    DATE_COLUMNS :=
      ["ENTRY DATE"; "ESCHOOL "; "LAST ARD"; "DATA SHARED"; "IEP SHARED"];
    COLUMNS_TO_REMOVE := [7; 8; 9; 12; 13; 14];
    DATE_FORMAT := "MM/dd/yy" |};
  CACHE := {|
    USER_PERMISSIONS_DURATION := 5 * 60;
    DATA_CACHE_DURATION := 2 * 60;
    PREFIX := "nahs_caseload_" |};
  SECURITY := {|
    ALLOWED_DOMAIN := "@nisd.net";
    FULL_ACCESS_CAMPUS_COUNT := 17;
    SESSION_TIMEOUT := 30 * 60 |};
  PAGINATION := {| DEFAULT_PAGE_SIZE := 50; MAX_PAGE_SIZE := 100 |};
  CAMPUSES :=
    ["Brandeis"; "Brennan"; "Clark"; "Harlan"; "Holmgreen";
     "Health Careers"; "Excel"; "Holmes"; "Jay"; "Marshall";
     "O'Connor"; "NAHS"; "Sotomayor"; "Stevens"; "Taft";
     "Warren"; "Reddix"];
  CONTACTS := {|
    TEACHER := {| contact_name := "Linda Rodriguez";
                  contact_email := "linda.rodriguez@nisd.net";
                  contact_office := None |};
    DEVELOPER := {| contact_name := "Alvaro Gomez";
                    contact_email := "alvaro.gomez@nisd.net";
                    contact_office := Some "1-210-397-9408" |} |};
  LEGACY_EMAIL_CAMPUS_MAPPING :=
    list_to_map LEGACY_EMAIL_CAMPUS_MAPPING_entries
|}.

Module ERROR_MESSAGES.
Definition INVALID_EMAIL := "Invalid email format provided".
Definition ACCESS_DENIED := "Access denied: Invalid domain or permissions".
Definition NO_CAMPUS_COLUMN := "No HOME CAMPUS column found in the sheet".
Definition DATA_LOAD_ERROR := "Error loading data from spreadsheet".
Definition CACHE_ERROR := "Error accessing cache service".
Definition PERMISSION_ERROR := "Error checking user permissions".
Definition INVALID_DATA := "Invalid or corrupted data received".
End ERROR_MESSAGES.

(** ** Exceptions, the world and the script monad *)

(** What [throw] carries: an [Error] (only [message] set) or the tracking
    object built by [createError]. *)
Record Exn := {
  exn_message : string;
  exn_originalError : option string;
  exn_context : string;
  exn_id : option string
}.

(** [new Error(msg)] *)
Definition Error (msg : string) : Exn :=
  {| exn_message := msg; exn_originalError := None;
     exn_context := ""; exn_id := None |}.

Inductive Result (A : Type) :=
| Ok (a : A)
| Throw (e : Exn).
Arguments Ok {A} a.
Arguments Throw {A} e.

Inductive LogLevel := DEBUG | INFO | WARN | ERROR | CRITICAL.

Record LogEntry := {
  log_level : LogLevel;
  log_message : string;
  log_context : string
}.

(** Broken-down UTC time, as [new Date()] presents it to [toISOString]. *)
Record Date := {
  year : N;
  month : N;
  day : N;
  hours : N;
  minutes : N;
  seconds : N;
  milliseconds : N
}.

(** Cell values are kept abstract up to their JSON rendering. *)
Record Cell := { cell_json : string }.

Definition Row := list Cell.
Definition Grid := list Row.

(** A spreadsheet as [SpreadsheetApp] shows it: its name and its sheets
    with their data ranges. *)
Record Spreadsheet := {
  ss_name : string;
  ss_sheets : gmap string Grid
}.

Inductive CacheOp := CacheGet | CachePut | CacheRemove.

(** The hosting platform as one request sees it.  These fields are the
    answers of the external services; the script cannot write them. *)
Record Platform := {
  (** [Session.getActiveUser().getEmail()] *)
  Session_getEmail : Result value;
  (** whether a call on the script cache raises for this key *)
  Cache_raises : CacheOp → string → bool;
  (** [new Date()] *)
  Date_now : Date;
  (** [Math.random().toString(36)] *)
  Math_random_base36 : string;
  (** [Utilities.getUuid()] *)
  Utilities_getUuid : string;
  (** [SpreadsheetApp.openById(id)] *)
  SpreadsheetApp_openById : string → Result Spreadsheet
}.

Record World := {
  (** the [CONFIG] object; [const] protects the binding, not its fields *)
  config : Config;
  (** contents of [CacheService.getScriptCache()] *)
  cache : gmap string string;
  (** what [Logger.log] has recorded, latest first *)
  logs : list LogEntry;
  platform : Platform
}.

Definition set_cache (f : gmap string string → gmap string string)
    (w : World) : World :=
  {| config := config w; cache := f (cache w);
     logs := logs w; platform := platform w |}.

Definition add_log (e : LogEntry) (w : World) : World :=
  {| config := config w; cache := cache w;
     logs := e :: logs w; platform := platform w |}.

Definition M (A : Type) : Type := World → Result A * World.

Definition ret {A} (a : A) : M A := λ w, (Ok a, w).

Definition bind {A B} (m : M A) (k : A → M B) : M B :=
  λ w, match m w with
       | (Ok a, w') => k a w'
       | (Throw e, w') => (Throw e, w')
       end.

Definition throw {A} (e : Exn) : M A := λ w, (Throw e, w).

(** [try { body } catch (error) { handler }] *)
Definition try_catch {A} (body : M A) (handler : Exn → M A) : M A :=
  λ w, match body w with
       | (Ok a, w') => (Ok a, w')
       | (Throw e, w') => handler e w'
       end.

Definition ask_config : M Config := λ w, (Ok (config w), w).
Definition ask_platform : M Platform := λ w, (Ok (platform w), w).

(** Run a platform call whose outcome is decided by the platform. *)
Definition lift_result {A} (r : Result A) : M A := λ w, (r, w).

Declare Scope script_scope.
Delimit Scope script_scope with script.
Notation "x <- m ;; k" := (bind m (λ x, k))
  (at level 100, m at next level, right associativity) : script_scope.
Notation "m ;; k" := (bind m (λ _, k))
  (at level 100, right associativity) : script_scope.
Local Open Scope script_scope.

(** ** Logger *)

(** [AppLogger.log]: the entry is handed to [Logger.log].  Only level,
    message and context are kept; the data payload and the session tag
    are formatting.  The method wraps its body in a [try/catch] of its
    own, and logging is taken not to raise. *)
Definition log (level : LogLevel) (message context : string) : M unit :=
  λ w, (Ok tt, add_log {| log_level := level; log_message := message;
                          log_context := context |} w).

Definition logDebug := log DEBUG.
Definition logInfo := log INFO.
Definition logWarn := log WARN.
Definition logError := log ERROR.
Definition logCritical := log CRITICAL.
Definition logPerformance (functionName : string) : M unit :=
  log INFO ("Performance: " +:+ functionName +:+ " completed") "PERFORMANCE".
Definition logUserActivity (action : string) : M unit :=
  log INFO ("User activity: " +:+ action) "USER_ACTIVITY".

(** [AppLogger.createError] *)
Definition createError (message : string) (originalError : option Exn)
    (context : string) : M Exn :=
  p <- ask_platform ;;
  let errorId := Utilities_getUuid p in
  log ERROR ("Error " +:+ errorId +:+ ": " +:+ message) context ;;
  ret {| exn_message := message;
         exn_originalError := exn_message <$> originalError;
         exn_context := context;
         exn_id := Some errorId |}.

(** ** Script cache

    Entries are opaque strings.  Expiry is the cache service's business:
    an expired entry is an absent one, so the time-to-live handed to
    [put] does not show in the contents. *)

Definition cache_get (key : string) : M (option string) :=
  λ w, if Cache_raises (platform w) CacheGet key
       then (Throw (Error "Cache service unavailable"), w)
       else (Ok (cache w !! key), w).

Definition cache_put (key val : string) (ttl : Z) : M unit :=
  λ w, if Cache_raises (platform w) CachePut key
       then (Throw (Error "Cache service unavailable"), w)
       else (Ok tt, set_cache (insert key val) w).

(** [if (cached)]: [cache.get] answers [null] for an absent key, and the
    empty string is falsy too. *)
Definition cached_truthy (cached : option string) : bool :=
  match cached with
  | Some text => negb (String.eqb text "")
  | None => false
  end.

Definition cache_remove (key : string) : M unit :=
  λ w, if Cache_raises (platform w) CacheRemove key
       then (Throw (Error "Cache service unavailable"), w)
       else (Ok tt, set_cache (delete key) w).

(** ** UserService.js *)

Record Permissions := {
  email : value;
  campuses : list string;
  hasAccess : bool;
  isFullAccess : bool;
  role : string;
  lastUpdated : option string
}.

(** The JSON codec for permission records.  [JSON.parse] raises on text
    that is not JSON; entries under a permissions key are only written by
    [getUserPermissions], so what parses is a permission record. *)
Record PermissionsCodec := {
  JSON_stringify : Permissions → string;
  JSON_parse : string → Result Permissions
}.

Definition digit (n : N) : ascii := ascii_of_N (48 + n).

Definition pad2 (n : N) : string :=
  String (digit (n / 10)) (String (digit (n mod 10)) "").
Definition pad3 (n : N) : string :=
  String (digit (n / 100)) (pad2 (n mod 100)).
Definition pad4 (n : N) : string :=
  String (digit (n / 1000)) (pad3 (n mod 1000)).
Definition pad6 (n : N) : string :=
  pad2 (n / 10000) +:+ pad4 (n mod 10000).

(** [d.toISOString()]: [YYYY-MM-DDTHH:mm:ss.sssZ], with the expanded
    six-digit year past 9999. *)
Definition toISOString (d : Date) : string :=
  (if (year d <=? 9999)%N then pad4 (year d) else "+" +:+ pad6 (year d))
  +:+ "-" +:+ pad2 (month d) +:+ "-" +:+ pad2 (day d)
  +:+ "T" +:+ pad2 (hours d) +:+ ":" +:+ pad2 (minutes d)
  +:+ ":" +:+ pad2 (seconds d) +:+ "." +:+ pad3 (milliseconds d) +:+ "Z".

Module UserService.

Definition getCurrentUserEmail : M value :=
  try_catch
    (p <- ask_platform ;;
     email <- lift_result (Session_getEmail p) ;;
     logDebug "Retrieved current user email"
       "UserService.getCurrentUserEmail" ;;
     ret email)
    (λ error,
       logError "Failed to get current user email"
         "UserService.getCurrentUserEmail" ;;
       e <- createError ERROR_MESSAGES.PERMISSION_ERROR (Some error)
              "UserService.getCurrentUserEmail" ;;
       throw e).

Definition validateUserEmail (email : value) : M bool :=
  try_catch
    (cfg <- ask_config ;;
     if negb (truthy email) || negb (String.eqb (typeof email) "string")
     then
       logWarn "Invalid email format provided"
         "UserService.validateUserEmail" ;;
       ret false
     else if negb (endsWith (ToString email) (ALLOWED_DOMAIN (SECURITY cfg)))
     then
       logWarn "Email from unauthorized domain"
         "UserService.validateUserEmail" ;;
       ret false
     else if negb (regex_test emailRegex (ToString email))
     then
       logWarn "Email failed format validation"
         "UserService.validateUserEmail" ;;
       ret false
     else
       logDebug "Email validation passed" "UserService.validateUserEmail" ;;
       ret true)
    (λ error,
       logError "Error during email validation"
         "UserService.validateUserEmail" ;;
       ret false).

(** [CONFIG.LEGACY_EMAIL_CAMPUS_MAPPING[email]] is read as an own
    property.  The names every object inherits ([constructor],
    [toString], ...) are left out: none of them ends with the domain
    suffix, and [getUserPermissions] validates before it calls. *)
Definition loadUserPermissionsFromConfig (email : value) : M Permissions :=
  try_catch
    (cfg <- ask_config ;;
     p <- ask_platform ;;
     match LEGACY_EMAIL_CAMPUS_MAPPING cfg !! ToString email with
     | None =>
         logInfo "User not found in permissions mapping"
           "UserService.loadUserPermissionsFromConfig" ;;
         ret {| email := email; campuses := []; hasAccess := false;
                isFullAccess := false; role := "none";
                lastUpdated := None |}
     | Some campusList =>
         let isFullAccess :=
           (FULL_ACCESS_CAMPUS_COUNT (SECURITY cfg) <=? length campusList)%nat in
         let permissions :=
           {| email := email; campuses := campusList; hasAccess := true;
              isFullAccess := isFullAccess;
              role := if isFullAccess then "administrator" else "coordinator";
              lastUpdated := Some (toISOString (Date_now p)) |} in
         logInfo "User permissions loaded from config"
           "UserService.loadUserPermissionsFromConfig" ;;
         ret permissions
     end)
    (λ error,
       logError "Error loading permissions from config"
         "UserService.loadUserPermissionsFromConfig" ;;
       throw error).

Section WithCodec.
Variable codec : PermissionsCodec.

Definition permissionsKey (cfg : Config) (email : value) : string :=
  PREFIX (CACHE cfg) +:+ "permissions_" +:+ ToString email.

Definition getUserPermissions (email : value) : M Permissions :=
  try_catch
    (valid <- validateUserEmail email ;;
     if negb valid then throw (Error ERROR_MESSAGES.INVALID_EMAIL)
     else
       cfg <- ask_config ;;
       let cacheKey := permissionsKey cfg email in
       cached <- cache_get cacheKey ;;
       if cached_truthy cached then
         logDebug "User permissions retrieved from cache"
           "UserService.getUserPermissions" ;;
         permissions <- lift_result (JSON_parse codec (default "" cached)) ;;
         logPerformance "getUserPermissions (cached)" ;;
         ret permissions
       else
         permissions <- loadUserPermissionsFromConfig email ;;
         try_catch
           (cache_put cacheKey (JSON_stringify codec permissions)
              (USER_PERMISSIONS_DURATION (CACHE cfg)) ;;
            logDebug "User permissions cached successfully"
              "UserService.getUserPermissions")
           (λ cacheError,
              logWarn "Failed to cache user permissions"
                "UserService.getUserPermissions") ;;
         logPerformance "getUserPermissions (fresh)" ;;
         ret permissions)
    (λ error,
       logError "Failed to get user permissions"
         "UserService.getUserPermissions" ;;
       e <- createError ERROR_MESSAGES.PERMISSION_ERROR (Some error)
              "UserService.getUserPermissions" ;;
       throw e).

Definition hasAccessToCampus (email : value) (campus : string) : M bool :=
  try_catch
    (permissions <- getUserPermissions email ;;
     let hasAccess :=
       hasAccess permissions
       && bool_decide (campus ∈ campuses permissions) in
     logDebug "Campus access check" "UserService.hasAccessToCampus" ;;
     ret hasAccess)
    (λ error,
       logError "Error checking campus access"
         "UserService.hasAccessToCampus" ;;
       ret false).

Definition hasFullAccess (email : value) : M bool :=
  try_catch
    (permissions <- getUserPermissions email ;;
     ret (isFullAccess permissions))
    (λ error,
       logError "Error checking full access" "UserService.hasFullAccess" ;;
       ret false).

Definition clearUserCache (email : value) : M unit :=
  try_catch
    (cfg <- ask_config ;;
     cache_remove (permissionsKey cfg email) ;;
     logInfo "User cache cleared" "UserService.clearUserCache")
    (λ error,
       logWarn "Failed to clear user cache" "UserService.clearUserCache").

End WithCodec.

(** [userService.logUserActivity]: the logging call under its own
    [try/catch]. *)
Definition logUserActivity (email : value) (action : string) : M unit :=
  try_catch
    (logUserActivity action)
    (λ error,
       logError "Failed to log user activity" "UserService.logUserActivity").

End UserService.

(** ** DataService.js and Utils.js

    Neither file is part of the sources at hand.  The data service is
    taken as an interface whose methods may do anything a script can do
    (raise, log, touch the cache); the small response helpers of
    [ErrorUtils] and the column removal are modelled from the
    specification. *)

Record DataStatistics := {
  (** the [error] member of the statistics object, when present *)
  stats_error : option string
}.

Record DataServiceImpl := {
  initializeSpreadsheet : M unit;
  getCachedDataForUser : value → M (option Grid);
  getDataStatistics : M DataStatistics;
  clearDataCache : value → M unit
}.

(** Shape of the answers of the mutating and status endpoints. *)
Record Response := {
  success : bool;
  message : option string;
  errorId : option string;
  timestamp : string
}.

(** [array.splice(i, 1)] for an index [i >= 0]: past the end it removes
    nothing. *)
Definition splice1 {A} (i : nat) (row : list A) : list A :=
  take i row ++ drop (S i) row.

(** [[...cols].sort((a, b) => b - a)] *)
Fixpoint insert_desc (c : nat) (cols : list nat) : list nat :=
  match cols with
  | [] => [c]
  | d :: cols' => if (d <=? c)%nat then c :: cols else d :: insert_desc c cols'
  end.

Definition sort_desc (cols : list nat) : list nat :=
  foldr insert_desc [] cols.

(** The row transformation of the test suite's column-removal simulation:
    copy the row, then splice out each index of the descending list. *)
Definition removeColumnsRow {A} (columnsToRemove : list nat) (row : list A)
    : list A :=
  foldl (λ newRow colIndex, splice1 colIndex newRow)
    row (sort_desc columnsToRemove).

Module DataService.

(** Modelled from the spec: [DataService.removeColumns] (DataService.js
    is missing).  "Remove columns at the configured index list from
    every surviving row (headers included), applying removals in
    descending index order within each row so earlier removals don't
    shift later target indices." *)
Definition removeColumns {A} (data : list (list A))
    (columnIndexes : list nat) : list (list A) :=
  map (removeColumnsRow columnIndexes) data.

End DataService.

(** What the specification promises of column removal: the cells whose
    original index is not listed, in their original order.  [i] is the
    original index of the head of [row]. *)
Fixpoint kept_cells_from {A} (i : nat) (cols : list nat) (row : list A)
    : list A :=
  match row with
  | [] => []
  | x :: row' =>
      if bool_decide (i ∈ cols) then kept_cells_from (S i) cols row'
      else x :: kept_cells_from (S i) cols row'
  end.

Definition kept_cells {A} (cols : list nat) (row : list A) : list A :=
  kept_cells_from 0 cols row.

(** Strictly descending index lists. *)
Definition descending (cols : list nat) : Prop :=
  StronglySorted (λ a b, (b < a)%nat) cols.

(** ** The main API file *)

(** [JSON.stringify] of a row-major grid. *)
Definition JSON_stringify_row (r : Row) : string :=
  "[" +:+ String.concat "," (map cell_json r) +:+ "]".

Definition JSON_stringify_grid (g : Grid) : string :=
  "[" +:+ String.concat "," (map JSON_stringify_row g) +:+ "]".

(** [try { x = first; rest } catch (error) { handler }] where the handler
    reads the local [x], still [x0] when [first] raised. *)
Definition try_catch_local {A B} (x0 : A) (first : M A) (rest : A → M B)
    (handler : A → Exn → M B) : M B :=
  λ w, match first w with
       | (Throw e, w') => handler x0 e w'
       | (Ok x, w') => try_catch (rest x) (handler x) w'
       end.

(** The character class [[-:T.]]. *)
Definition timestamp_separators : list ascii := ["-"; ":"; "T"; "."]%char.

Definition generateErrorId : M string :=
  p <- ask_platform ;;
  let timestamp :=
    js_substring
      (remove_chars timestamp_separators (toISOString (Date_now p)))
      0 14 in
  let random := js_substring (Math_random_base36 p) 2 8 in
  ret ("ERR_" +:+ timestamp +:+ "_" +:+ random).

Module ErrorUtils.

(** Modelled from the spec: [ErrorUtils.handleException] (Utils.js is
    missing).  Failures are "converted to the empty-result contract
    [...] with a generated errorId recorded server-side only"; the
    answer has the shape [{success, message?, errorId?, timestamp}]. *)
Definition handleException (error : Exn) (context : string) : M Response :=
  errorId <- generateErrorId ;;
  p <- ask_platform ;;
  logError ("Exception " +:+ errorId +:+ ": " +:+ exn_message error) context ;;
  ret {| success := false; message := Some (exn_message error);
         errorId := Some errorId;
         timestamp := toISOString (Date_now p) |}.

(** Modelled from the spec: [ErrorUtils.createSuccessResponse] (Utils.js
    is missing), the [success: true] answer of the same shape. *)
Definition createSuccessResponse (message : string) : M Response :=
  p <- ask_platform ;;
  ret {| success := true; message := Some message; errorId := None;
         timestamp := toISOString (Date_now p) |}.

End ErrorUtils.

Record HealthTests := {
  spreadsheetAccess : bool;
  userService : bool;
  cacheService : bool;
  dataProcessing : bool
}.

(** [Object.values(tests).every(test => test === true)] *)
Definition allTestsPassed (t : HealthTests) : bool :=
  forallb (λ test, test)
    [spreadsheetAccess t; userService t; cacheService t; dataProcessing t].

(** The answer of [healthCheck]; the elapsed [duration] is not kept. *)
Record HealthStatus := {
  status : string;
  health_timestamp : string;
  tests : option HealthTests;
  version : option string;
  environment : option string;
  health_error : option string
}.

Record UpdateResult := {
  upd_success : bool;
  upd_message : string;
  upd_currentSpreadsheetId : option string;
  upd_newSpreadsheetId : option string;
  upd_updatedBy : option string;
  upd_errorId : option string;
  upd_timestamp : string
}.

Section API.
Variable dataService : DataServiceImpl.
Variable codec : PermissionsCodec.

Definition filterCaseloadData_catch (userEmail : value) (error : Exn)
    : M string :=
  errorResponse <- ErrorUtils.handleException error "filterCaseloadData" ;;
  (if truthy userEmail
   then UserService.logUserActivity userEmail "data_access"
   else ret tt) ;;
  logCritical "Critical error in filterCaseloadData" "filterCaseloadData" ;;
  ret (JSON_stringify_grid []).

Definition filterCaseloadData : M string :=
  try_catch_local VNull
    (logInfo "Starting caseload data filtering" "filterCaseloadData" ;;
     UserService.getCurrentUserEmail)
    (λ userEmail,
       if negb (truthy userEmail)
       then throw (Error "Unable to identify current user")
       else
         logInfo "Processing data request for user" "filterCaseloadData" ;;
         valid <- UserService.validateUserEmail userEmail ;;
         if negb valid then
           logWarn "User access denied - invalid email"
             "filterCaseloadData" ;;
           ret (JSON_stringify_grid [])
         else
           permissions <- UserService.getUserPermissions codec userEmail ;;
           if negb (hasAccess permissions) then
             logInfo "User has no access permissions" "filterCaseloadData" ;;
             UserService.logUserActivity userEmail "access_denied" ;;
             ret (JSON_stringify_grid [])
           else
             logDebug "User permissions verified" "filterCaseloadData" ;;
             data <- getCachedDataForUser dataService userEmail ;;
             match data with
             | None | Some [] =>
                 logInfo "No data available for user" "filterCaseloadData" ;;
                 UserService.logUserActivity userEmail "data_access" ;;
                 ret (JSON_stringify_grid [])
             | Some rows =>
                 UserService.logUserActivity userEmail "data_access" ;;
                 logInfo "Data filtering completed successfully"
                   "filterCaseloadData" ;;
                 logPerformance "filterCaseloadData (complete)" ;;
                 ret (JSON_stringify_grid rows)
             end)
    filterCaseloadData_catch.

Definition clearUserCache : M Response :=
  try_catch
    (userEmail <- UserService.getCurrentUserEmail ;;
     if negb (truthy userEmail)
     then throw (Error "Unable to identify current user")
     else
       UserService.clearUserCache userEmail ;;
       clearDataCache dataService userEmail ;;
       UserService.logUserActivity userEmail "cache_cleared" ;;
       logInfo "User cache cleared successfully" "clearUserCache" ;;
       ErrorUtils.createSuccessResponse "Cache cleared successfully")
    (λ error,
       logError "Error clearing user cache" "clearUserCache" ;;
       ErrorUtils.handleException error "clearUserCache").

(** The four probes of [healthCheck]; each is its own [try/catch] and
    answers the flag it leaves in [tests]. *)
Definition probe_spreadsheetAccess : M bool :=
  try_catch
    (initializeSpreadsheet dataService ;; ret true)
    (λ error,
       logWarn "Health check: Spreadsheet access failed" "healthCheck" ;;
       ret false).

Definition probe_userService : M bool :=
  try_catch
    (userEmail <- UserService.getCurrentUserEmail ;;
     ret (truthy userEmail))
    (λ error,
       logWarn "Health check: User service failed" "healthCheck" ;;
       ret false).

Definition probe_cacheService : M bool :=
  try_catch
    (cache_put "health_test" "test" 1 ;; ret true)
    (λ error,
       logWarn "Health check: Cache service failed" "healthCheck" ;;
       ret false).

Definition probe_dataProcessing : M bool :=
  try_catch
    (stats <- getDataStatistics dataService ;;
     ret (negb (truthy (from_option VString VUndefined (stats_error stats)))))
    (λ error,
       logWarn "Health check: Data processing failed" "healthCheck" ;;
       ret false).

Definition healthCheck : M HealthStatus :=
  try_catch
    (t1 <- probe_spreadsheetAccess ;;
     t2 <- probe_userService ;;
     t3 <- probe_cacheService ;;
     t4 <- probe_dataProcessing ;;
     let tests := {| spreadsheetAccess := t1; userService := t2;
                     cacheService := t3; dataProcessing := t4 |} in
     p <- ask_platform ;;
     let healthStatus :=
       {| status := if allTestsPassed tests then "healthy" else "degraded";
          health_timestamp := toISOString (Date_now p);
          tests := Some tests;
          version := Some "2.0.0";
          environment := Some "production";
          health_error := None |} in
     logInfo "Health check completed" "healthCheck" ;;
     ret healthStatus)
    (λ error,
       logError "Health check failed" "healthCheck" ;;
       p <- ask_platform ;;
       ret {| status := "unhealthy";
              health_timestamp := toISOString (Date_now p);
              tests := None; version := None; environment := None;
              health_error := Some (exn_message error) |}).

(** Legacy alias in the API file. *)
Definition removeColumns {A} (data : list (list A))
    (columnIndexes : list nat) : list (list A) :=
  DataService.removeColumns data columnIndexes.

Definition updateSpreadsheetConfig (newSpreadsheetId : string)
    (newSheetName : string) : M UpdateResult :=
  try_catch
    (currentUserEmail <- UserService.getCurrentUserEmail ;;
     match currentUserEmail with
     | VString currentUser =>
         if negb (includes currentUser "alvaro.gomez@nisd.net")
            && negb (includes currentUser "linda.rodriguez@nisd.net")
         then throw (Error
           "Unauthorized: Only administrators can update spreadsheet configuration")
         else
           logInfo "Spreadsheet configuration update requested"
             "updateSpreadsheetConfig" ;;
           try_catch
             (p <- ask_platform ;;
              testSpreadsheet <-
                lift_result (SpreadsheetApp_openById p newSpreadsheetId) ;;
              match ss_sheets testSpreadsheet !! newSheetName with
              | None =>
                  throw (Error ("Sheet " +:+ dquote +:+ newSheetName +:+ dquote
                                +:+ " not found in the specified spreadsheet"))
              | Some [] =>
                  throw (Error "No data found in the specified sheet")
              | Some _ =>
                  logInfo "New spreadsheet validated successfully"
                    "updateSpreadsheetConfig"
              end)
             (λ testError,
                throw (Error ("Cannot access new spreadsheet: "
                              +:+ exn_message testError))) ;;
           clearUserCache ;;
           logInfo "Spreadsheet configuration would be updated"
             "updateSpreadsheetConfig" ;;
           cfg <- ask_config ;;
           p <- ask_platform ;;
           ret {| upd_success := true;
                  upd_message :=
                    "Validation successful! To complete the update, please modify CONFIG.SPREADSHEET.SPREADSHEET_ID in Config.js from "
                    +:+ dquote +:+ SPREADSHEET_ID (SPREADSHEET cfg) +:+ dquote
                    +:+ " to " +:+ dquote +:+ newSpreadsheetId +:+ dquote;
                  upd_currentSpreadsheetId :=
                    Some (SPREADSHEET_ID (SPREADSHEET cfg));
                  upd_newSpreadsheetId := Some newSpreadsheetId;
                  upd_updatedBy := Some currentUser;
                  upd_errorId := None;
                  upd_timestamp := toISOString (Date_now p) |}
     | _ =>
         (* [.includes] on a value that is not a string *)
         throw (Error "TypeError: currentUserEmail.includes is not a function")
     end)
    (λ error,
       logError "Failed to update spreadsheet configuration"
         "updateSpreadsheetConfig" ;;
       errorId <- generateErrorId ;;
       p <- ask_platform ;;
       ret {| upd_success := false;
              upd_message := exn_message error;
              upd_currentSpreadsheetId := None;
              upd_newSpreadsheetId := None;
              upd_updatedBy := None;
              upd_errorId := Some errorId;
              upd_timestamp := toISOString (Date_now p) |}).

End API.


(** ** Notions used by the statements *)

(** The decision [validateUserEmail] takes, without its logging. *)
Definition isValidEmail (cfg : Config) (email : value) : bool :=
  truthy email
  && String.eqb (typeof email) "string"
  && endsWith (ToString email) (ALLOWED_DOMAIN (SECURITY cfg))
  && regex_test emailRegex (ToString email).

(** The record [loadUserPermissionsFromConfig] builds, without its
    logging. *)
Definition permissionsFromConfig (cfg : Config) (now : Date) (email : value)
    : Permissions :=
  match LEGACY_EMAIL_CAMPUS_MAPPING cfg !! ToString email with
  | None =>
      {| email := email; campuses := []; hasAccess := false;
         isFullAccess := false; role := "none"; lastUpdated := None |}
  | Some campusList =>
      let full :=
        (FULL_ACCESS_CAMPUS_COUNT (SECURITY cfg) <=? length campusList)%nat in
      {| email := email; campuses := campusList; hasAccess := true;
         isFullAccess := full;
         role := if full then "administrator" else "coordinator";
         lastUpdated := Some (toISOString now) |}
  end.

(** A computation that returns to its caller in every world. *)
Definition returns {A} (m : M A) : Prop :=
  ∀ w, ∃ a w', m w = (Ok a, w').

(** A computation that leaves the [CONFIG] object as it found it. *)
Definition keeps_config {A} (m : M A) : Prop :=
  ∀ w, config (m w).2 = config w.

(** The same platform with the cache faults replaced. *)
Definition with_cache_raises (f : CacheOp → string → bool) (w : World)
    : World :=
  {| config := config w; cache := cache w; logs := logs w;
     platform :=
       {| Session_getEmail := Session_getEmail (platform w);
          Cache_raises := f;
          Date_now := Date_now (platform w);
          Math_random_base36 := Math_random_base36 (platform w);
          Utilities_getUuid := Utilities_getUuid (platform w);
          SpreadsheetApp_openById := SpreadsheetApp_openById (platform w) |} |}.

Fixpoint all_chars (p : ascii → bool) (s : string) : bool :=
  match s with
  | EmptyString => true
  | String c s' => p c && all_chars p s'
  end.












(** The run in which every step of [filterCaseloadData] goes through, up
    to the grid [rows] handed back by the data service. *)
Definition serves_rows ds codec (w : World) (rows : Grid) : Prop :=
  ∃ (userEmail : value) (permissions : Permissions) (w1 w2 w3 w4 : World),
    (logInfo "Starting caseload data filtering" "filterCaseloadData" ;;
     UserService.getCurrentUserEmail)%script w = (Ok userEmail, w1)
    ∧ truthy userEmail = true
    ∧ (logInfo "Processing data request for user" "filterCaseloadData" ;;
       UserService.validateUserEmail userEmail)%script w1 = (Ok true, w2)
    ∧ UserService.getUserPermissions codec userEmail w2 = (Ok permissions, w3)
    ∧ hasAccess permissions = true
    ∧ (logDebug "User permissions verified" "filterCaseloadData" ;;
       getCachedDataForUser ds userEmail)%script w3 = (Ok (Some rows), w4)
    ∧ rows ≠ [].

(** What every entry of the reference table satisfies. *)
Definition entry_ok (kv : string * list string) : Prop :=
  Forall (λ campus, campus ∈ CAMPUSES CONFIG) kv.2
  ∧ ((17 ≤ length kv.2)%nat ↔ kv.1 = "linda.rodriguez@nisd.net").

#[local] Instance entry_ok_dec (kv : string * list string) :
  Decision (entry_ok kv).
Proof. unfold entry_ok. apply _. Defined.

(** ** Sample runs *)

Definition sample_date : Date :=
  {| year := 2025; month := 8; day := 6; hours := 12; minutes := 0;
     seconds := 0; milliseconds := 0 |}.

Definition sample_spreadsheet : Spreadsheet :=
  {| ss_name := "NAHS Caseload";
     ss_sheets :=
       {[ "CURRENT CASELOAD" :=
            [[ {| cell_json := "1" |} ]] ]} |}.

Definition sample_platform (user : Result value) (random36 : string)
    (raises : CacheOp → string → bool) : Platform :=
  {| Session_getEmail := user;
     Cache_raises := raises;
     Date_now := sample_date;
     Math_random_base36 := random36;
     Utilities_getUuid := "7f0c2b1e-5a3d-4c8e-9b1a-2d6f4e8a0c11";
     SpreadsheetApp_openById := λ id,
       if String.eqb id "1NewSpreadsheetIdForThisYear"
       then Ok sample_spreadsheet
       else Throw (Error "Unexpected error while getting the method or property openById") |}.

Definition sample_world (user : Result value) (random36 : string)
    (raises : CacheOp → string → bool) : World :=
  {| config := CONFIG; cache := ∅; logs := [];
     platform := sample_platform user random36 raises |}.

(** A codec for sample runs: the record is written as JSON text; the
    reader accepts no text (no sample run reads a cache hit). *)
Definition sample_codec : PermissionsCodec :=
  {| JSON_stringify := λ p,
       "{hasAccess:" +:+ (if hasAccess p then "true" else "false")
       +:+ ",isFullAccess:" +:+ (if isFullAccess p then "true" else "false")
       +:+ ",role:" +:+ role p
       +:+ ",campuses:[" +:+ String.concat "," (campuses p) +:+ "]}";
     JSON_parse := λ _, Throw (Error "SyntaxError: Unexpected token") |}.

(** A data service for sample runs.  [clearDataCache] is modelled from
    the spec ("removes [...] the processed-data cache entry for that
    identity"); the reading methods answer an empty source. *)
Definition sample_dataService : DataServiceImpl :=
  {| initializeSpreadsheet :=
       (cfg <- ask_config ;;
        p <- ask_platform ;;
        ss <- lift_result
                (SpreadsheetApp_openById p (SPREADSHEET_ID (SPREADSHEET cfg))) ;;
        match ss_sheets ss !! SHEET_NAME (SPREADSHEET cfg) with
        | None => throw (Error ERROR_MESSAGES.DATA_LOAD_ERROR)
        | Some _ => ret tt
        end);
     getCachedDataForUser := λ _, ret None;
     getDataStatistics := ret {| stats_error := None |};
     clearDataCache := λ userEmail,
       (cfg <- ask_config ;;
        cache_remove (PREFIX (CACHE cfg) +:+ "data_" +:+ ToString userEmail)) |}.

(** * Further functions *)

(** ** A reading of regular expressions as languages *)

Inductive matches : regex → string → Prop :=
| matches_eps : matches Eps ""
| matches_class p c : p c = true → matches (Class p) (String c "")
| matches_seq r1 r2 s1 s2 :
    matches r1 s1 → matches r2 s2 → matches (Seq r1 r2) (s1 +:+ s2)
| matches_alt_l r1 r2 s : matches r1 s → matches (Alt r1 r2) s
| matches_alt_r r1 r2 s : matches r2 s → matches (Alt r1 r2) s
| matches_star_nil r : matches (Star r) ""
| matches_star_cons r s1 s2 :
    matches r s1 → matches (Star r) s2 → matches (Star r) (s1 +:+ s2).

(** ** UserService.js: the remaining queries *)

(** The answer of [getUserSummary]; the members after [hasAccess] are
    absent from the answer given on failure. *)
Record UserSummary := {
  summary_email : value;
  summary_isValid : bool;
  summary_hasAccess : bool;
  summary_campusCount : option nat;
  summary_isFullAccess : option bool;
  summary_role : option string;
  summary_campuses : option (list string);
  summary_error : option string
}.

Section MoreUserService.
Variable codec : PermissionsCodec.

Definition getUserCampuses (email : value) : M (list string) :=
  try_catch
    (permissions <- UserService.getUserPermissions codec email ;;
     if negb (hasAccess permissions) then
       logInfo "User has no campus access" "UserService.getUserCampuses" ;;
       ret []
     else ret (campuses permissions))
    (λ error,
       logError "Error getting user campuses" "UserService.getUserCampuses" ;;
       ret []).

Definition getUserSummary (email : value) : M UserSummary :=
  try_catch
    (permissions <- UserService.getUserPermissions codec email ;;
     isValid <- UserService.validateUserEmail email ;;
     ret {| summary_email := email;
            summary_isValid := isValid;
            summary_hasAccess := hasAccess permissions;
            summary_campusCount := Some (length (campuses permissions));
            summary_isFullAccess := Some (isFullAccess permissions);
            summary_role := Some (role permissions);
            summary_campuses := Some (campuses permissions);
            summary_error := None |})
    (λ error,
       logError "Error getting user summary" "UserService.getUserSummary" ;;
       ret {| summary_email := email;
              summary_isValid := false;
              summary_hasAccess := false;
              summary_campusCount := None;
              summary_isFullAccess := None;
              summary_role := None;
              summary_campuses := None;
              summary_error := Some (exn_message error) |}).

End MoreUserService.

(** ** The main API file: administrative and diagnostic endpoints *)

(** The three shapes an administrator-only endpoint answers with: the
    data, [{ error: 'Access denied - admin privileges required' }], or
    the error response built in its [catch]. *)
Inductive AdminAnswer (A : Type) :=
| Granted (a : A)
| AccessDenied
| Failed (r : Response).
Arguments Granted {A} a.
Arguments AccessDenied {A}.
Arguments Failed {A} r.

Record UserInfo := {
  info_user : UserSummary;
  info_dataStatistics : DataStatistics;
  info_timestamp : string
}.

Record SafeConfig := {
  safe_app : AppConfig;
  safe_sheetName : string;
  safe_campusColumn : string;
  safe_dateColumns : list string;
  safe_dateFormat : string;
  safe_campuses : list string;
  safe_contacts : ContactsConfig;
  safe_version : string
}.

(** The answer of [getSpreadsheetConfig]. *)
Record SpreadsheetConfigAnswer := {
  sca_success : bool;
  sca_spreadsheetId : option string;
  sca_sheetName : option string;
  sca_campusColumn : option string;
  sca_dateColumns : option (list string);
  sca_columnsToRemove : option (list nat);
  sca_dateFormat : option string;
  sca_requestedBy : option value;
  sca_message : option string;
  sca_errorId : option string;
  sca_timestamp : string
}.

(** The answer of [testSpreadsheetConnection]. *)
Record ConnectionTest := {
  ct_success : bool;
  ct_message : string;
  ct_spreadsheetId : string;
  ct_sheetName : string;
  ct_spreadsheetName : option string;
  ct_dataRows : option Z;
  ct_dataColumns : option Z;
  ct_headers : option Row;
  ct_campusColumnFound : option bool;
  ct_campusColumnIndex : option Z;
  ct_sampleData : option Grid;
  ct_testedBy : option value;
  ct_errorId : option string;
  ct_timestamp : option string
}.

(** [array.findIndex(f)]: the first index whose element satisfies [f],
    or [-1]. *)
Fixpoint findIndex_from {A} (f : A → bool) (i : Z) (l : list A) : Z :=
  match l with
  | [] => -1
  | x :: l' => if f x then i else findIndex_from f (i + 1) l'
  end.

Definition findIndex {A} (f : A → bool) (l : list A) : Z :=
  findIndex_from f 0 l.

Section MoreAPI.
Variable dataService : DataServiceImpl.
Variable codec : PermissionsCodec.
(** What a header cell answers: its truthiness, and
    [header.toString().toUpperCase()]. *)
Variable header_truthy : Cell → bool.
Variable header_toUpperCase : Cell → string.

Definition getUserInfo (email : value) : M (AdminAnswer UserInfo) :=
  try_catch
    (targetEmail <- (if truthy email then ret email
                     else UserService.getCurrentUserEmail) ;;
     currentUserEmail <- UserService.getCurrentUserEmail ;;
     full <- UserService.hasFullAccess codec currentUserEmail ;;
     if negb full then ret AccessDenied
     else
       userSummary <- getUserSummary codec targetEmail ;;
       dataStats <- getDataStatistics dataService ;;
       logInfo "User info requested" "getUserInfo" ;;
       p <- ask_platform ;;
       ret (Granted {| info_user := userSummary;
                       info_dataStatistics := dataStats;
                       info_timestamp := toISOString (Date_now p) |}))
    (λ error,
       logError "Error getting user info" "getUserInfo" ;;
       r <- ErrorUtils.handleException error "getUserInfo" ;;
       ret (Failed r)).

Definition getAppConfig : M (AdminAnswer SafeConfig) :=
  try_catch
    (currentUserEmail <- UserService.getCurrentUserEmail ;;
     full <- UserService.hasFullAccess codec currentUserEmail ;;
     if negb full then ret AccessDenied
     else
       cfg <- ask_config ;;
       let safeConfig :=
         {| safe_app := APP cfg;
            safe_sheetName := SHEET_NAME (SPREADSHEET cfg);
            safe_campusColumn := CAMPUS_COLUMN (SPREADSHEET cfg);
            safe_dateColumns := DATE_COLUMNS (SPREADSHEET cfg);
            safe_dateFormat := DATE_FORMAT (SPREADSHEET cfg);
            safe_campuses := CAMPUSES cfg;
            safe_contacts := CONTACTS cfg;
            safe_version := "2.0.0" |} in
       logInfo "App configuration requested" "getAppConfig" ;;
       ret (Granted safeConfig))
    (λ error,
       logError "Error getting app config" "getAppConfig" ;;
       r <- ErrorUtils.handleException error "getAppConfig" ;;
       ret (Failed r)).

Definition getSpreadsheetConfig : M SpreadsheetConfigAnswer :=
  try_catch
    (currentUserEmail <- UserService.getCurrentUserEmail ;;
     logInfo "Spreadsheet configuration requested" "getSpreadsheetConfig" ;;
     cfg <- ask_config ;;
     p <- ask_platform ;;
     ret {| sca_success := true;
            sca_spreadsheetId := Some (SPREADSHEET_ID (SPREADSHEET cfg));
            sca_sheetName := Some (SHEET_NAME (SPREADSHEET cfg));
            sca_campusColumn := Some (CAMPUS_COLUMN (SPREADSHEET cfg));
            sca_dateColumns := Some (DATE_COLUMNS (SPREADSHEET cfg));
            sca_columnsToRemove := Some (COLUMNS_TO_REMOVE (SPREADSHEET cfg));
            sca_dateFormat := Some (DATE_FORMAT (SPREADSHEET cfg));
            sca_requestedBy := Some currentUserEmail;
            sca_message := None;
            sca_errorId := None;
            sca_timestamp := toISOString (Date_now p) |})
    (λ error,
       logError "Failed to get spreadsheet configuration"
         "getSpreadsheetConfig" ;;
       errorId <- generateErrorId ;;
       p <- ask_platform ;;
       ret {| sca_success := false;
              sca_spreadsheetId := None;
              sca_sheetName := None;
              sca_campusColumn := None;
              sca_dateColumns := None;
              sca_columnsToRemove := None;
              sca_dateFormat := None;
              sca_requestedBy := None;
              sca_message := Some (exn_message error);
              sca_errorId := Some errorId;
              sca_timestamp := toISOString (Date_now p) |}).

(** [header && header.toString().toUpperCase().includes('CAMPUS')] *)
Definition mentions_campus (header : Cell) : bool :=
  header_truthy header && includes (header_toUpperCase header) "CAMPUS".

Definition testSpreadsheetConnection (spreadsheetId sheetName : string)
    : M ConnectionTest :=
  try_catch
    (currentUserEmail <- UserService.getCurrentUserEmail ;;
     logInfo "Testing spreadsheet connection" "testSpreadsheetConnection" ;;
     p <- ask_platform ;;
     testSpreadsheet <- lift_result (SpreadsheetApp_openById p spreadsheetId) ;;
     let spreadsheetName := ss_name testSpreadsheet in
     match ss_sheets testSpreadsheet !! sheetName with
     | None =>
         throw (Error ("Sheet " +:+ dquote +:+ sheetName +:+ dquote
                       +:+ " not found in spreadsheet"))
     | Some [] =>
         ret {| ct_success := false;
                ct_message := "No data found in the specified sheet";
                ct_spreadsheetId := spreadsheetId;
                ct_sheetName := sheetName;
                ct_spreadsheetName := None;
                ct_dataRows := None;
                ct_dataColumns := None;
                ct_headers := None;
                ct_campusColumnFound := None;
                ct_campusColumnIndex := None;
                ct_sampleData := None;
                ct_testedBy := None;
                ct_errorId := None;
                ct_timestamp := None |}
     | Some (headers :: rows) =>
         let testData := headers :: rows in
         let campusColumnIndex := findIndex mentions_campus headers in
         let analysisResult :=
           {| ct_success := true;
              ct_message := "Spreadsheet connection test successful";
              ct_spreadsheetId := spreadsheetId;
              ct_sheetName := sheetName;
              ct_spreadsheetName := Some spreadsheetName;
              ct_dataRows := Some (Z.of_nat (length testData) - 1)%Z;
              ct_dataColumns := Some (Z.of_nat (length headers));
              ct_headers := Some headers;
              ct_campusColumnFound := Some (0 <=? campusColumnIndex)%Z;
              ct_campusColumnIndex := Some campusColumnIndex;
              ct_sampleData := Some (take 3 testData);
              ct_testedBy := Some currentUserEmail;
              ct_errorId := None;
              ct_timestamp := Some (toISOString (Date_now p)) |} in
         logInfo "Spreadsheet connection test completed successfully"
           "testSpreadsheetConnection" ;;
         ret analysisResult
     end)
    (λ error,
       logError "Spreadsheet connection test failed"
         "testSpreadsheetConnection" ;;
       errorId <- generateErrorId ;;
       p <- ask_platform ;;
       ret {| ct_success := false;
              ct_message := "Connection test failed: " +:+ exn_message error;
              ct_spreadsheetId := spreadsheetId;
              ct_sheetName := sheetName;
              ct_spreadsheetName := None;
              ct_dataRows := None;
              ct_dataColumns := None;
              ct_headers := None;
              ct_campusColumnFound := None;
              ct_campusColumnIndex := None;
              ct_sampleData := None;
              ct_testedBy := None;
              ct_errorId := Some errorId;
              ct_timestamp := Some (toISOString (Date_now p)) |}).

End MoreAPI.

(** ** Migration.js *)

(** The answer of [analyzeDataCompatibility]; [maxScore],
    [recommendations] and [summary] are absent from the answer given on
    failure. *)
Record Compatibility := {
  comp_score : Z;
  comp_maxScore : option Z;
  comp_warnings : list string;
  comp_recommendations : option (list string);
  comp_level : string;
  comp_summary : option string;
  comp_error : option string
}.

(** Comparisons with a member that may be [undefined]: every one of them
    is false then. *)
Definition num_gt (x : option Z) (n : Z) : bool :=
  from_option (λ v, (n <? v)%Z) false x.
Definition num_ge (x : option Z) (n : Z) : bool :=
  from_option (λ v, (n <=? v)%Z) false x.
Definition num_le (x : option Z) (n : Z) : bool :=
  from_option (λ v, (v <=? n)%Z) false x.
Definition num_lt (x : option Z) (n : Z) : bool :=
  from_option (λ v, (v <? n)%Z) false x.

(** The tally of the [try] block, in the order of the source: each of
    the five checks adds its points to the score or pushes its warning,
    then the level is read off the score.  The arguments are the
    outcomes of the conditions the source tests. *)
Definition tallyChecks
    (hasDataRows campusColumnFound hasHeaders : bool)
    (columnsInRange fewColumns rowsInRange fewRows : bool) : Compatibility :=
  let step (ok : bool) (points : Z) (warning : string)
      (acc : Z * list string) : Z * list string :=
    if ok then ((acc.1 + points)%Z, acc.2)
    else (acc.1, (acc.2 ++ [warning])%list) in
  let acc0 : Z * list string := (0%Z, []) in
  let acc1 :=
    step hasDataRows 30%Z
      "New spreadsheet appears to have no data rows" acc0 in
  let acc2 :=
    step campusColumnFound 25%Z
      "Campus column not clearly identified in new spreadsheet" acc1 in
  let recommendations :=
    if campusColumnFound then []
    else ["Verify that a column containing campus information exists"] in
  let acc3 :=
    step hasHeaders 20%Z "No headers found in new spreadsheet" acc2 in
  let acc4 :=
    step columnsInRange 15%Z
      (if fewColumns
       then "New spreadsheet has very few columns - may be missing data"
       else "New spreadsheet has many columns - may need configuration updates")
      acc3 in
  let acc5 :=
    step rowsInRange 10%Z
      (if fewRows
       then "New spreadsheet has very little data"
       else "New spreadsheet has a large amount of data - performance may be affected")
      acc4 in
  let score := acc5.1 in
  let compatibilityLevel :=
    if (90 <=? score)%Z then "EXCELLENT"
    else if (70 <=? score)%Z then "GOOD"
    else if (50 <=? score)%Z then "FAIR"
    else "POOR" in
  {| comp_score := score;
     comp_maxScore := Some 100%Z;
     comp_warnings := acc5.2;
     comp_recommendations := Some recommendations;
     comp_level := compatibilityLevel;
     comp_summary :=
       Some ("Compatibility: " +:+ compatibilityLevel +:+ " ("
             +:+ pretty score +:+ "/" +:+ pretty 100%Z +:+ ")");
     comp_error := None |}.

(** The body of the [try] block: the conditions of the five checks, as
    the source writes them, handed to the tally. *)
Definition compatibilityOf (newSpreadsheetTest : ConnectionTest)
    : Compatibility :=
  let t := newSpreadsheetTest in
  tallyChecks
    (num_gt (ct_dataRows t) 0%Z)
    (from_option id false (ct_campusColumnFound t))
    (from_option (λ headers, (0 <? length headers)%nat) false (ct_headers t))
    (num_ge (ct_dataColumns t) 5%Z && num_le (ct_dataColumns t) 50%Z)
    (num_lt (ct_dataColumns t) 5%Z)
    (num_ge (ct_dataRows t) 10%Z && num_le (ct_dataRows t) 10000%Z)
    (num_lt (ct_dataRows t) 10%Z).

Definition analyzeDataCompatibility (currentConfig : SpreadsheetConfigAnswer)
    (newSpreadsheetTest : ConnectionTest) : M Compatibility :=
  try_catch
    (ret (compatibilityOf newSpreadsheetTest))
    (λ error,
       logError "Error analyzing data compatibility"
         "analyzeDataCompatibility" ;;
       ret {| comp_score := 0%Z;
              comp_maxScore := None;
              comp_warnings :=
                ["Could not analyze data compatibility due to error"];
              comp_recommendations := None;
              comp_level := "ERROR";
              comp_summary := None;
              comp_error := Some (exn_message error) |}).

(** The answer of [migrateToNewSchoolYear].  The constant members (the
    five instruction steps, the recommendations, the troubleshooting
    hint) are left out. *)
Record MigrationResult := {
  mig_success : bool;
  mig_migrationId : option string;
  mig_performedBy : option string;
  mig_currentSpreadsheetId : option string;
  mig_currentSheetName : option string;
  mig_newSpreadsheetId : option string;
  mig_newSheetName : option string;
  mig_spreadsheetName : option string;
  mig_dataRows : option Z;
  mig_dataColumns : option Z;
  mig_compatibility : option Compatibility;
  mig_configUpdate : option string;
  mig_warnings : list string;
  mig_error : option string;
  mig_timestamp : string
}.

(** The answer of [emergencyRollback]; of the instructions only the
    first, which names the target, is kept. *)
Record RollbackResult := {
  rb_success : bool;
  rb_message : option string;
  rb_step1 : option string;
  rb_rollbackTarget : option ConnectionTest;
  rb_error : option string;
  rb_timestamp : string
}.

(** The line feed and the single quote, as one-character strings. *)
Definition newline : string := String (ascii_of_nat 10) EmptyString.
Definition squote : string := String (ascii_of_nat 39) EmptyString.

Section Migration.
Variable dataService : DataServiceImpl.
Variable header_truthy : Cell → bool.
Variable header_toUpperCase : Cell → string.

(** [migrateToNewSchoolYear]: the identity is read before the [try]
    block is entered. *)
Definition migrateToNewSchoolYear (newSpreadsheetId newSheetName : string)
    : M MigrationResult :=
  currentUserEmail <- UserService.getCurrentUserEmail ;;
  try_catch
    (logInfo "Starting school year migration process"
       "migrateToNewSchoolYear" ;;
     match currentUserEmail with
     | VString currentUser =>
         if negb (includes currentUser "alvaro.gomez@nisd.net")
            && negb (includes currentUser "linda.rodriguez@nisd.net")
         then throw (Error
           "Unauthorized: Only administrators can perform school year migration")
         else
           connectionTest <-
             testSpreadsheetConnection header_truthy header_toUpperCase
               newSpreadsheetId newSheetName ;;
           if negb (ct_success connectionTest)
           then throw (Error ("New spreadsheet validation failed: "
                              +:+ ct_message connectionTest))
           else
             currentConfig <- getSpreadsheetConfig ;;
             compatibility <-
               analyzeDataCompatibility currentConfig connectionTest ;;
             migrationId <- generateErrorId ;;
             p <- ask_platform ;;
             let migrationSummary :=
               {| mig_success := true;
                  mig_migrationId := Some migrationId;
                  mig_performedBy := Some currentUser;
                  mig_currentSpreadsheetId := sca_spreadsheetId currentConfig;
                  mig_currentSheetName := sca_sheetName currentConfig;
                  mig_newSpreadsheetId := Some newSpreadsheetId;
                  mig_newSheetName := Some newSheetName;
                  mig_spreadsheetName := ct_spreadsheetName connectionTest;
                  mig_dataRows := ct_dataRows connectionTest;
                  mig_dataColumns := ct_dataColumns connectionTest;
                  mig_compatibility := Some compatibility;
                  mig_configUpdate :=
                    Some ("Change line in Config.js from:" +:+ newline
                          +:+ "SPREADSHEET_ID: " +:+ squote
                          +:+ default "undefined"
                                (sca_spreadsheetId currentConfig)
                          +:+ squote +:+ "," +:+ newline
                          +:+ "To:" +:+ newline
                          +:+ "SPREADSHEET_ID: " +:+ squote
                          +:+ newSpreadsheetId +:+ squote +:+ ",");
                  mig_warnings := comp_warnings compatibility;
                  mig_error := None;
                  mig_timestamp := toISOString (Date_now p) |} in
             clearUserCache dataService ;;
             logInfo "School year migration analysis completed successfully"
               "migrateToNewSchoolYear" ;;
             ret migrationSummary
     | _ =>
         (* [.includes] on a value that is not a string *)
         throw (Error "TypeError: currentUserEmail.includes is not a function")
     end)
    (λ error,
       logError "School year migration failed" "migrateToNewSchoolYear" ;;
       p <- ask_platform ;;
       ret {| mig_success := false;
              mig_migrationId := None;
              mig_performedBy := None;
              mig_currentSpreadsheetId := None;
              mig_currentSheetName := None;
              mig_newSpreadsheetId := None;
              mig_newSheetName := None;
              mig_spreadsheetName := None;
              mig_dataRows := None;
              mig_dataColumns := None;
              mig_compatibility := None;
              mig_configUpdate := None;
              mig_warnings := [];
              mig_error := Some (exn_message error);
              mig_timestamp := toISOString (Date_now p) |}).

Definition emergencyRollback (previousSpreadsheetId : string)
    : M RollbackResult :=
  try_catch
    (currentUserEmail <- UserService.getCurrentUserEmail ;;
     logWarn "Emergency rollback initiated" "emergencyRollback" ;;
     rollbackTest <-
       testSpreadsheetConnection header_truthy header_toUpperCase
         previousSpreadsheetId "CURRENT CASELOAD" ;;
     if negb (ct_success rollbackTest)
     then throw (Error ("Rollback target validation failed: "
                        +:+ ct_message rollbackTest))
     else
       clearUserCache dataService ;;
       p <- ask_platform ;;
       ret {| rb_success := true;
              rb_message := Some "Rollback target validated successfully";
              rb_step1 :=
                Some ("Update CONFIG.SPREADSHEET.SPREADSHEET_ID in Config.js to: "
                      +:+ squote +:+ previousSpreadsheetId +:+ squote);
              rb_rollbackTarget := Some rollbackTest;
              rb_error := None;
              rb_timestamp := toISOString (Date_now p) |})
    (λ error,
       logCritical "Emergency rollback failed" "emergencyRollback" ;;
       p <- ask_platform ;;
       ret {| rb_success := false;
              rb_message := None;
              rb_step1 := None;
              rb_rollbackTarget := None;
              rb_error := Some (exn_message error);
              rb_timestamp := toISOString (Date_now p) |}).

End Migration.

(** ** The test suite's row filter *)

(** [array.filter((x, index) => f(index, x))], with [i] the index of the
    head. *)
Fixpoint filter_indexed {A} (f : nat → A → bool) (i : nat) (l : list A)
    : list A :=
  match l with
  | [] => []
  | x :: l' =>
      if f i x then x :: filter_indexed f (S i) l'
      else filter_indexed f (S i) l'
  end.

(** [userCampuses.includes(row[campusIndex])]; a row too short to have
    the column is not kept. *)
Definition row_in_campuses (userCampuses : list string) (campusIndex : nat)
    (row : list string) : bool :=
  match row !! campusIndex with
  | Some campus => bool_decide (campus ∈ userCampuses)
  | None => false
  end.

(** The filter of the data-filtering and end-to-end simulations: the
    header row is kept, a data row is kept when its campus is listed. *)
Definition filterRowsByCampus (userCampuses : list string) (campusIndex : nat)
    (data : list (list string)) : list (list string) :=
  filter_indexed
    (λ index row,
       if (index =? 0)%nat then true
       else row_in_campuses userCampuses campusIndex row)
    0 data.

(** Whether a request gets as far as the data fetch: the identity is
    resolved, non-empty and valid, and its record has [hasAccess]. *)
Definition reaches_data_fetch (codec : PermissionsCodec) (w : World) : bool :=
  match (logInfo "Starting caseload data filtering" "filterCaseloadData" ;;
         UserService.getCurrentUserEmail)%script w with
  | (Ok userEmail, w1) =>
      truthy userEmail
      && match (logInfo "Processing data request for user"
                  "filterCaseloadData" ;;
                UserService.validateUserEmail userEmail)%script w1 with
         | (Ok true, w2) =>
             match UserService.getUserPermissions codec userEmail w2 with
             | (Ok permissions, _) => hasAccess permissions
             | (Throw _, _) => false
             end
         | _ => false
         end
  | (Throw _, _) => false
  end.

(** A codec for sample runs that reads back one record: the text
    [stringify] writes for [p0] parses to [p0], any other text is
    rejected. *)
Definition sample_codec_for (p0 : Permissions) : PermissionsCodec :=
  {| JSON_stringify := JSON_stringify sample_codec;
     JSON_parse := λ text,
       if String.eqb text (JSON_stringify sample_codec p0) then Ok p0
       else Throw (Error "SyntaxError: Unexpected token") |}.

(** ** Notions used by the statements about the further functions *)

(** The character class [[^@]]. *)
Definition not_at (c : ascii) : bool := negb (Ascii.eqb c "@").

(** What the table says about an identity, read as the three queries
    read it. *)
Definition table_campuses (cfg : Config) (email : value) : list string :=
  default [] (LEGACY_EMAIL_CAMPUS_MAPPING cfg !! ToString email).

(** Whether the table lists the identity with at least the threshold
    number of campuses. *)
Definition table_full_access (cfg : Config) (email : value) : bool :=
  match LEGACY_EMAIL_CAMPUS_MAPPING cfg !! ToString email with
  | Some campusList =>
      (FULL_ACCESS_CAMPUS_COUNT (SECURITY cfg) <=? length campusList)%nat
  | None => false
  end.

(** The index at which the column of original index [index] is found
    after the columns [cols] are removed: the number of surviving
    columns before it. *)
Definition index_after_removal (cols : list nat) (index : nat) : nat :=
  length (List.filter (λ j, negb (bool_decide (j ∈ cols))) (seq 0 index)).

(** The outcome of a connection test, by what the platform answers. *)
Definition connection_outcome (w : World) (spreadsheetId sheetName : string)
    : option (value * Spreadsheet * Row * Grid) :=
  match Session_getEmail (platform w),
        SpreadsheetApp_openById (platform w) spreadsheetId with
  | Ok email, Ok ss =>
      match ss_sheets ss !! sheetName with
      | Some (headers :: rows) => Some (email, ss, headers, rows)
      | _ => None
      end
  | _, _ => None
  end.

(** The answer of a connection test that went through, for the header
    row and the data rows found in the sheet. *)
Definition successfulConnectionTest (header_truthy : Cell → bool)
    (header_toUpperCase : Cell → string) (spreadsheetId sheetName : string)
    (email : value) (ss : Spreadsheet) (headers : Row) (rows : Grid)
    (now : Date) : ConnectionTest :=
  {| ct_success := true;
     ct_message := "Spreadsheet connection test successful";
     ct_spreadsheetId := spreadsheetId;
     ct_sheetName := sheetName;
     ct_spreadsheetName := Some (ss_name ss);
     ct_dataRows := Some (Z.of_nat (length (headers :: rows)) - 1)%Z;
     ct_dataColumns := Some (Z.of_nat (length headers));
     ct_headers := Some headers;
     ct_campusColumnFound :=
       Some (0 <=? findIndex (mentions_campus header_truthy
                                header_toUpperCase) headers)%Z;
     ct_campusColumnIndex :=
       Some (findIndex (mentions_campus header_truthy header_toUpperCase)
               headers);
     ct_sampleData := Some (take 3 (headers :: rows));
     ct_testedBy := Some email;
     ct_errorId := None;
     ct_timestamp := Some (toISOString now) |}.

(** The configuration members [getAppConfig] hands out. *)
Definition safeConfigOf (cfg : Config) : SafeConfig :=
  {| safe_app := APP cfg;
     safe_sheetName := SHEET_NAME (SPREADSHEET cfg);
     safe_campusColumn := CAMPUS_COLUMN (SPREADSHEET cfg);
     safe_dateColumns := DATE_COLUMNS (SPREADSHEET cfg);
     safe_dateFormat := DATE_FORMAT (SPREADSHEET cfg);
     safe_campuses := CAMPUSES cfg;
     safe_contacts := CONTACTS cfg;
     safe_version := "2.0.0" |}.

(** * Properties *)

(** ** The script monad *)

Lemma bind_ok {A B} (m : M A) (k : A → M B) w a w' :
  m w = (Ok a, w') → bind m k w = k a w'.
Proof. intros H. unfold bind. by rewrite H. Qed.

Lemma bind_throw {A B} (m : M A) (k : A → M B) w e w' :
  m w = (Throw e, w') → bind m k w = (Throw e, w').
Proof. intros H. unfold bind. by rewrite H. Qed.

Lemma try_catch_ok {A} (body : M A) handler w a w' :
  body w = (Ok a, w') → try_catch body handler w = (Ok a, w').
Proof. intros H. unfold try_catch. by rewrite H. Qed.

Lemma try_catch_throw {A} (body : M A) handler w e w' :
  body w = (Throw e, w') → try_catch body handler w = handler e w'.
Proof. intros H. unfold try_catch. by rewrite H. Qed.

Lemma returns_ret {A} (a : A) : returns (ret a).
Proof. intros w. by exists a, w. Qed.

Lemma returns_log level message context : returns (log level message context).
Proof. intros w. unfold log. eauto. Qed.

Lemma returns_bind {A B} (m : M A) (k : A → M B) :
  returns m → (∀ a, returns (k a)) → returns (bind m k).
Proof.
  intros Hm Hk w. destruct (Hm w) as (a & w1 & E).
  rewrite (bind_ok _ _ _ _ _ E). apply Hk.
Qed.

(** A [try/catch] whose handler returns is a computation that returns. *)
Lemma returns_try_catch {A} (body : M A) handler :
  (∀ e, returns (handler e)) → returns (try_catch body handler).
Proof.
  intros Hh w. unfold try_catch.
  destruct (body w) as [[a|e] w1]; [by exists a, w1 | apply Hh].
Qed.

Lemma returns_ask_config : returns ask_config.
Proof. intros w. by exists (config w), w. Qed.

Lemma returns_ask_platform : returns ask_platform.
Proof. intros w. by exists (platform w), w. Qed.

Lemma returns_if {A} (b : bool) (m1 m2 : M A) :
  returns m1 → returns m2 → returns (if b then m1 else m2).
Proof. by destruct b. Qed.

Create HintDb script_returns.
#[local] Hint Resolve returns_ret returns_log returns_bind returns_try_catch
  returns_ask_config returns_ask_platform returns_if : script_returns.
#[local] Hint Unfold logDebug logInfo logWarn logError logCritical
  logPerformance logUserActivity : script_returns.

(** ** Access policy *)

Lemma validateUserEmail_run (email : value) (w : World) :
  ∃ entry, UserService.validateUserEmail email w
           = (Ok (isValidEmail (config w) email), add_log entry w).
Proof.
  unfold UserService.validateUserEmail, isValidEmail, try_catch, bind,
    ask_config, ret, logWarn, logDebug, log.
  destruct (truthy email); cbn [negb orb andb]; [| eauto].
  destruct (String.eqb (typeof email) "string"); cbn [negb orb andb]; [| eauto].
  destruct (endsWith _ _); cbn [negb andb]; [| eauto].
  destruct (regex_test _ _); cbn [negb]; eauto.
Qed.

(** C4: [validateUserEmail] returns a boolean on every input and never
    raises; the answer is [false] when the input is null, undefined or
    not a string, when it does not end with the configured domain suffix,
    and when it fails the address-format regular expression.  Under the
    reference configuration the suffix is ["@nisd.net"], and
    ["user@bad.com"] is rejected. *)
Theorem validateUserEmail_fails_closed (email : value) (w : World) :
  ∃ b w',
    UserService.validateUserEmail email w = (Ok b, w')
    ∧ b = isValidEmail (config w) email
    ∧ (email = VNull ∨ email = VUndefined ∨ typeof email ≠ "string" →
       b = false)
    ∧ (endsWith (ToString email) (ALLOWED_DOMAIN (SECURITY (config w))) = false →
       b = false)
    ∧ (regex_test emailRegex (ToString email) = false → b = false)
    ∧ ALLOWED_DOMAIN (SECURITY CONFIG) = "@nisd.net"
    ∧ isValidEmail CONFIG (VString "user@bad.com") = false.
Proof.
  destruct (validateUserEmail_run email w) as [entry E].
  exists (isValidEmail (config w) email), (add_log entry w).
  split; [exact E |]. split; [reflexivity |].
  unfold isValidEmail. repeat split.
  - intros [-> | [-> | H]]; [reflexivity | reflexivity |].
    destruct email; cbn; rewrite ?andb_false_r; try reflexivity.
    by destruct H.
  - intros ->. by rewrite andb_false_r.
  - intros ->. by rewrite andb_false_r.
Qed.


Lemma loadUserPermissionsFromConfig_run (email : value) (w : World) :
  ∃ entry, UserService.loadUserPermissionsFromConfig email w
           = (Ok (permissionsFromConfig (config w) (Date_now (platform w)) email),
              add_log entry w).
Proof.
  unfold UserService.loadUserPermissionsFromConfig, permissionsFromConfig,
    try_catch, bind, ask_config, ask_platform, ret, logInfo, log.
  destruct (LEGACY_EMAIL_CAMPUS_MAPPING (config w) !! ToString email); eauto.
Qed.

(** Worlds that differ from [w] by log entries and cache contents only. *)
Definition same_services (w w' : World) : Prop :=
  config w' = config w ∧ platform w' = platform w.

Lemma same_services_add_log entry w : same_services w (add_log entry w).
Proof. by split. Qed.

(** The fresh path of [getUserPermissions]: on a valid identity whose
    cache lookup answers nothing, the record read from the table is
    returned whether or not the write-back succeeds; the cache gains the
    entry exactly when the write went through. *)
Lemma getUserPermissions_miss codec (email : value) (w : World) :
  let key := UserService.permissionsKey (config w) email in
  let perm := permissionsFromConfig (config w) (Date_now (platform w)) email in
  isValidEmail (config w) email = true →
  Cache_raises (platform w) CacheGet key = false →
  cached_truthy (cache w !! key) = false →
  ∃ w', UserService.getUserPermissions codec email w = (Ok perm, w')
        ∧ same_services w w'
        ∧ cache w' = (if Cache_raises (platform w) CachePut key
                      then cache w
                      else <[key := JSON_stringify codec perm]> (cache w))
        ∧ (Cache_raises (platform w) CachePut key = true →
           {| log_level := WARN;
              log_message := "Failed to cache user permissions";
              log_context := "UserService.getUserPermissions" |} ∈ logs w').
Proof.
  intros key perm Hvalid Hget Hmiss.
  destruct (validateUserEmail_run email w) as [e1 E1].
  set (w1 := add_log e1 w) in *.
  destruct (loadUserPermissionsFromConfig_run email w1) as [e2 E2].
  set (w2 := add_log e2 w1) in *.
  change (permissionsFromConfig (config w1) (Date_now (platform w1)) email)
    with perm in E2.
  assert (Hrun : UserService.getUserPermissions codec email w
                 = (Ok perm,
                    if Cache_raises (platform w) CachePut key
                    then add_log
                           {| log_level := INFO;
                              log_message :=
                                "Performance: getUserPermissions (fresh) completed";
                              log_context := "PERFORMANCE" |}
                           (add_log
                              {| log_level := WARN;
                                 log_message := "Failed to cache user permissions";
                                 log_context := "UserService.getUserPermissions" |}
                              w2)
                    else add_log
                           {| log_level := INFO;
                              log_message :=
                                "Performance: getUserPermissions (fresh) completed";
                              log_context := "PERFORMANCE" |}
                           (add_log
                              {| log_level := DEBUG;
                                 log_message := "User permissions cached successfully";
                                 log_context := "UserService.getUserPermissions" |}
                              (set_cache (insert key (JSON_stringify codec perm))
                                 w2)))).
  { unfold UserService.getUserPermissions.
    apply try_catch_ok.
    rewrite (bind_ok _ _ _ _ _ E1), Hvalid. cbn [negb].
    unfold bind at 1. cbn [ask_config].
    change (UserService.permissionsKey (config w1) email) with key.
    unfold bind at 1, cache_get.
    change (Cache_raises (platform w1) CacheGet key)
      with (Cache_raises (platform w) CacheGet key).
    rewrite Hget. change (cache w1) with (cache w). rewrite Hmiss.
    rewrite (bind_ok _ _ _ _ _ E2).
    unfold bind at 1, try_catch, bind at 1, cache_put.
    change (Cache_raises (platform w2) CachePut key)
      with (Cache_raises (platform w) CachePut key).
    by destruct (Cache_raises (platform w) CachePut key). }
  eexists. split; [exact Hrun |].
  destruct (Cache_raises (platform w) CachePut key); [| done].
  repeat split. intros _. cbn [logs add_log].
  apply elem_of_cons. right. apply elem_of_cons. by left.
Qed.

(** An identity that fails validation never reaches the table:
    [getUserPermissions] raises the permission error. *)
Lemma getUserPermissions_invalid codec (email : value) (w : World) :
  isValidEmail (config w) email = false →
  ∃ e w', UserService.getUserPermissions codec email w = (Throw e, w')
          ∧ exn_message e = ERROR_MESSAGES.PERMISSION_ERROR
          ∧ exn_originalError e = Some ERROR_MESSAGES.INVALID_EMAIL.
Proof.
  intros Hinvalid.
  unfold UserService.getUserPermissions.
  destruct (validateUserEmail_run email w) as [e1 E1].
  do 2 eexists. split.
  - eapply eq_trans.
    + apply (try_catch_throw _ _ w (Error ERROR_MESSAGES.INVALID_EMAIL)
               (add_log e1 w)).
      by rewrite (bind_ok _ _ _ _ _ E1), Hinvalid.
    + reflexivity.
  - by split.
Qed.

(** C2: for a valid identity whose cache lookup misses, the permission
    record is read off the Permission Table.  An identity absent from the
    table gets [hasAccess = false], [isFullAccess = false], role ["none"]
    and no campuses; an identity listed with campus list [L] gets
    [hasAccess = true], [campuses = L], [isFullAccess] exactly when [L]
    has at least the configured threshold of entries, and the role
    ["administrator"] if so, ["coordinator"] otherwise.  These four
    fields depend on the table and the threshold alone: any other world
    and codec with the same two give the same four.  The reference
    threshold is 17. *)
Theorem permission_resolution_on_miss codec (email : value) (w : World) :
  isValidEmail (config w) email = true →
  Cache_raises (platform w) CacheGet
    (UserService.permissionsKey (config w) email) = false →
  cached_truthy (cache w !! UserService.permissionsKey (config w) email)
    = false →
  ∃ p w',
    UserService.getUserPermissions codec email w = (Ok p, w')
    ∧ (LEGACY_EMAIL_CAMPUS_MAPPING (config w) !! ToString email = None →
       hasAccess p = false ∧ isFullAccess p = false
       ∧ role p = "none" ∧ campuses p = [])
    ∧ (∀ L, LEGACY_EMAIL_CAMPUS_MAPPING (config w) !! ToString email = Some L →
       hasAccess p = true ∧ campuses p = L
       ∧ (isFullAccess p = true
          ↔ (FULL_ACCESS_CAMPUS_COUNT (SECURITY (config w)) ≤ length L)%nat)
       ∧ role p = if isFullAccess p then "administrator" else "coordinator")
    ∧ (∀ codec2 (w2 : World),
         LEGACY_EMAIL_CAMPUS_MAPPING (config w2)
         = LEGACY_EMAIL_CAMPUS_MAPPING (config w) →
         FULL_ACCESS_CAMPUS_COUNT (SECURITY (config w2))
         = FULL_ACCESS_CAMPUS_COUNT (SECURITY (config w)) →
         isValidEmail (config w2) email = true →
         Cache_raises (platform w2) CacheGet
           (UserService.permissionsKey (config w2) email) = false →
         cached_truthy
           (cache w2 !! UserService.permissionsKey (config w2) email) = false →
         ∃ p2 w2',
           UserService.getUserPermissions codec2 email w2 = (Ok p2, w2')
           ∧ hasAccess p2 = hasAccess p ∧ campuses p2 = campuses p
           ∧ isFullAccess p2 = isFullAccess p ∧ role p2 = role p)
    ∧ FULL_ACCESS_CAMPUS_COUNT (SECURITY CONFIG) = 17%nat.
Proof.
  intros Hvalid Hget Hmiss.
  destruct (getUserPermissions_miss codec email w Hvalid Hget Hmiss)
    as (w' & E & _).
  eexists _, w'. split; [exact E |].
  split; [| split; [| split; [| reflexivity]]].
  - unfold permissionsFromConfig. intros ->. done.
  - unfold permissionsFromConfig. intros L ->. cbn.
    repeat split; try (intros H; by apply Nat.leb_le).
  - intros codec2 w2 Htable Hthreshold Hvalid2 Hget2 Hmiss2.
    destruct (getUserPermissions_miss codec2 email w2 Hvalid2 Hget2 Hmiss2)
      as (w2' & E2 & _).
    eexists _, w2'. split; [exact E2 |].
    unfold permissionsFromConfig. rewrite Htable, Hthreshold.
    by destruct (LEGACY_EMAIL_CAMPUS_MAPPING (config w) !! ToString email).
Qed.

(** A run of C2: the identity listed with all 17 campuses, on an empty
    cache, resolves to the administrator record. *)
Lemma permission_resolution_on_miss_witness :
  let w := sample_world (Ok (VString "linda.rodriguez@nisd.net")) "0.i"
             (λ _ _, false) in
  isValidEmail (config w) (VString "linda.rodriguez@nisd.net") = true
  ∧ ∃ p w',
      UserService.getUserPermissions sample_codec
        (VString "linda.rodriguez@nisd.net") w = (Ok p, w')
      ∧ role p = "administrator".
Proof.
  intros w. split; [reflexivity |].
  destruct (permission_resolution_on_miss sample_codec
              (VString "linda.rodriguez@nisd.net") w)
    as (p & w' & E & _ & Hlisted & _ & _);
    [reflexivity | reflexivity | reflexivity |].
  exists p, w'. split; [exact E |].
  destruct (Hlisted (CAMPUSES CONFIG)) as (_ & _ & Hfull & Hrole);
    [reflexivity |].
  rewrite Hrole. replace (isFullAccess p) with true; [reflexivity |].
  symmetry. apply Hfull. cbn. lia.
Defined.

(** C5: when a valid identity is resolved afresh and the write-back to the
    cache raises, [getUserPermissions] still returns: the record is the
    one just read from the table, nothing is cached, the failure is
    logged as a warning, and the record is the very one a run with a
    working cache write returns (and caches). *)
Theorem cache_write_failure_is_swallowed codec (email : value) (w : World) :
  isValidEmail (config w) email = true →
  Cache_raises (platform w) CacheGet
    (UserService.permissionsKey (config w) email) = false →
  cached_truthy (cache w !! UserService.permissionsKey (config w) email)
    = false →
  Cache_raises (platform w) CachePut
    (UserService.permissionsKey (config w) email) = true →
  ∃ p w',
    UserService.getUserPermissions codec email w = (Ok p, w')
    ∧ p = permissionsFromConfig (config w) (Date_now (platform w)) email
    ∧ cache w' = cache w
    ∧ {| log_level := WARN;
         log_message := "Failed to cache user permissions";
         log_context := "UserService.getUserPermissions" |} ∈ logs w'
    ∧ ∀ raises,
        raises CacheGet (UserService.permissionsKey (config w) email) = false →
        raises CachePut (UserService.permissionsKey (config w) email) = false →
        ∃ w'',
          UserService.getUserPermissions codec email (with_cache_raises raises w)
          = (Ok p, w'')
          ∧ cache w'' !! UserService.permissionsKey (config w) email
            = Some (JSON_stringify codec p).
Proof.
  intros Hvalid Hget Hmiss Hput.
  destruct (getUserPermissions_miss codec email w Hvalid Hget Hmiss)
    as (w' & E & _ & Hcache & Hlogged).
  rewrite Hput in Hcache.
  eexists _, w'. split; [exact E |]. split; [reflexivity |].
  split; [exact Hcache |]. split; [exact (Hlogged Hput) |].
  intros raises Hget' Hput'.
  destruct (getUserPermissions_miss codec email (with_cache_raises raises w))
    as (w'' & E' & _ & Hcache' & _);
    [exact Hvalid | exact Hget' | exact Hmiss |].
  exists w''. split; [exact E' |].
  rewrite Hcache'. cbn [with_cache_raises platform Cache_raises config].
  rewrite Hput'. cbn [with_cache_raises cache]. apply lookup_insert_eq.
Qed.

(** A run of C5: a one-campus identity, an empty cache and a cache whose
    writes raise. *)
Lemma cache_write_failure_is_swallowed_witness :
  let email := VString "dora.salazar@nisd.net" in
  let w := sample_world (Ok email) "0.i"
             (λ op _, match op with CachePut => true | _ => false end) in
  Cache_raises (platform w) CachePut
    (UserService.permissionsKey (config w) email) = true
  ∧ ∃ p w',
      UserService.getUserPermissions sample_codec email w = (Ok p, w')
      ∧ campuses p = ["Brennan"] ∧ cache w' = cache w.
Proof.
  intros email w. split; [reflexivity |].
  destruct (cache_write_failure_is_swallowed sample_codec email w)
    as (p & w' & E & Hp & Hcache & _ & _);
    [reflexivity | reflexivity | reflexivity | reflexivity |].
  exists p, w'. split; [exact E |]. split; [| exact Hcache].
  rewrite Hp. reflexivity.
Defined.

(** C9: [hasAccessToCampus] always answers a boolean.  When permission
    resolution returns a record, the answer is [true] exactly when the
    record has [hasAccess = true] and lists the campus; when resolution
    raises, as it does for every identity that fails validation, the
    answer is [false]. *)
Theorem hasAccessToCampus_spec codec (email : value) (campus : string)
    (w : World) :
  ∃ b w',
    UserService.hasAccessToCampus codec email campus w = (Ok b, w')
    ∧ match UserService.getUserPermissions codec email w with
      | (Ok p, _) => b = true ↔ hasAccess p = true ∧ campus ∈ campuses p
      | (Throw _, _) => b = false
      end
    ∧ (isValidEmail (config w) email = false →
       (∃ e w1, UserService.getUserPermissions codec email w = (Throw e, w1))
       ∧ b = false).
Proof.
  unfold UserService.hasAccessToCampus.
  destruct (UserService.getUserPermissions codec email w) as [[p|e] w1] eqn:E.
  - eexists _, _. split.
    + apply try_catch_ok. rewrite (bind_ok _ _ _ _ _ E). reflexivity.
    + split.
      * rewrite andb_true_iff, bool_decide_eq_true. reflexivity.
      * intros Hinvalid.
        destruct (getUserPermissions_invalid codec email w Hinvalid)
          as (e & w2 & E' & _).
        congruence.
  - eexists _, _. split.
    + rewrite (try_catch_throw _ _ _ _ _ (bind_throw _ _ _ _ _ E)).
      reflexivity.
    + split; [reflexivity |]. intros _. split; [eauto | reflexivity].
Qed.

(** ** The reference Permission Table *)

Lemma reference_entries_ok : Forall entry_ok LEGACY_EMAIL_CAMPUS_MAPPING_entries.
Proof. apply (bool_decide_unpack _). vm_compute. exact I. Qed.

Lemma reference_table_lookup (e : string) (L : list string) :
  LEGACY_EMAIL_CAMPUS_MAPPING CONFIG !! e = Some L → entry_ok (e, L).
Proof.
  intros H. apply elem_of_list_to_map_2 in H.
  exact (proj1 (Forall_forall _ _) reference_entries_ok _ H).
Qed.

(** C10: in the reference configuration every campus named in the
    Permission Table belongs to the 17-element list [CONFIG.CAMPUSES], and
    exactly one identity (linda.rodriguez@nisd.net) has a list that meets
    the full-access threshold of 17; so that identity, and no other,
    resolves to the role ["administrator"]. *)
Theorem reference_table_has_one_administrator :
  map_Forall (λ _ L, Forall (λ campus, campus ∈ CAMPUSES CONFIG) L)
    (LEGACY_EMAIL_CAMPUS_MAPPING CONFIG)
  ∧ length (CAMPUSES CONFIG) = 17%nat
  ∧ FULL_ACCESS_CAMPUS_COUNT (SECURITY CONFIG) = 17%nat
  ∧ (∃ L, LEGACY_EMAIL_CAMPUS_MAPPING CONFIG !! "linda.rodriguez@nisd.net"
          = Some L
          ∧ (FULL_ACCESS_CAMPUS_COUNT (SECURITY CONFIG) ≤ length L)%nat)
  ∧ (∀ e L, LEGACY_EMAIL_CAMPUS_MAPPING CONFIG !! e = Some L →
       (FULL_ACCESS_CAMPUS_COUNT (SECURITY CONFIG) ≤ length L)%nat →
       e = "linda.rodriguez@nisd.net")
  ∧ (∀ (email : value) (w : World), config w = CONFIG →
       ∃ p w',
         UserService.loadUserPermissionsFromConfig email w = (Ok p, w')
         ∧ (role p = "administrator"
            ↔ ToString email = "linda.rodriguez@nisd.net")).
Proof.
  split; [| split; [reflexivity | split; [reflexivity | split; [| split]]]].
  - intros e L H. exact (proj1 (reference_table_lookup e L H)).
  - eexists. split; [reflexivity |]. cbn. lia.
  - intros e L H Hfull.
    exact (proj1 (proj2 (reference_table_lookup e L H)) Hfull).
  - intros email w Hcfg.
    destruct (loadUserPermissionsFromConfig_run email w) as [entry E].
    eexists _, _. split; [exact E |].
    rewrite Hcfg. unfold permissionsFromConfig.
    destruct (LEGACY_EMAIL_CAMPUS_MAPPING CONFIG !! ToString email)
      as [L|] eqn:Hlookup.
    + destruct (reference_table_lookup _ L Hlookup) as [_ Hone].
      cbn [role fst snd] in *.
      change (FULL_ACCESS_CAMPUS_COUNT (SECURITY CONFIG)) with 17%nat.
      destruct (17 <=? length L)%nat eqn:Hfull.
      * apply Nat.leb_le in Hfull. split; [intros _; by apply Hone | done].
      * apply Nat.leb_gt in Hfull. split; [done |].
        intros Hlinda. apply Hone in Hlinda. lia.
    + cbn. split; [done |]. intros Hlinda. rewrite Hlinda in Hlookup.
      vm_compute in Hlookup. discriminate.
Qed.

(** ** Column removal *)

Section ColumnRemoval.
Context {A : Type}.
Implicit Types (row : list A) (cols : list nat).

Lemma elem_of_insert_desc c cols x :
  x ∈ insert_desc c cols ↔ x = c ∨ x ∈ cols.
Proof.
  induction cols as [| d cols IH]; cbn.
  - rewrite elem_of_cons. tauto.
  - destruct (d <=? c)%nat.
    + rewrite elem_of_cons. tauto.
    + rewrite !elem_of_cons, IH. tauto.
Qed.

Lemma elem_of_sort_desc cols x : x ∈ sort_desc cols ↔ x ∈ cols.
Proof.
  induction cols as [| c cols IH]; cbn; [done |].
  rewrite elem_of_insert_desc, elem_of_cons, IH. tauto.
Qed.

Lemma insert_desc_descending c cols :
  descending cols → c ∉ cols → descending (insert_desc c cols).
Proof.
  unfold descending. induction 1 as [| d cols Hd IH Hall]; intros Hc; cbn.
  - repeat constructor.
  - destruct (d <=? c)%nat eqn:Hle.
    + apply Nat.leb_le in Hle.
      assert (d ≠ c) by (intros ->; apply Hc, elem_of_cons; by left).
      constructor; [by constructor |].
      constructor; [lia |].
      eapply Forall_impl; [exact Hall |]. cbn. lia.
    + apply Nat.leb_gt in Hle.
      constructor;
        [apply IH; intros Hin; apply Hc, elem_of_cons; by right |].
      apply Forall_forall. intros x Hx.
      apply elem_of_insert_desc in Hx as [-> | Hx]; [lia |].
      exact (proj1 (Forall_forall _ _) Hall x Hx).
Qed.

Lemma sort_desc_descending cols : NoDup cols → descending (sort_desc cols).
Proof.
  induction 1 as [| c cols Hc Hnd IH]; cbn; [constructor |].
  apply insert_desc_descending; [exact IH |].
  by rewrite elem_of_sort_desc.
Qed.

Lemma kept_cells_from_ext i cols cols' row :
  (∀ x, x ∈ cols ↔ x ∈ cols') →
  kept_cells_from i cols row = kept_cells_from i cols' row.
Proof.
  intros Hext. revert i. induction row as [| x row IH]; intros i; cbn; [done |].
  rewrite (bool_decide_ext _ _ (Hext i)), (IH (S i)). done.
Qed.

(** Indices below the offset remove nothing. *)
Lemma kept_cells_from_below i cols row :
  (∀ x, x ∈ cols → (x < i)%nat) → kept_cells_from i cols row = row.
Proof.
  revert i. induction row as [| x row IH]; intros i Hlt; cbn; [done |].
  rewrite bool_decide_eq_false_2.
  - f_equal. apply IH. intros y Hy. specialize (Hlt y Hy). lia.
  - intros Hi. specialize (Hlt i Hi). lia.
Qed.

(** One [splice] at the largest index is one more index left out. *)
Lemma kept_cells_from_splice1 k i cols row :
  (∀ x, x ∈ cols → (x < i + k)%nat) →
  kept_cells_from i cols (splice1 k row)
  = kept_cells_from i ((i + k)%nat :: cols) row.
Proof.
  revert i row. induction k as [| k IH]; intros i [| x row] Hlt.
  - done.
  - cbn [splice1 take drop app kept_cells_from].
    rewrite Nat.add_0_r in *.
    rewrite (bool_decide_eq_true_2 (i ∈ i :: cols))
      by (apply elem_of_cons; by left).
    rewrite !kept_cells_from_below; [done | | done].
    intros y Hy. apply elem_of_cons in Hy as [-> | Hy]; [lia |].
    specialize (Hlt y Hy). lia.
  - done.
  - change (splice1 (S k) (x :: row)) with (x :: splice1 k row).
    cbn [kept_cells_from].
    rewrite (IH (S i) row) by (intros y Hy; specialize (Hlt y Hy); lia).
    replace (S i + k)%nat with (i + S k)%nat by lia.
    assert (Hiff : i ∈ cols ↔ i ∈ (i + S k)%nat :: cols).
    { rewrite elem_of_cons. split; [by right | intros [? | ?]; [lia | done]]. }
    by rewrite (bool_decide_ext _ _ Hiff).
Qed.

(** Splicing along a strictly descending index list leaves exactly the
    cells at the other indices, in order. *)
Lemma splice_descending cols row :
  descending cols →
  foldl (λ newRow colIndex, splice1 colIndex newRow) row cols
  = kept_cells cols row.
Proof.
  unfold descending, kept_cells. intros Hsorted. revert row.
  induction Hsorted as [| k cols Hs IH Hall]; intros row; cbn [foldl].
  - symmetry. apply kept_cells_from_below.
    intros x Hx. by apply elem_of_nil in Hx.
  - rewrite IH. apply (kept_cells_from_splice1 k 0).
    intros x Hx. exact (proj1 (Forall_forall _ _) Hall x Hx).
Qed.

(** For an index list without repetitions the row transformation keeps
    the cells at the indices that are not listed. *)
Lemma removeColumnsRow_kept_cells cols row :
  NoDup cols → removeColumnsRow cols row = kept_cells cols row.
Proof.
  intros Hnd. unfold removeColumnsRow.
  rewrite splice_descending by by apply sort_desc_descending.
  apply kept_cells_from_ext, elem_of_sort_desc.
Qed.

End ColumnRemoval.

(** C3: removing the configured index list [7, 8, 9, 12, 13, 14] deletes,
    in every row of every grid, exactly the cells at those original
    indices and keeps the others in their original order; a 15-column
    row is left with its columns 0-6, 10 and 11.  The same holds for
    any index list without repetitions, however long. *)
Theorem removeColumns_index_stable {A : Type} :
  COLUMNS_TO_REMOVE (SPREADSHEET CONFIG) = [7; 8; 9; 12; 13; 14]%nat
  ∧ (∀ (cols : list nat) (row : list A),
       NoDup cols → removeColumnsRow cols row = kept_cells cols row)
  ∧ (∀ data : list (list A),
       DataService.removeColumns data (COLUMNS_TO_REMOVE (SPREADSHEET CONFIG))
       = map (kept_cells [7; 8; 9; 12; 13; 14]%nat) data)
  ∧ (∀ c0 c1 c2 c3 c4 c5 c6 c7 c8 c9 c10 c11 c12 c13 c14 : A,
       removeColumnsRow (COLUMNS_TO_REMOVE (SPREADSHEET CONFIG))
         [c0; c1; c2; c3; c4; c5; c6; c7; c8; c9; c10; c11; c12; c13; c14]
       = [c0; c1; c2; c3; c4; c5; c6; c10; c11]).
Proof.
  split; [reflexivity | split; [| split]].
  - intros cols row. apply removeColumnsRow_kept_cells.
  - intros data. unfold DataService.removeColumns.
    apply map_ext. intros row. apply removeColumnsRow_kept_cells.
    apply (bool_decide_unpack _). vm_compute. exact I.
  - intros. reflexivity.
Qed.

(** ** Error identifiers *)









Section Pads.





End Pads.



Lemma all_chars_impl (p q : ascii → bool) (s : string) :
  (∀ c, p c = true → q c = true) →
  all_chars p s = true → all_chars q s = true.
Proof.
  intros Hpq. induction s as [| c s IH]; cbn; [done |].
  intros [Hc Hs]%andb_prop. by rewrite (Hpq c Hc), IH.
Qed.





(** ** API surface *)

(** [getCurrentUserEmail] hands on what the session answers, and raises
    exactly when the session does. *)
Lemma getCurrentUserEmail_run (w : World) :
  match Session_getEmail (platform w) with
  | Ok email =>
      ∃ entry, UserService.getCurrentUserEmail w = (Ok email, add_log entry w)
  | Throw _ =>
      ∃ e w', UserService.getCurrentUserEmail w = (Throw e, w')
              ∧ same_services w w' ∧ cache w' = cache w
  end.
Proof.
  unfold UserService.getCurrentUserEmail, try_catch, bind, ask_platform,
    lift_result.
  destruct (Session_getEmail (platform w)) as [email | e0].
  - eexists. reflexivity.
  - eexists _, _. split; [reflexivity |]. by repeat split.
Qed.

Lemma probe_spreadsheetAccess_run ds (w : World) :
  ∃ b w', probe_spreadsheetAccess ds w = (Ok b, w')
          ∧ (b = true ↔ ∃ w0, initializeSpreadsheet ds w = (Ok tt, w0)).
Proof.
  unfold probe_spreadsheetAccess, try_catch, bind.
  destruct (initializeSpreadsheet ds w) as [[[]|e] w0].
  - exists true, w0. split; [done |]. split; [eauto | done].
  - eexists false, _. split; [reflexivity |].
    split; [done | intros [? [=]]].
Qed.

Lemma probe_userService_run (w : World) :
  ∃ b w', probe_userService w = (Ok b, w')
          ∧ same_services w w'
          ∧ (b = true ↔ ∃ email, Session_getEmail (platform w) = Ok email
                                 ∧ truthy email = true).
Proof.
  unfold probe_userService.
  pose proof (getCurrentUserEmail_run w) as Hrun.
  destruct (Session_getEmail (platform w)) as [email | e0].
  - destruct Hrun as [entry E].
    eexists (truthy email), _. split; [| split].
    + apply try_catch_ok. rewrite (bind_ok _ _ _ _ _ E). reflexivity.
    + by split.
    + split; [eauto |]. by intros (? & [= <-] & ?).
  - destruct Hrun as (e & w' & E & Hsame & _).
    eexists false, _. split; [| split].
    + rewrite (try_catch_throw _ _ _ _ _ (bind_throw _ _ _ _ _ E)).
      reflexivity.
    + destruct Hsame. by split.
    + split; [done | intros (? & [=] & _)].
Qed.

Lemma probe_cacheService_run (w : World) :
  ∃ b w', probe_cacheService w = (Ok b, w')
          ∧ (b = true
             ↔ Cache_raises (platform w) CachePut "health_test" = false).
Proof.
  unfold probe_cacheService, try_catch, bind, cache_put.
  destruct (Cache_raises (platform w) CachePut "health_test").
  - eexists false, _. split; [reflexivity | done].
  - eexists true, _. split; [reflexivity | done].
Qed.

Lemma probe_dataProcessing_run ds (w : World) :
  ∃ b w', probe_dataProcessing ds w = (Ok b, w')
          ∧ (b = true
             ↔ ∃ stats w0, getDataStatistics ds w = (Ok stats, w0)
                           ∧ (stats_error stats = None
                              ∨ stats_error stats = Some "")).
Proof.
  unfold probe_dataProcessing, try_catch, bind.
  destruct (getDataStatistics ds w) as [[stats|e] w0].
  - eexists _, w0. split; [reflexivity |].
    destruct stats as [[err|]]; cbn.
    + destruct (String.eqb_spec err "") as [-> | Hne]; cbn.
      * split; [eauto 6 | done].
      * split; [done |].
        intros (? & ? & [= <- _] & [[=] | [= ->]]). done.
    + split; [eauto 6 | done].
  - eexists false, _. split; [reflexivity |].
    split; [done | intros (? & ? & [=] & _)].
Qed.

(** C6: [healthCheck] returns in every world, whatever the data service
    does.  Its [status] is ["healthy"] exactly when the four probes (the
    spreadsheet opens, the session yields a non-empty identity, the cache
    accepts a write, the statistics come back without an error member)
    all succeed, and ["degraded"] in every other case. *)
Theorem healthCheck_status ds (w : World) :
  ∃ b1 b2 b3 b4 w1 w2 w3 w4 r w',
    probe_spreadsheetAccess ds w = (Ok b1, w1)
    ∧ probe_userService w1 = (Ok b2, w2)
    ∧ probe_cacheService w2 = (Ok b3, w3)
    ∧ probe_dataProcessing ds w3 = (Ok b4, w4)
    ∧ healthCheck ds w = (Ok r, w')
    ∧ tests r = Some {| spreadsheetAccess := b1; userService := b2;
                        cacheService := b3; dataProcessing := b4 |}
    ∧ (status r = "healthy"
       ↔ b1 = true ∧ b2 = true ∧ b3 = true ∧ b4 = true)
    ∧ (status r = "degraded"
       ↔ ¬ (b1 = true ∧ b2 = true ∧ b3 = true ∧ b4 = true))
    ∧ (b1 = true ↔ ∃ w0, initializeSpreadsheet ds w = (Ok tt, w0))
    ∧ (b2 = true ↔ ∃ email, Session_getEmail (platform w1) = Ok email
                            ∧ truthy email = true)
    ∧ (b3 = true ↔ Cache_raises (platform w2) CachePut "health_test" = false)
    ∧ (b4 = true ↔ ∃ stats w0, getDataStatistics ds w3 = (Ok stats, w0)
                               ∧ (stats_error stats = None
                                  ∨ stats_error stats = Some "")).
Proof.
  destruct (probe_spreadsheetAccess_run ds w) as (b1 & w1 & E1 & H1).
  destruct (probe_userService_run w1) as (b2 & w2 & E2 & _ & H2).
  destruct (probe_cacheService_run w2) as (b3 & w3 & E3 & H3).
  destruct (probe_dataProcessing_run ds w3) as (b4 & w4 & E4 & H4).
  exists b1, b2, b3, b4, w1, w2, w3, w4.
  eexists _, _.
  do 4 (split; [eassumption |]).
  split.
  { unfold healthCheck. apply try_catch_ok.
    rewrite (bind_ok _ _ _ _ _ E1), (bind_ok _ _ _ _ _ E2),
      (bind_ok _ _ _ _ _ E3), (bind_ok _ _ _ _ _ E4).
    reflexivity. }
  split; [reflexivity |].
  split; [| split; [| exact (conj H1 (conj H2 (conj H3 H4)))]].
  - cbn [status]. unfold allTestsPassed. cbn [forallb spreadsheetAccess
      userService cacheService dataProcessing].
    destruct b1, b2, b3, b4; cbn; split; try done; intros (? & ? & ? & ?);
      discriminate.
  - cbn [status]. unfold allTestsPassed. cbn [forallb spreadsheetAccess
      userService cacheService dataProcessing].
    destruct b1, b2, b3, b4; cbn; split; try done;
      try (intros _ (? & ? & ? & ?); discriminate);
      intros H; exfalso; by apply H.
Qed.

Lemma returns_generateErrorId : returns generateErrorId.
Proof. unfold generateErrorId. eauto with script_returns. Qed.

#[local] Hint Resolve returns_generateErrorId : script_returns.

Lemma returns_handleException error context :
  returns (ErrorUtils.handleException error context).
Proof.
  unfold ErrorUtils.handleException, logError.
  eauto 10 with script_returns.
Qed.

Lemma returns_logUserActivity email action :
  returns (UserService.logUserActivity email action).
Proof.
  unfold UserService.logUserActivity, logError.
  eauto with script_returns.
Qed.

(** The [catch] block of [filterCaseloadData] answers the empty grid. *)
Lemma filterCaseloadData_catch_run (userEmail : value) (error : Exn)
    (w : World) :
  ∃ w', filterCaseloadData_catch userEmail error w = (Ok "[]", w').
Proof.
  unfold filterCaseloadData_catch.
  destruct (returns_handleException error "filterCaseloadData" w)
    as (r & w1 & E1).
  rewrite (bind_ok _ _ _ _ _ E1).
  assert (∃ w2, (if truthy userEmail
                 then UserService.logUserActivity userEmail "data_access"
                 else ret ()) w1 = (Ok (), w2)) as [w2 E2].
  { destruct (truthy userEmail).
    - destruct (returns_logUserActivity userEmail "data_access" w1)
        as ([] & w2 & E2). eauto.
    - eexists. reflexivity. }
  rewrite (bind_ok _ _ _ _ _ E2).
  eexists. reflexivity.
Qed.

(** What the [try] block of [filterCaseloadData] can return. *)
Lemma filterCaseloadData_try_run ds codec (w w1 w' : World)
    (userEmail : value) (s : string) :
  (logInfo "Starting caseload data filtering" "filterCaseloadData" ;;
   UserService.getCurrentUserEmail)%script w = (Ok userEmail, w1) →
  (if negb (truthy userEmail)
   then throw (Error "Unable to identify current user")
   else
     logInfo "Processing data request for user" "filterCaseloadData" ;;
     valid <- UserService.validateUserEmail userEmail ;;
     if negb valid then
       logWarn "User access denied - invalid email" "filterCaseloadData" ;;
       ret (JSON_stringify_grid [])
     else
       permissions <- UserService.getUserPermissions codec userEmail ;;
       if negb (hasAccess permissions) then
         logInfo "User has no access permissions" "filterCaseloadData" ;;
         UserService.logUserActivity userEmail "access_denied" ;;
         ret (JSON_stringify_grid [])
       else
         logDebug "User permissions verified" "filterCaseloadData" ;;
         data <- getCachedDataForUser ds userEmail ;;
         match data with
         | None | Some [] =>
             logInfo "No data available for user" "filterCaseloadData" ;;
             UserService.logUserActivity userEmail "data_access" ;;
             ret (JSON_stringify_grid [])
         | Some rows =>
             UserService.logUserActivity userEmail "data_access" ;;
             logInfo "Data filtering completed successfully"
               "filterCaseloadData" ;;
             logPerformance "filterCaseloadData (complete)" ;;
             ret (JSON_stringify_grid rows)
         end)%script w1 = (Ok s, w') →
  s = "[]"
  ∨ ∃ rows, serves_rows ds codec w rows ∧ s = JSON_stringify_grid rows.
Proof.
  intros Hfirst Hrest.
  destruct (truthy userEmail) eqn:Htruthy; cbn [negb] in Hrest;
    [| discriminate Hrest].
  set (w1' := add_log {| log_level := INFO;
                         log_message := "Processing data request for user";
                         log_context := "filterCaseloadData" |} w1) in *.
  assert (Hlog : logInfo "Processing data request for user"
                   "filterCaseloadData" w1 = (Ok (), w1')) by reflexivity.
  rewrite (bind_ok _ _ _ _ _ Hlog) in Hrest.
  destruct (validateUserEmail_run userEmail w1') as [entry Evalid].
  rewrite (bind_ok _ _ _ _ _ Evalid) in Hrest.
  destruct (isValidEmail (config w1') userEmail) eqn:Hvalid; cbn [negb] in Hrest.
  2: { left. unfold bind, logWarn, log, ret in Hrest. by injection Hrest. }
  destruct (UserService.getUserPermissions codec userEmail (add_log entry w1'))
    as [[permissions|e] w3] eqn:Eperm.
  2: { by rewrite (bind_throw _ _ _ _ _ Eperm) in Hrest. }
  rewrite (bind_ok _ _ _ _ _ Eperm) in Hrest.
  destruct (hasAccess permissions) eqn:Haccess; cbn [negb] in Hrest.
  2: { left.
       unfold bind at 1, logInfo, log in Hrest.
       destruct (returns_logUserActivity userEmail "access_denied"
                   (add_log {| log_level := INFO;
                               log_message := "User has no access permissions";
                               log_context := "filterCaseloadData" |} w3))
         as ([] & w4 & E4).
       rewrite (bind_ok _ _ _ _ _ E4) in Hrest.
       unfold ret in Hrest. by injection Hrest. }
  destruct ((logDebug "User permissions verified" "filterCaseloadData" ;;
             getCachedDataForUser ds userEmail)%script w3)
    as [[data|e] w4] eqn:Edata.
  2: { unfold bind at 1, logDebug, log in Hrest.
       unfold bind at 1, logDebug, log in Edata.
       by rewrite (bind_throw _ _ _ _ _ Edata) in Hrest. }
  assert (Hdata : (logDebug "User permissions verified" "filterCaseloadData" ;;
                   data <- getCachedDataForUser ds userEmail ;;
                   match data with
                   | None | Some [] =>
                       logInfo "No data available for user"
                         "filterCaseloadData" ;;
                       UserService.logUserActivity userEmail "data_access" ;;
                       ret (JSON_stringify_grid [])
                   | Some rows =>
                       UserService.logUserActivity userEmail "data_access" ;;
                       logInfo "Data filtering completed successfully"
                         "filterCaseloadData" ;;
                       logPerformance "filterCaseloadData (complete)" ;;
                       ret (JSON_stringify_grid rows)
                   end)%script w3
                  = match data with
                    | None | Some [] =>
                        (logInfo "No data available for user"
                           "filterCaseloadData" ;;
                         UserService.logUserActivity userEmail "data_access" ;;
                         ret (JSON_stringify_grid []))%script w4
                    | Some rows =>
                        (UserService.logUserActivity userEmail "data_access" ;;
                         logInfo "Data filtering completed successfully"
                           "filterCaseloadData" ;;
                         logPerformance "filterCaseloadData (complete)" ;;
                         ret (JSON_stringify_grid rows))%script w4
                    end).
  { unfold bind at 1, logDebug, log.
    unfold bind at 1, logDebug, log in Edata.
    rewrite (bind_ok _ _ _ _ _ Edata). by destruct data as [[|]|]. }
  rewrite Hdata in Hrest. clear Hdata.
  assert (Hempty : ∀ w5 w6 t,
            (logInfo "No data available for user" "filterCaseloadData" ;;
             UserService.logUserActivity userEmail "data_access" ;;
             ret (JSON_stringify_grid []))%script w5 = (Ok t, w6) → t = "[]").
  { intros w5 w6 t Ht. unfold bind at 1, logInfo, log in Ht.
    destruct (returns_logUserActivity userEmail "data_access"
                (add_log {| log_level := INFO;
                            log_message := "No data available for user";
                            log_context := "filterCaseloadData" |} w5))
      as ([] & w7 & E7).
    rewrite (bind_ok _ _ _ _ _ E7) in Ht. unfold ret in Ht.
    by injection Ht. }
  destruct data as [[| row rows] |]; [left; eauto | | left; eauto].
  right. exists (row :: rows). split.
  - exists userEmail, permissions, w1, (add_log entry w1'), w3, w4.
    split; [exact Hfirst |]. split; [exact Htruthy |].
    split; [by rewrite (bind_ok _ _ _ _ _ Hlog), Evalid |].
    split; [exact Eperm |]. split; [exact Haccess |].
    split; [exact Edata | done].
  - destruct (returns_logUserActivity userEmail "data_access" w4)
      as ([] & w5 & E5).
    rewrite (bind_ok _ _ _ _ _ E5) in Hrest.
    unfold bind, logInfo, logPerformance, log, ret in Hrest.
    by injection Hrest.
Qed.

(** The steps of one run determine each other: a run that serves rows
    has the identity, the worlds and the record of any other account of
    the same steps. *)
Lemma serves_rows_steps ds codec (w : World) (rows : Grid) :
  serves_rows ds codec w rows →
  ∀ userEmail w1,
    (logInfo "Starting caseload data filtering" "filterCaseloadData" ;;
     UserService.getCurrentUserEmail)%script w = (Ok userEmail, w1) →
    ∃ w2,
      (logInfo "Processing data request for user" "filterCaseloadData" ;;
       UserService.validateUserEmail userEmail)%script w1 = (Ok true, w2)
      ∧ ∃ permissions w3,
          UserService.getUserPermissions codec userEmail w2
          = (Ok permissions, w3)
          ∧ hasAccess permissions = true
          ∧ ∃ w4,
              (logDebug "User permissions verified" "filterCaseloadData" ;;
               getCachedDataForUser ds userEmail)%script w3
              = (Ok (Some rows), w4).
Proof.
  intros (userEmail' & permissions & w1' & w2 & w3 & w4
          & Hfirst & _ & Hvalid & Hperm & Haccess & Hdata & _)
    userEmail w1 Hfirst'.
  rewrite Hfirst in Hfirst'. injection Hfirst' as <- <-.
  eauto 10.
Qed.

(** C1: [filterCaseloadData] returns a string in every world and never
    raises, whatever the session, the cache, the codec and the data
    service do.  The string is the serialized empty grid ["[]"] unless
    every step went through: the identity was resolved and is non-empty,
    it passed validation, permission resolution returned a record with
    [hasAccess = true], and the data fetch returned a non-empty grid, in
    which case that grid is serialized.  So the answer is ["[]"] when the
    session raises, when the identity fails validation, when the record
    has [hasAccess = false], and when permission resolution or the data
    fetch raises. *)
Theorem filterCaseloadData_degrades_to_empty ds codec (w : World) :
  ∃ s w',
    filterCaseloadData ds codec w = (Ok s, w')
    ∧ (s = "[]"
       ∨ ∃ rows, serves_rows ds codec w rows ∧ s = JSON_stringify_grid rows)
    ∧ (∀ e, Session_getEmail (platform w) = Throw e → s = "[]")
    ∧ (∀ userEmail, Session_getEmail (platform w) = Ok userEmail →
       isValidEmail (config w) userEmail = false → s = "[]")
    ∧ (∀ userEmail w1 w2 w3 outcome,
         (logInfo "Starting caseload data filtering" "filterCaseloadData" ;;
          UserService.getCurrentUserEmail)%script w = (Ok userEmail, w1) →
         (logInfo "Processing data request for user" "filterCaseloadData" ;;
          UserService.validateUserEmail userEmail)%script w1 = (Ok true, w2) →
         UserService.getUserPermissions codec userEmail w2 = (outcome, w3) →
         match outcome with
         | Throw _ => s = "[]"
         | Ok permissions =>
             (hasAccess permissions = false → s = "[]")
             ∧ ∀ e w4,
                 (logDebug "User permissions verified" "filterCaseloadData" ;;
                  getCachedDataForUser ds userEmail)%script w3 = (Throw e, w4) →
                 s = "[]"
         end).
Proof.
  set (w0 := add_log {| log_level := INFO;
                        log_message := "Starting caseload data filtering";
                        log_context := "filterCaseloadData" |} w).
  assert (Hlog : logInfo "Starting caseload data filtering"
                   "filterCaseloadData" w = (Ok (), w0)) by reflexivity.
  assert (Hmain : ∃ s w',
    filterCaseloadData ds codec w = (Ok s, w')
    ∧ (s = "[]"
       ∨ ∃ rows, serves_rows ds codec w rows ∧ s = JSON_stringify_grid rows)).
  { unfold filterCaseloadData, try_catch_local.
    destruct ((logInfo "Starting caseload data filtering" "filterCaseloadData" ;;
               UserService.getCurrentUserEmail)%script w)
      as [[userEmail|e] w1] eqn:Efirst.
    - unfold try_catch.
      match goal with |- context [match ?m w1 with _ => _ end] =>
        destruct (m w1) as [[s|e] w2] eqn:Erest end.
      + exists s, w2. split; [reflexivity |].
        exact (filterCaseloadData_try_run ds codec w w1 w2 userEmail s
                 Efirst Erest).
      + destruct (filterCaseloadData_catch_run userEmail e w2) as [w3 E3].
        exists "[]", w3. split; [exact E3 | by left].
    - destruct (filterCaseloadData_catch_run VNull e w1) as [w3 E3].
      exists "[]", w3. split; [exact E3 | by left]. }
  destruct Hmain as (s & w' & E & Hs).
  exists s, w'. split; [exact E |]. split; [exact Hs |].
  pose proof (getCurrentUserEmail_run w0) as Hsession.
  change (platform w0) with (platform w) in Hsession.
  split; [| split].
  - intros e0 He0. rewrite He0 in Hsession.
    destruct Hsession as (e & w1 & E1 & _).
    destruct Hs as [-> | (rows & Hserves & _)]; [done |].
    destruct Hserves as (userEmail & ? & w1' & ? & ? & ? & Hfirst & _).
    rewrite (bind_ok _ _ _ _ _ Hlog), E1 in Hfirst. discriminate.
  - intros userEmail Hemail Hinvalid. rewrite Hemail in Hsession.
    destruct Hsession as (entry & E1).
    destruct Hs as [-> | (rows & Hserves & _)]; [done |].
    destruct (serves_rows_steps ds codec w rows Hserves userEmail
                (add_log entry w0)) as (w2 & Hvalid & _);
      [by rewrite (bind_ok _ _ _ _ _ Hlog) |].
    unfold bind at 1, logInfo, log in Hvalid.
    match type of Hvalid with UserService.validateUserEmail _ ?wv = _ =>
      destruct (validateUserEmail_run userEmail wv) as [entry' Ev] end.
    rewrite Ev in Hvalid. cbn [config add_log] in Hvalid.
    change (config w0) with (config w) in Hvalid.
    rewrite Hinvalid in Hvalid. discriminate.
  - intros userEmail w1 w2 w3 outcome Hfirst Hvalid Hperm.
    destruct Hs as [-> | (rows & Hserves & _)]; [by destruct outcome |].
    destruct (serves_rows_steps ds codec w rows Hserves userEmail w1 Hfirst)
      as (w2' & Hvalid' & permissions & w3' & Hperm' & Haccess & w4 & Hdata).
    rewrite Hvalid in Hvalid'. injection Hvalid' as <-.
    rewrite Hperm in Hperm'. injection Hperm' as -> <-.
    split; [congruence |].
    intros e w4' Hthrow. rewrite Hthrow in Hdata. discriminate.
Qed.

(** ** The configuration is read, never written *)

Lemma keeps_config_ret {A} (a : A) : keeps_config (ret a).
Proof. done. Qed.

Lemma keeps_config_throw {A} (e : Exn) : keeps_config (@throw A e).
Proof. done. Qed.

Lemma keeps_config_log level message context :
  keeps_config (log level message context).
Proof. done. Qed.

Lemma keeps_config_ask_config : keeps_config ask_config.
Proof. done. Qed.

Lemma keeps_config_ask_platform : keeps_config ask_platform.
Proof. done. Qed.

Lemma keeps_config_lift_result {A} (r : Result A) : keeps_config (lift_result r).
Proof. done. Qed.

Lemma keeps_config_cache_remove key : keeps_config (cache_remove key).
Proof. intros w. unfold cache_remove. by destruct (Cache_raises _ _ _). Qed.

Lemma keeps_config_bind {A B} (m : M A) (k : A → M B) :
  keeps_config m → (∀ a, keeps_config (k a)) → keeps_config (bind m k).
Proof.
  intros Hm Hk w. unfold bind. specialize (Hm w).
  destruct (m w) as [[a|e] w1]; cbn in *; [| done].
  by rewrite (Hk a w1).
Qed.

Lemma keeps_config_try_catch {A} (body : M A) handler :
  keeps_config body → (∀ e, keeps_config (handler e)) →
  keeps_config (try_catch body handler).
Proof.
  intros Hb Hh w. unfold try_catch. specialize (Hb w).
  destruct (body w) as [[a|e] w1]; cbn in *; [done |].
  by rewrite (Hh e w1).
Qed.

Ltac keeps_config_tac :=
  repeat first
    [ progress intros
    | apply keeps_config_bind
    | apply keeps_config_try_catch
    | apply keeps_config_ret
    | apply keeps_config_throw
    | apply keeps_config_log
    | apply keeps_config_ask_config
    | apply keeps_config_ask_platform
    | apply keeps_config_lift_result
    | apply keeps_config_cache_remove ].

Lemma keeps_config_getCurrentUserEmail :
  keeps_config UserService.getCurrentUserEmail.
Proof.
  unfold UserService.getCurrentUserEmail, createError, logDebug, logError.
  keeps_config_tac.
Qed.

Lemma keeps_config_generateErrorId : keeps_config generateErrorId.
Proof. unfold generateErrorId. keeps_config_tac. Qed.

Lemma keeps_config_handleException error context :
  keeps_config (ErrorUtils.handleException error context).
Proof.
  unfold ErrorUtils.handleException, logError. keeps_config_tac.
Qed.

Lemma keeps_config_clearUserCache ds :
  (∀ userEmail, keeps_config (clearDataCache ds userEmail)) →
  keeps_config (clearUserCache ds).
Proof.
  intros Hds. unfold clearUserCache. apply keeps_config_try_catch.
  - apply keeps_config_bind; [apply keeps_config_getCurrentUserEmail |].
    intros userEmail. destruct (negb (truthy userEmail)).
    + apply keeps_config_throw.
    + unfold UserService.clearUserCache, UserService.logUserActivity,
        ErrorUtils.createSuccessResponse, logUserActivity, logInfo, logWarn,
        logError.
      keeps_config_tac. apply Hds.
  - intros e. unfold logError.
    apply keeps_config_bind; [apply keeps_config_log |].
    intros _. apply keeps_config_handleException.
Qed.

Lemma keeps_config_updateSpreadsheetConfig ds newSpreadsheetId newSheetName :
  (∀ userEmail, keeps_config (clearDataCache ds userEmail)) →
  keeps_config (updateSpreadsheetConfig ds newSpreadsheetId newSheetName).
Proof.
  intros Hds. unfold updateSpreadsheetConfig. apply keeps_config_try_catch.
  - apply keeps_config_bind; [apply keeps_config_getCurrentUserEmail |].
    intros [| | b | n | currentUser |]; try apply keeps_config_throw.
    destruct (negb (includes currentUser "alvaro.gomez@nisd.net")
              && negb (includes currentUser "linda.rodriguez@nisd.net"));
      [apply keeps_config_throw |].
    unfold logInfo.
    apply keeps_config_bind; [apply keeps_config_log |]. intros _.
    apply keeps_config_bind.
    { apply keeps_config_try_catch; [| intros; apply keeps_config_throw].
      keeps_config_tac.
      destruct (ss_sheets _ !! newSheetName) as [[|]|]; keeps_config_tac. }
    intros _.
    apply keeps_config_bind; [by apply keeps_config_clearUserCache |].
    keeps_config_tac.
  - intros e. unfold logError. keeps_config_tac.
Qed.

Lemma returns_updateSpreadsheetConfig ds newSpreadsheetId newSheetName :
  returns (updateSpreadsheetConfig ds newSpreadsheetId newSheetName).
Proof.
  unfold updateSpreadsheetConfig, logError.
  eauto 10 with script_returns.
Qed.

(** The cache clearing of the API: for a session identity that is not
    empty, the permissions entry of the identity is removed (unless the
    cache service refuses), then the data service's cache clearing runs,
    and nothing after it touches the cache. *)
Lemma clearUserCache_run ds (w : World) (userEmail : value) :
  Session_getEmail (platform w) = Ok userEmail →
  truthy userEmail = true →
  ∃ resp w' wa outcome wb,
    clearUserCache ds w = (Ok resp, w')
    ∧ config wa = config w ∧ platform wa = platform w
    ∧ cache wa
      = (if Cache_raises (platform w) CacheRemove
              (UserService.permissionsKey (config w) userEmail)
         then cache w
         else delete (UserService.permissionsKey (config w) userEmail)
                (cache w))
    ∧ clearDataCache ds userEmail wa = (outcome, wb)
    ∧ cache w' = cache wb ∧ platform w' = platform wb.
Proof.
  intros E0 Htruthy.
  pose proof (getCurrentUserEmail_run w) as Hrun. rewrite E0 in Hrun.
  destruct Hrun as [entry E].
  set (w1 := add_log entry w) in *.
  assert (Ea : ∃ wa,
            UserService.clearUserCache userEmail w1 = (Ok tt, wa)
            ∧ config wa = config w ∧ platform wa = platform w
            ∧ cache wa
              = (if Cache_raises (platform w) CacheRemove
                      (UserService.permissionsKey (config w) userEmail)
                 then cache w
                 else delete (UserService.permissionsKey (config w) userEmail)
                        (cache w))).
  { unfold UserService.clearUserCache, try_catch, bind, ask_config,
      cache_remove, logInfo, logWarn, log.
    change (config w1) with (config w). change (platform w1) with (platform w).
    destruct (Cache_raises (platform w) CacheRemove
                (UserService.permissionsKey (config w) userEmail));
      eexists; (split; [reflexivity | by repeat split]). }
  destruct Ea as (wa & Ea & Hcfg & Hplat & Hcache).
  destruct (clearDataCache ds userEmail wa) as [[[] | e] wb] eqn:Eb.
  - eexists _, _, wa, (Ok tt), wb. split.
    { unfold clearUserCache, try_catch.
      rewrite (bind_ok _ _ _ _ _ E). cbv beta.
      rewrite Htruthy. cbn [negb].
      rewrite (bind_ok _ _ _ _ _ Ea). cbv beta.
      rewrite (bind_ok _ _ _ _ _ Eb). cbv beta.
      reflexivity. }
    by repeat split.
  - eexists _, _, wa, (Throw e), wb. split.
    { unfold clearUserCache, try_catch.
      rewrite (bind_ok _ _ _ _ _ E). cbv beta.
      rewrite Htruthy. cbn [negb].
      rewrite (bind_ok _ _ _ _ _ Ea). cbv beta.
      rewrite (bind_throw _ _ _ _ _ Eb).
      reflexivity. }
    by repeat split.
Qed.

(** What [updateSpreadsheetConfig] does besides answering: it validates
    (the identity against the two administrator addresses, the candidate
    spreadsheet by opening it and reading the named sheet), and after a
    validation that went through it clears the caches of the session
    identity; a request that fails validation clears nothing. *)
Lemma updateSpreadsheetConfig_effects ds
    (newSpreadsheetId newSheetName : string) (w : World) :
  ∃ r w',
    updateSpreadsheetConfig ds newSpreadsheetId newSheetName w = (Ok r, w')
    ∧ (upd_success r = true ↔
         ∃ s ss headers rows,
           Session_getEmail (platform w) = Ok (VString s)
           ∧ (includes s "alvaro.gomez@nisd.net" = true
              ∨ includes s "linda.rodriguez@nisd.net" = true)
           ∧ SpreadsheetApp_openById (platform w) newSpreadsheetId = Ok ss
           ∧ ss_sheets ss !! newSheetName = Some (headers :: rows))
    ∧ (upd_success r = true →
       ∃ s wa outcome wb,
         Session_getEmail (platform w) = Ok (VString s)
         ∧ upd_updatedBy r = Some s
         ∧ config wa = config w ∧ platform wa = platform w
         ∧ cache wa
           = (if Cache_raises (platform w) CacheRemove
                   (UserService.permissionsKey (config w) (VString s))
              then cache w
              else delete (UserService.permissionsKey (config w) (VString s))
                     (cache w))
         ∧ clearDataCache ds (VString s) wa = (outcome, wb)
         ∧ cache w' = cache wb ∧ platform w' = platform wb)
    ∧ (upd_success r = false →
       cache w' = cache w ∧ platform w' = platform w).
Proof.
  unfold updateSpreadsheetConfig.
  pose proof (getCurrentUserEmail_run w) as Hrun.
  destruct (Session_getEmail (platform w)) as [email | e0] eqn:E0.
  - destruct Hrun as [entry E].
    unfold try_catch at 1. rewrite (bind_ok _ _ _ _ _ E). cbv beta.
    destruct email as [| | b | n | s |];
      try (eexists _, _; split; [reflexivity |]; cbn;
           split; [split; [done | by intros (? & ? & ? & ? & [=] & _)] |];
           split; [done | by intros _]).
    destruct (negb (includes s "alvaro.gomez@nisd.net")
              && negb (includes s "linda.rodriguez@nisd.net")) eqn:Hgate.
    { eexists _, _. split; [reflexivity |]. cbn.
      split; [| split; [done | by intros _]].
      split; [done |]. intros (s' & ? & ? & ? & [= <-] & Hadmin & _).
      destruct (includes s "alvaro.gomez@nisd.net"),
        (includes s "linda.rodriguez@nisd.net"), Hadmin; discriminate. }
    assert (Hadmin : includes s "alvaro.gomez@nisd.net" = true
                     ∨ includes s "linda.rodriguez@nisd.net" = true).
    { destruct (includes s "alvaro.gomez@nisd.net"); [by left |].
      destruct (includes s "linda.rodriguez@nisd.net"); [by right | done]. }
    assert (Htruthy : truthy (VString s) = true).
    { destruct s; [by destruct Hadmin | reflexivity]. }
    clear Hgate.
    unfold logInfo at 1, log at 1, bind at 1.
    unfold bind at 1, try_catch at 1, bind at 1, ask_platform at 1,
      bind at 1, lift_result at 1.
    cbn [platform add_log].
    destruct (SpreadsheetApp_openById (platform w) newSpreadsheetId)
      as [ss | e1] eqn:E1.
    + destruct (ss_sheets ss !! newSheetName) as [[| headers rows] |] eqn:E2.
      * eexists _, _. split; [reflexivity |]. cbn.
        split; [| split; [done | by intros _]]. split; [done |].
        intros (? & ? & ? & ? & _ & _ & ? & ?). congruence.
      * unfold logInfo at 1, log at 1.
        match goal with
        | |- context [bind (clearUserCache ds) _ ?w2] =>
            destruct (clearUserCache_run ds w2 (VString s) E0 Htruthy)
              as (resp & w5 & wa & outcome & wb & E5 & Hcfg & Hplat
                  & Hcache & Eb & Hcache' & Hplat')
        end.
        rewrite (bind_ok _ _ _ _ _ E5). cbv beta.
        eexists _, _. split; [reflexivity |]. cbn.
        split; [| split; [| done]].
        -- split; [intros _ | done]. by exists s, ss, headers, rows.
        -- intros _. by exists s, wa, outcome, wb.
      * eexists _, _. split; [reflexivity |]. cbn.
        split; [| split; [done | by intros _]]. split; [done |].
        intros (? & ? & ? & ? & _ & _ & ? & ?). congruence.
    + eexists _, _. split; [reflexivity |]. cbn.
      split; [| split; [done | by intros _]]. split; [done |].
      intros (? & ? & ? & ? & _ & _ & ? & ?). congruence.
  - destruct Hrun as (e & w1 & E & [Hc Hp] & Hcache).
    unfold try_catch at 1. rewrite (bind_throw _ _ _ _ _ E).
    eexists _, _. split; [reflexivity |]. cbn.
    split; [| split; [done | by intros _]].
    split; [done | by intros (? & ? & ? & ? & [=] & _)].
Qed.

(** C8: [updateSpreadsheetConfig] returns in every world and leaves the
    whole [CONFIG] object, [SPREADSHEET_ID] included, as it found it,
    on success and on failure alike, provided the data service's cache
    clearing does not write the configuration either.  What it does is
    validate, clear caches and give instructions.  It answers a success
    exactly when the session identity is a string in which one of the
    two administrator addresses occurs, the candidate spreadsheet opens
    and the named sheet has at least one row.  On a success the
    permissions entry of the session identity has been removed from the
    cache (unless the cache service refused), the data service's cache
    clearing has run for that identity on the cache so obtained, and
    the cache is left as that clearing left it; the answer carries the
    current identifier read from the unchanged configuration and a
    message asking for the manual edit in Config.js.  On a failure the
    cache is as it was. *)
Theorem updateSpreadsheetConfig_keeps_config ds
    (newSpreadsheetId newSheetName : string) (w : World) :
  (∀ userEmail, keeps_config (clearDataCache ds userEmail)) →
  ∃ r w',
    updateSpreadsheetConfig ds newSpreadsheetId newSheetName w = (Ok r, w')
    ∧ config w' = config w
    ∧ SPREADSHEET_ID (SPREADSHEET (config w'))
      = SPREADSHEET_ID (SPREADSHEET (config w))
    ∧ (upd_success r = true →
       upd_currentSpreadsheetId r
       = Some (SPREADSHEET_ID (SPREADSHEET (config w)))
       ∧ upd_newSpreadsheetId r = Some newSpreadsheetId
       ∧ upd_message r
         = "Validation successful! To complete the update, please modify CONFIG.SPREADSHEET.SPREADSHEET_ID in Config.js from "
           +:+ dquote +:+ SPREADSHEET_ID (SPREADSHEET (config w)) +:+ dquote
           +:+ " to " +:+ dquote +:+ newSpreadsheetId +:+ dquote)
    ∧ (upd_success r = false → upd_currentSpreadsheetId r = None)
    ∧ (upd_success r = true ↔
         ∃ s ss headers rows,
           Session_getEmail (platform w) = Ok (VString s)
           ∧ (includes s "alvaro.gomez@nisd.net" = true
              ∨ includes s "linda.rodriguez@nisd.net" = true)
           ∧ SpreadsheetApp_openById (platform w) newSpreadsheetId = Ok ss
           ∧ ss_sheets ss !! newSheetName = Some (headers :: rows))
    ∧ (upd_success r = true →
       ∃ s wa outcome wb,
         Session_getEmail (platform w) = Ok (VString s)
         ∧ upd_updatedBy r = Some s
         ∧ config wa = config w ∧ platform wa = platform w
         ∧ cache wa
           = (if Cache_raises (platform w) CacheRemove
                   (UserService.permissionsKey (config w) (VString s))
              then cache w
              else delete (UserService.permissionsKey (config w) (VString s))
                     (cache w))
         ∧ clearDataCache ds (VString s) wa = (outcome, wb)
         ∧ cache w' = cache wb ∧ platform w' = platform wb)
    ∧ (upd_success r = false →
       cache w' = cache w ∧ platform w' = platform w).
Proof.
  intros Hds.
  destruct (updateSpreadsheetConfig_effects ds newSpreadsheetId newSheetName w)
    as (r & w' & E & Hvalidates & Hclears & Hfailure).
  pose proof (keeps_config_updateSpreadsheetConfig ds newSpreadsheetId
                newSheetName Hds w) as Hkeep.
  rewrite E in Hkeep. cbn [snd] in Hkeep.
  exists r, w'. split; [exact E |]. split; [exact Hkeep |].
  split; [by rewrite Hkeep |].
  assert (Hanswer :
    (upd_success r = true →
     upd_currentSpreadsheetId r
     = Some (SPREADSHEET_ID (SPREADSHEET (config w)))
     ∧ upd_newSpreadsheetId r = Some newSpreadsheetId
     ∧ upd_message r
       = "Validation successful! To complete the update, please modify CONFIG.SPREADSHEET.SPREADSHEET_ID in Config.js from "
         +:+ dquote +:+ SPREADSHEET_ID (SPREADSHEET (config w)) +:+ dquote
         +:+ " to " +:+ dquote +:+ newSpreadsheetId +:+ dquote)
    ∧ (upd_success r = false → upd_currentSpreadsheetId r = None));
    [| destruct Hanswer as [Hsuccess Hfail];
       split; [exact Hsuccess |]; split; [exact Hfail |];
       split; [exact Hvalidates |]; split; [exact Hclears | exact Hfailure]].
  clear Hvalidates Hclears Hfailure.
  revert E. unfold updateSpreadsheetConfig, try_catch.
  match goal with |- context [match ?m w with _ => _ end] =>
    destruct (m w) as [[r0|e] w0] eqn:Ebody end.
  - intros [= <- <-]. revert Ebody.
    unfold bind at 1.
    destruct (UserService.getCurrentUserEmail w) as [[userEmail|e] w1] eqn:E1;
      [| done].
    pose proof (keeps_config_getCurrentUserEmail w) as K1.
    rewrite E1 in K1. cbn [snd] in K1.
    destruct userEmail as [| | b | n | currentUser |]; try done.
    destruct (negb (includes currentUser "alvaro.gomez@nisd.net")
              && negb (includes currentUser "linda.rodriguez@nisd.net"));
      [done |].
    unfold bind at 1, logInfo at 1, log at 1.
    unfold bind at 1.
    match goal with |- context [match ?m ?wa with _ => _ end] =>
      destruct (m wa) as [[[]|e] w2] eqn:E2;
      [ assert (K2 : config w2 = config wa) | done ] end.
    { match type of E2 with ?m ?wa = _ =>
        assert (Hk : keeps_config m) end.
      { keeps_config_tac.
        destruct (ss_sheets _ !! newSheetName) as [[|]|]; keeps_config_tac. }
      match type of E2 with ?m ?wa = _ => specialize (Hk wa) end.
      by rewrite E2 in Hk. }
    unfold bind at 1.
    destruct (clearUserCache ds w2) as [[resp|e] w3] eqn:E3; [| done].
    pose proof (keeps_config_clearUserCache ds Hds w2) as K3.
    rewrite E3 in K3. cbn [snd] in K3.
    unfold bind, logInfo, log, ask_config, ask_platform, ret.
    intros [= <-]. cbn [upd_success upd_currentSpreadsheetId
      upd_newSpreadsheetId upd_message config add_log].
    rewrite K3, K2. cbn [config add_log]. rewrite K1.
    split; [done | intros [=]].
  - unfold bind, logError, log, generateErrorId, ask_platform, ret.
    intros [= <- <-]. cbn. split; [intros [=] | done].
Qed.

Lemma keeps_config_sample_clearDataCache (userEmail : value) :
  keeps_config (clearDataCache sample_dataService userEmail).
Proof.
  unfold sample_dataService. cbn [clearDataCache]. keeps_config_tac.
Qed.

(** A run of C8: the administrator, with a permissions entry and a data
    entry in the cache, validates a readable spreadsheet; the answer is
    a success, the configuration is the reference one and both entries
    are gone. *)
Lemma updateSpreadsheetConfig_keeps_config_witness :
  let email := VString "linda.rodriguez@nisd.net" in
  let permissionsKey := UserService.permissionsKey CONFIG email in
  let dataKey :=
    PREFIX (CACHE CONFIG) +:+ "data_" +:+ "linda.rodriguez@nisd.net" in
  let w :=
    set_cache (λ _, <[permissionsKey := "{}"]> (<[dataKey := "[]"]> ∅))
      (sample_world (Ok email) "0.4fzyo82mvyr" (λ _ _, false)) in
  (∀ userEmail, keeps_config (clearDataCache sample_dataService userEmail))
  ∧ cache w !! permissionsKey = Some "{}"
  ∧ cache w !! dataKey = Some "[]"
  ∧ ∃ r w',
      updateSpreadsheetConfig sample_dataService
        "1NewSpreadsheetIdForThisYear" "CURRENT CASELOAD" w = (Ok r, w')
      ∧ upd_success r = true
      ∧ config w' = CONFIG
      ∧ cache w' !! permissionsKey = None
      ∧ cache w' !! dataKey = None.
Proof.
  intros email permissionsKey dataKey w.
  split; [exact keeps_config_sample_clearDataCache |].
  split; [reflexivity |]. split; [reflexivity |].
  destruct (updateSpreadsheetConfig_keeps_config sample_dataService
              "1NewSpreadsheetIdForThisYear" "CURRENT CASELOAD" w
              keeps_config_sample_clearDataCache)
    as (r & w' & E & Hconfig & _ & _ & _ & Hvalidates & Hclears & _).
  assert (Hsuccess : upd_success r = true).
  { apply Hvalidates.
    exists "linda.rodriguez@nisd.net", sample_spreadsheet,
      [ {| cell_json := "1" |} ], [].
    split; [reflexivity |]. split; [by right |]. by split. }
  exists r, w'. split; [exact E |]. split; [exact Hsuccess |].
  split; [exact Hconfig |].
  destruct (Hclears Hsuccess)
    as (s & wa & outcome & wb & [= <-] & _ & Hcfg & Hplat & Hcache
        & Eb & Hcache' & _).
  unfold sample_dataService in Eb. cbn [clearDataCache] in Eb.
  unfold bind, ask_config, cache_remove in Eb.
  rewrite Hcfg, Hplat in Eb. cbn in Eb.
  injection Eb as _ <-.
  rewrite Hcache'. cbn [cache set_cache]. rewrite Hcache.
  split; reflexivity.
Defined.

(** * Properties of the further functions *)

(** ** Strings *)

Lemma append_cons (c : ascii) (s t : string) :
  String c s +:+ t = String c (s +:+ t).
Proof. reflexivity. Qed.

Lemma append_nil_l (t : string) : "" +:+ t = t.
Proof. reflexivity. Qed.

Lemma append_nil_r (s : string) : s +:+ "" = s.
Proof. induction s as [| c s IH]; [done | by rewrite append_cons, IH]. Qed.

Lemma append_assoc (s t u : string) : (s +:+ t) +:+ u = s +:+ (t +:+ u).
Proof.
  induction s as [| c s IH]; [done | by rewrite !append_cons, IH].
Qed.

Lemma append_eq_nil (s t : string) : s +:+ t = "" → s = "" ∧ t = "".
Proof. destruct s; [by rewrite append_nil_l | by rewrite append_cons]. Qed.

Lemma length_append (s t : string) :
  String.length (s +:+ t) = (String.length s + String.length t)%nat.
Proof.
  induction s as [| c s IH]; [done |]. rewrite append_cons. cbn. by rewrite IH.
Qed.

Lemma all_chars_append (p : ascii → bool) (s t : string) :
  all_chars p (s +:+ t) = all_chars p s && all_chars p t.
Proof.
  induction s as [| c s IH]; [done |].
  rewrite append_cons. cbn. by rewrite IH, andb_assoc.
Qed.

Lemma substring_all (s : string) : substring 0 (String.length s) s = s.
Proof. induction s as [| c s IH]; [done | cbn; by rewrite IH]. Qed.

Lemma substring_append_r (s t : string) :
  substring (String.length s) (String.length t) (s +:+ t) = t.
Proof.
  induction s as [| c s IH]; [apply substring_all | exact IH].
Qed.

(** A string is its first [n] characters followed by the rest. *)
Lemma substring_split (n : nat) (s : string) :
  (n ≤ String.length s)%nat →
  s = substring 0 n s +:+ substring n (String.length s - n) s.
Proof.
  revert n. induction s as [| c s IH]; intros [| n] Hn; cbn in Hn.
  - done.
  - lia.
  - change (substring 0 0 (String c s)) with "".
    rewrite append_nil_l, Nat.sub_0_r. by rewrite substring_all.
  - change (substring 0 (S n) (String c s)) with (String c (substring 0 n s)).
    change (substring (S n) (String.length (String c s) - S n) (String c s))
      with (substring n (String.length s - n) s).
    rewrite append_cons. f_equal. apply IH. lia.
Qed.

(** [s.endsWith(suffix)] says that [s] is something followed by
    [suffix]. *)
Lemma endsWith_spec (s suffix : string) :
  endsWith s suffix = true ↔ ∃ front, s = front +:+ suffix.
Proof.
  unfold endsWith. rewrite andb_true_iff, Nat.leb_le, String.eqb_eq. split.
  - intros [Hle Hsub].
    exists (substring 0 (String.length s - String.length suffix) s).
    pose proof (substring_split (String.length s - String.length suffix) s)
      as Hsplit.
    replace (String.length s - (String.length s - String.length suffix))%nat
      with (String.length suffix) in Hsplit by lia.
    rewrite Hsub in Hsplit. apply Hsplit. lia.
  - intros [front ->]. rewrite length_append. split; [lia |].
    replace (String.length front + String.length suffix - String.length suffix)%nat
      with (String.length front) by lia.
    apply substring_append_r.
Qed.

(** ** Regular expressions *)

Lemma nullable_matches (r : regex) : nullable r = true ↔ matches r "".
Proof.
  split.
  - induction r as [| | p | r1 IH1 r2 IH2 | r1 IH1 r2 IH2 | r IH]; cbn;
      try discriminate.
    + intros _. constructor.
    + intros [H1 H2]%andb_prop.
      change "" with ("" +:+ ""). constructor; auto.
    + intros [H | H]%orb_prop; [apply matches_alt_l | apply matches_alt_r]; auto.
    + intros _. constructor.
  - intros H. remember "" as s eqn:Hs.
    induction H as [| p c Hc | r1 r2 s1 s2 H1 IH1 H2 IH2 | r1 r2 s H IH
                    | r1 r2 s H IH | r | r s1 s2 H1 IH1 H2 IH2]; cbn;
      try done.
    + apply append_eq_nil in Hs as [-> ->]. by rewrite IH1, IH2.
    + by rewrite IH.
    + rewrite IH by done. apply orb_true_r.
Qed.

Lemma matches_star_cons_inv (r : regex) (c : ascii) (s : string) :
  matches (Star r) (String c s) →
  ∃ s1 s2, s = s1 +:+ s2 ∧ matches r (String c s1) ∧ matches (Star r) s2.
Proof.
  intros H. remember (Star r) as r' eqn:Hr. remember (String c s) as t eqn:Ht.
  revert s Ht.
  induction H as [| | | | | | r0 s1 s2 H1 _ H2 IH2]; intros u Ht;
    try discriminate.
  injection Hr as ->.
  destruct s1 as [| d s1].
  - rewrite append_nil_l in Ht. by apply IH2.
  - rewrite append_cons in Ht. injection Ht as -> <-. eauto.
Qed.

Lemma matches_void_inv (t : string) : ¬ matches Void t.
Proof. inversion 1. Qed.

Lemma matches_eps_inv (t : string) : matches Eps t → t = "".
Proof. by inversion 1. Qed.

Lemma matches_class_inv (p : ascii → bool) (t : string) :
  matches (Class p) t → ∃ c, t = String c "" ∧ p c = true.
Proof. inversion 1; subst; eauto. Qed.

Lemma matches_seq_inv (r1 r2 : regex) (t : string) :
  matches (Seq r1 r2) t →
  ∃ s1 s2, t = s1 +:+ s2 ∧ matches r1 s1 ∧ matches r2 s2.
Proof. inversion 1; subst; eauto. Qed.

Lemma matches_alt_inv (r1 r2 : regex) (t : string) :
  matches (Alt r1 r2) t → matches r1 t ∨ matches r2 t.
Proof. inversion 1; subst; eauto. Qed.

Lemma deriv_matches (c : ascii) (r : regex) (s : string) :
  matches (deriv c r) s ↔ matches r (String c s).
Proof.
  revert s.
  induction r as [| | p | r1 IH1 r2 IH2 | r1 IH1 r2 IH2 | r IH]; intros s; cbn.
  - split; intros H; by apply matches_void_inv in H.
  - split; intros H; [by apply matches_void_inv in H |].
    by apply matches_eps_inv in H.
  - split.
    + destruct (p c) eqn:Hp; intros H.
      * apply matches_eps_inv in H as ->. by constructor.
      * by apply matches_void_inv in H.
    + intros (d & [= -> ->] & Hp)%matches_class_inv. rewrite Hp. constructor.
  - split.
    + assert (Hleft : ∀ t, matches (Seq (deriv c r1) r2) t →
                           matches (Seq r1 r2) (String c t)).
      { intros t (s1 & s2 & -> & H1 & H2)%matches_seq_inv.
        rewrite <- append_cons. constructor; [by apply IH1 | done]. }
      destruct (nullable r1) eqn:Hnull; [| by apply Hleft].
      intros [H | H]%matches_alt_inv; [by apply Hleft |].
      rewrite <- (append_nil_l (String c s)).
      constructor; [by apply nullable_matches | by apply IH2].
    + intros (s1 & s2 & Heq & H1 & H2)%matches_seq_inv.
      destruct s1 as [| d s1].
      * rewrite append_nil_l in Heq. subst s2.
        apply nullable_matches in H1. rewrite H1.
        apply matches_alt_r. by apply IH2.
      * rewrite append_cons in Heq. injection Heq as <- ->.
        apply IH1 in H1.
        destruct (nullable r1);
          [apply matches_alt_l |]; by constructor.
  - split.
    + intros [H | H]%matches_alt_inv;
        [apply matches_alt_l, IH1 | apply matches_alt_r, IH2]; done.
    + intros [H | H]%matches_alt_inv;
        [apply matches_alt_l, IH1 | apply matches_alt_r, IH2]; done.
  - split.
    + intros (s1 & s2 & -> & H1 & H2)%matches_seq_inv.
      rewrite <- append_cons. constructor; [by apply IH | done].
    + intros (s1 & s2 & -> & H1 & H2)%matches_star_cons_inv.
      constructor; [by apply IH | done].
Qed.

(** The matcher decides the language of the expression. *)
Lemma regex_test_matches (r : regex) (s : string) :
  regex_test r s = true ↔ matches r s.
Proof.
  revert r. induction s as [| c s IH]; intros r; cbn.
  - apply nullable_matches.
  - rewrite IH. apply deriv_matches.
Qed.

Lemma matches_star_class (p : ascii → bool) (s : string) :
  matches (Star (Class p)) s ↔ all_chars p s = true.
Proof.
  split.
  - induction s as [| c s IH]; [done |].
    intros (s1 & s2 & -> & H1 & H2)%matches_star_cons_inv.
    inversion H1; subst. rewrite append_nil_l in *. cbn.
    apply andb_true_intro. split; [done | by apply IH].
  - induction s as [| c s IH]; [constructor |]. cbn.
    intros [Hc Hs]%andb_prop.
    change (String c s) with (String c "" +:+ s).
    constructor; [by constructor | by apply IH].
Qed.

Lemma matches_plus_class (p : ascii → bool) (s : string) :
  matches (Plus (Class p)) s ↔ s ≠ "" ∧ all_chars p s = true.
Proof.
  unfold Plus. split.
  - inversion 1 as [| | ? ? s1 s2 H1 H2 | | | |]; subst.
    inversion H1; subst. rewrite append_cons, append_nil_l.
    split; [done |]. cbn. apply andb_true_intro.
    split; [done | by apply matches_star_class].
  - intros [Hne Hall]. destruct s as [| c s]; [done |]. cbn in Hall.
    apply andb_prop in Hall as [Hc Hs].
    change (String c s) with (String c "" +:+ s).
    constructor; [by constructor | by apply matches_star_class].
Qed.

(** ** Which identities pass validation *)

Lemma matches_at (t : string) : matches (Class (Ascii.eqb "@")) t ↔ t = "@".
Proof.
  split.
  - intros (c & -> & Hc)%matches_class_inv. apply Ascii.eqb_eq in Hc. by subst.
  - intros ->. by constructor.
Qed.

Lemma matches_dot (t : string) : matches (Class (Ascii.eqb ".")) t ↔ t = ".".
Proof.
  split.
  - intros (c & -> & Hc)%matches_class_inv. apply Ascii.eqb_eq in Hc. by subst.
  - intros ->. by constructor.
Qed.

(** The language of the address expression: three non-empty runs free of
    whitespace and [@], joined by one [@] and one dot. *)
Lemma emailRegex_matches (s : string) :
  matches emailRegex s ↔
  ∃ a b c,
    s = a +:+ "@" +:+ b +:+ "." +:+ c
    ∧ (a ≠ "" ∧ all_chars not_space_at a = true)
    ∧ (b ≠ "" ∧ all_chars not_space_at b = true)
    ∧ (c ≠ "" ∧ all_chars not_space_at c = true).
Proof.
  unfold emailRegex. split.
  - intros (a & t1 & -> & Ha & H1)%matches_seq_inv.
    apply matches_seq_inv in H1 as (at' & t2 & -> & Hat & H2).
    apply matches_seq_inv in H2 as (b & t3 & -> & Hb & H3).
    apply matches_seq_inv in H3 as (dot & c & -> & Hdot & Hc).
    apply matches_at in Hat as ->. apply matches_dot in Hdot as ->.
    apply matches_plus_class in Ha, Hb, Hc. by exists a, b, c.
  - intros (a & b & c & -> & Ha & Hb & Hc).
    apply matches_plus_class in Ha, Hb, Hc.
    repeat (constructor; [done || by apply matches_at || by apply matches_dot |]).
    done.
Qed.

Lemma not_space_at_not_at (s : string) :
  all_chars not_space_at s = true → all_chars not_at s = true.
Proof.
  apply all_chars_impl. intros c. unfold not_space_at, not_at.
  by intros [_ ?]%andb_prop.
Qed.

(** A string with a single [@] splits around it in one way only. *)
Lemma split_at_unique (a x a' x' : string) :
  a +:+ String "@" x = a' +:+ String "@" x' →
  all_chars not_at a = true → all_chars not_at x = true →
  a' = a ∧ x' = x.
Proof.
  revert a'. induction a as [| d a IH]; intros [| d' a'] Heq Ha Hx.
  - rewrite !append_nil_l in Heq. by injection Heq as ->.
  - rewrite append_nil_l, append_cons in Heq. injection Heq as <- ->.
    rewrite all_chars_append in Hx. cbn in Hx.
    by rewrite andb_false_r in Hx.
  - rewrite append_nil_l, append_cons in Heq. injection Heq as -> _.
    cbn in Ha. done.
  - rewrite !append_cons in Heq. injection Heq as <- Heq.
    cbn in Ha. apply andb_prop in Ha as [_ Ha].
    destruct (IH a' Heq Ha Hx) as [-> ->]. done.
Qed.

(** An address under the district's domain passes the suffix test and
    the format test exactly when its local part is non-empty and free of
    whitespace and [@]. *)
Lemma nisd_address_tests (s : string) :
  endsWith s "@nisd.net" && regex_test emailRegex s = true ↔
  ∃ loc, s = loc +:+ "@nisd.net"
         ∧ loc ≠ "" ∧ all_chars not_space_at loc = true.
Proof.
  rewrite andb_true_iff, endsWith_spec, regex_test_matches, emailRegex_matches.
  split.
  - intros [[front ->] (a & b & c & Heq & [Hane Ha] & [_ Hb] & [_ Hc])].
    change (front +:+ "@nisd.net") with (front +:+ String "@" "nisd.net") in *.
    change (a +:+ "@" +:+ b +:+ "." +:+ c)
      with (a +:+ String "@" (b +:+ "." +:+ c)) in Heq.
    symmetry in Heq.
    apply split_at_unique in Heq as [-> _].
    + by exists a.
    + by apply not_space_at_not_at.
    + rewrite !all_chars_append.
      by rewrite (not_space_at_not_at _ Hb), (not_space_at_not_at _ Hc).
  - intros (loc & -> & Hne & Hloc). split; [by exists loc |].
    by exists loc, "nisd", "net".
Qed.

(** X1: under the district's domain suffix, [validateUserEmail] answers
    [true] for a string exactly when it is a non-empty local part, free
    of whitespace and [@], followed by ["@nisd.net"]. *)
Theorem validateUserEmail_accepts_exactly (s : string) (w : World) :
  ALLOWED_DOMAIN (SECURITY (config w)) = "@nisd.net" →
  (UserService.validateUserEmail (VString s) w).1 = Ok true ↔
  ∃ loc, s = loc +:+ "@nisd.net"
         ∧ loc ≠ "" ∧ all_chars not_space_at loc = true.
Proof.
  intros Hdomain.
  destruct (validateUserEmail_run (VString s) w) as [entry ->]. cbn [fst].
  unfold isValidEmail. rewrite Hdomain. cbn [truthy typeof ToString].
  change (String.eqb "string" "string") with true.
  rewrite andb_true_r, <- nisd_address_tests.
  split.
  - intros [= H]. rewrite <- andb_assoc in H.
    by apply andb_prop in H as [_ H].
  - intros H. rewrite <- andb_assoc, H, andb_true_r. f_equal.
    apply negb_true_iff, String.eqb_neq. intros ->.
    apply andb_prop in H as [[front Hfront]%endsWith_spec _].
    by destruct front.
Qed.

(** A run of X1: a listed coordinator's address is accepted. *)
Lemma validateUserEmail_accepts_exactly_witness :
  let w := sample_world (Ok (VString "dora.salazar@nisd.net")) "0.4fzyo82mvyr"
             (λ _ _, false) in
  ALLOWED_DOMAIN (SECURITY (config w)) = "@nisd.net"
  ∧ (UserService.validateUserEmail (VString "dora.salazar@nisd.net") w).1
    = Ok true.
Proof.
  intros w. split; [reflexivity |].
  apply (validateUserEmail_accepts_exactly "dora.salazar@nisd.net" w eq_refl).
  by exists "dora.salazar".
Defined.

(** ** Permission queries and the permission cache *)

(** The cached path of [getUserPermissions]: a valid identity with a
    non-empty cache entry gets whatever the entry parses to, and a parse
    failure becomes the permission error; the table is not read and the
    cache is left as it is. *)
Lemma getUserPermissions_cached codec (email : value) (w : World)
    (text : string) :
  let key := UserService.permissionsKey (config w) email in
  isValidEmail (config w) email = true →
  Cache_raises (platform w) CacheGet key = false →
  cache w !! key = Some text →
  text ≠ "" →
  ∃ w', same_services w w' ∧ cache w' = cache w
        ∧ match JSON_parse codec text with
          | Ok p => UserService.getUserPermissions codec email w = (Ok p, w')
          | Throw e0 =>
              ∃ e, UserService.getUserPermissions codec email w = (Throw e, w')
                   ∧ exn_message e = ERROR_MESSAGES.PERMISSION_ERROR
                   ∧ exn_originalError e = Some (exn_message e0)
          end.
Proof.
  intros key Hvalid Hget Hhit Htext.
  destruct (validateUserEmail_run email w) as [e1 E1].
  set (w1 := add_log e1 w) in *.
  assert (Hbody :
    ∀ handler,
      try_catch
        (valid <- UserService.validateUserEmail email ;;
         if negb valid then throw (Error ERROR_MESSAGES.INVALID_EMAIL)
         else
           cfg <- ask_config ;;
           let cacheKey := UserService.permissionsKey cfg email in
           cached <- cache_get cacheKey ;;
           if cached_truthy cached then
             logDebug "User permissions retrieved from cache"
               "UserService.getUserPermissions" ;;
             permissions <- lift_result (JSON_parse codec (default "" cached)) ;;
             logPerformance "getUserPermissions (cached)" ;;
             ret permissions
           else
             permissions <- UserService.loadUserPermissionsFromConfig email ;;
             try_catch
               (cache_put cacheKey (JSON_stringify codec permissions)
                  (USER_PERMISSIONS_DURATION (CACHE cfg)) ;;
                logDebug "User permissions cached successfully"
                  "UserService.getUserPermissions")
               (λ cacheError,
                  logWarn "Failed to cache user permissions"
                    "UserService.getUserPermissions") ;;
             logPerformance "getUserPermissions (fresh)" ;;
             ret permissions)%script handler w
      = try_catch
          (logDebug "User permissions retrieved from cache"
             "UserService.getUserPermissions" ;;
           permissions <- lift_result (JSON_parse codec text) ;;
           logPerformance "getUserPermissions (cached)" ;;
           ret permissions)%script handler w1).
  { intros handler. unfold try_catch at 1 3.
    rewrite (bind_ok _ _ _ _ _ E1), Hvalid. cbn [negb].
    unfold bind at 1. cbn [ask_config].
    change (UserService.permissionsKey (config w1) email) with key.
    unfold bind at 1, cache_get.
    change (Cache_raises (platform w1) CacheGet key)
      with (Cache_raises (platform w) CacheGet key).
    rewrite Hget. change (cache w1) with (cache w). rewrite Hhit.
    cbn [cached_truthy default from_option id].
    by rewrite (proj2 (String.eqb_neq _ _) Htext). }
  unfold UserService.getUserPermissions. rewrite Hbody.
  unfold try_catch, bind at 1, logDebug, log at 1.
  unfold bind at 1, lift_result.
  destruct (JSON_parse codec text) as [p | e0].
  - eexists. split; [| split]; [| | reflexivity]; [by split | done].
  - eexists. split; [| split]; [| | eexists; split; [reflexivity |]];
      [by split | done | by split].
Qed.

(** Whenever [getUserPermissions] raises, what it raises is the
    permission error built by [createError]. *)
Lemma getUserPermissions_raises codec (email : value) (w w' : World) (e : Exn) :
  UserService.getUserPermissions codec email w = (Throw e, w') →
  exn_message e = ERROR_MESSAGES.PERMISSION_ERROR.
Proof.
  unfold UserService.getUserPermissions, try_catch.
  match goal with |- context [match ?m w with _ => _ end] =>
    destruct (m w) as [[p|e0] w0] end; [done |].
  unfold bind, logError, createError, ask_platform, log, ret, throw.
  by intros [= <- _].
Qed.

Lemma keeps_config_cache_get key : keeps_config (cache_get key).
Proof. intros w. unfold cache_get. by destruct (Cache_raises _ _ _). Qed.

Lemma keeps_config_cache_put key val ttl : keeps_config (cache_put key val ttl).
Proof. intros w. unfold cache_put. by destruct (Cache_raises _ _ _). Qed.

Ltac keeps_config_step :=
  first
    [ progress intros
    | apply keeps_config_bind
    | apply keeps_config_try_catch
    | apply keeps_config_ret
    | apply keeps_config_throw
    | apply keeps_config_log
    | apply keeps_config_ask_config
    | apply keeps_config_ask_platform
    | apply keeps_config_lift_result
    | apply keeps_config_cache_remove
    | apply keeps_config_cache_get
    | apply keeps_config_cache_put
    | match goal with
      | |- keeps_config (if ?b then _ else _) => destruct b
      | |- keeps_config (match ?x with _ => _ end) => destruct x
      end ].

Lemma keeps_config_validateUserEmail email :
  keeps_config (UserService.validateUserEmail email).
Proof.
  unfold UserService.validateUserEmail, logWarn, logDebug, logError.
  repeat keeps_config_step.
Qed.

Lemma keeps_config_loadUserPermissionsFromConfig email :
  keeps_config (UserService.loadUserPermissionsFromConfig email).
Proof.
  unfold UserService.loadUserPermissionsFromConfig, logInfo, logError.
  repeat keeps_config_step.
Qed.

Lemma keeps_config_getUserPermissions codec email :
  keeps_config (UserService.getUserPermissions codec email).
Proof.
  unfold UserService.getUserPermissions, createError, logDebug, logWarn,
    logError, logPerformance.
  apply keeps_config_try_catch; [| repeat keeps_config_step].
  apply keeps_config_bind; [apply keeps_config_validateUserEmail |].
  intros valid. destruct valid; cbn [negb]; [| apply keeps_config_throw].
  do 2 (apply keeps_config_bind; [repeat keeps_config_step |]; intros).
  destruct (cached_truthy _); [repeat keeps_config_step |].
  apply keeps_config_bind;
    [apply keeps_config_loadUserPermissionsFromConfig |].
  repeat keeps_config_step.
Qed.

(** A record comes back only for an identity that passes validation. *)
Lemma getUserPermissions_ok_valid codec (email : value) (w w' : World)
    (p : Permissions) :
  UserService.getUserPermissions codec email w = (Ok p, w') →
  isValidEmail (config w) email = true.
Proof.
  intros E. destruct (isValidEmail (config w) email) eqn:Hvalid; [done |].
  destruct (getUserPermissions_invalid codec email w Hvalid) as (e & w1 & E1 & _).
  congruence.
Qed.

(** X2: [hasFullAccess] always answers a boolean: the [isFullAccess]
    member of the record when permission resolution returns one, [false]
    when it raises.  So it is [false] for every identity that fails
    validation, and on a cache miss it is [true] exactly for a listed
    identity with at least the threshold number of campuses. *)
Theorem hasFullAccess_spec codec (email : value) (w : World) :
  ∃ b w',
    UserService.hasFullAccess codec email w = (Ok b, w')
    ∧ match UserService.getUserPermissions codec email w with
      | (Ok p, _) => b = isFullAccess p
      | (Throw _, _) => b = false
      end
    ∧ (isValidEmail (config w) email = false → b = false)
    ∧ (isValidEmail (config w) email = true →
       Cache_raises (platform w) CacheGet
         (UserService.permissionsKey (config w) email) = false →
       cached_truthy
         (cache w !! UserService.permissionsKey (config w) email) = false →
       b = table_full_access (config w) email).
Proof.
  unfold UserService.hasFullAccess.
  destruct (UserService.getUserPermissions codec email w) as [[p|e] w1] eqn:E.
  - eexists _, _. split; [| split; [reflexivity | split]].
    + apply try_catch_ok. by rewrite (bind_ok _ _ _ _ _ E).
    + intros Hinvalid.
      by rewrite (getUserPermissions_ok_valid _ _ _ _ _ E) in Hinvalid.
    + intros Hvalid Hget Hmiss.
      destruct (getUserPermissions_miss codec email w Hvalid Hget Hmiss)
        as (w2 & E2 & _).
      rewrite E in E2. injection E2 as -> _.
      unfold permissionsFromConfig, table_full_access.
      by destruct (LEGACY_EMAIL_CAMPUS_MAPPING (config w) !! ToString email).
  - eexists _, _. split; [| split; [reflexivity | split]].
    + by rewrite (try_catch_throw _ _ _ _ _ (bind_throw _ _ _ _ _ E)).
    + done.
    + intros Hvalid Hget Hmiss.
      destruct (getUserPermissions_miss codec email w Hvalid Hget Hmiss)
        as (w2 & E2 & _).
      congruence.
Qed.

(** X3: [getUserCampuses] always answers a list: the record's campuses
    when permission resolution returns a record with [hasAccess], the
    empty list when the record has no access or resolution raises.  On a
    cache miss the answer is the identity's list in the table, empty for
    an identity that is not listed. *)
Theorem getUserCampuses_spec codec (email : value) (w : World) :
  ∃ l w',
    getUserCampuses codec email w = (Ok l, w')
    ∧ match UserService.getUserPermissions codec email w with
      | (Ok p, _) => l = if hasAccess p then campuses p else []
      | (Throw _, _) => l = []
      end
    ∧ (isValidEmail (config w) email = false → l = [])
    ∧ (isValidEmail (config w) email = true →
       Cache_raises (platform w) CacheGet
         (UserService.permissionsKey (config w) email) = false →
       cached_truthy
         (cache w !! UserService.permissionsKey (config w) email) = false →
       l = table_campuses (config w) email).
Proof.
  unfold getUserCampuses.
  destruct (UserService.getUserPermissions codec email w) as [[p|e] w1] eqn:E.
  - assert (Hrun : ∃ w2,
               try_catch
                 (permissions <- UserService.getUserPermissions codec email ;;
                  if negb (hasAccess permissions) then
                    logInfo "User has no campus access"
                      "UserService.getUserCampuses" ;;
                    ret []
                  else ret (campuses permissions))
                 (λ error,
                    logError "Error getting user campuses"
                      "UserService.getUserCampuses" ;;
                    ret []) w
               = (Ok (if hasAccess p then campuses p else []), w2)).
    { destruct (hasAccess p) eqn:Hacc; eexists; apply try_catch_ok;
        rewrite (bind_ok _ _ _ _ _ E), Hacc; reflexivity. }
    destruct Hrun as [w2 Hrun].
    exists (if hasAccess p then campuses p else []), w2.
    split; [exact Hrun | split; [reflexivity | split]].
    + intros Hinvalid.
      by rewrite (getUserPermissions_ok_valid _ _ _ _ _ E) in Hinvalid.
    + intros Hvalid Hget Hmiss.
      destruct (getUserPermissions_miss codec email w Hvalid Hget Hmiss)
        as (w3 & E2 & _).
      rewrite E in E2. injection E2 as -> _.
      unfold permissionsFromConfig, table_campuses.
      by destruct (LEGACY_EMAIL_CAMPUS_MAPPING (config w) !! ToString email).
  - eexists _, _. split; [| split; [reflexivity | split]].
    + by rewrite (try_catch_throw _ _ _ _ _ (bind_throw _ _ _ _ _ E)).
    + done.
    + intros Hvalid Hget Hmiss.
      destruct (getUserPermissions_miss codec email w Hvalid Hget Hmiss)
        as (w2 & E2 & _).
      congruence.
Qed.

(** X4: [getUserSummary] always answers.  When permission resolution
    returns a record, the summary reports it and [isValid] is [true]:
    the second validation cannot disagree with the first.  When
    resolution raises, the summary has [isValid = false],
    [hasAccess = false] and carries the generic permission error as its
    message, also for an identity that merely failed validation. *)
Theorem getUserSummary_spec codec (email : value) (w : World) :
  ∃ r w',
    getUserSummary codec email w = (Ok r, w')
    ∧ summary_email r = email
    ∧ match UserService.getUserPermissions codec email w with
      | (Ok p, _) =>
          summary_isValid r = true
          ∧ summary_hasAccess r = hasAccess p
          ∧ summary_campusCount r = Some (length (campuses p))
          ∧ summary_isFullAccess r = Some (isFullAccess p)
          ∧ summary_role r = Some (role p)
          ∧ summary_campuses r = Some (campuses p)
          ∧ summary_error r = None
      | (Throw _, _) =>
          summary_isValid r = false
          ∧ summary_hasAccess r = false
          ∧ summary_campuses r = None
          ∧ summary_error r = Some ERROR_MESSAGES.PERMISSION_ERROR
      end.
Proof.
  unfold getUserSummary.
  destruct (UserService.getUserPermissions codec email w) as [[p|e] w1] eqn:E.
  - destruct (validateUserEmail_run email w1) as [entry Ev].
    eexists _, _. split.
    { apply try_catch_ok.
      by rewrite (bind_ok _ _ _ _ _ E), (bind_ok _ _ _ _ _ Ev). }
    split; [reflexivity |].
    + cbn. repeat split.
      pose proof (keeps_config_getUserPermissions codec email w) as Hkeep.
      rewrite E in Hkeep. cbn [snd] in Hkeep. rewrite Hkeep.
      exact (getUserPermissions_ok_valid _ _ _ _ _ E).
  - eexists _, _. split.
    { by rewrite (try_catch_throw _ _ _ _ _ (bind_throw _ _ _ _ _ E)). }
    split; [reflexivity |].
    + cbn. repeat split.
      by rewrite (getUserPermissions_raises _ _ _ _ _ E).
Qed.

(** X5: [UserService.clearUserCache] always returns.  When the cache
    service accepts the removal, exactly the identity's permissions entry
    is gone and every other entry is as before; when the service raises,
    the cache is as before.  After a removal that went through, the next
    permission resolution of a valid identity reads the table again,
    whatever the entry held before. *)
Theorem clearUserCache_then_fresh codec (email : value) (w : World) :
  let key := UserService.permissionsKey (config w) email in
  ∃ w',
    UserService.clearUserCache email w = (Ok tt, w')
    ∧ same_services w w'
    ∧ cache w' = (if Cache_raises (platform w) CacheRemove key
                  then cache w else delete key (cache w))
    ∧ (Cache_raises (platform w) CacheRemove key = false →
       cache w' !! key = None
       ∧ (∀ other, other ≠ key → cache w' !! other = cache w !! other)
       ∧ (isValidEmail (config w) email = true →
          Cache_raises (platform w) CacheGet key = false →
          ∃ w'',
            UserService.getUserPermissions codec email w'
            = (Ok (permissionsFromConfig (config w) (Date_now (platform w))
                     email), w''))).
Proof.
  intros key.
  unfold UserService.clearUserCache, try_catch, bind, ask_config,
    cache_remove, logInfo, logWarn, log.
  fold key.
  destruct (Cache_raises (platform w) CacheRemove key) eqn:Hremove.
  - eexists. split; [reflexivity |]. split; [by split |].
    split; [reflexivity | done].
  - eexists. split; [reflexivity |]. split; [by split |].
    split; [reflexivity |]. intros _. cbn [cache add_log set_cache].
    split; [apply lookup_delete_eq |].
    split; [intros other Hother; by apply lookup_delete_ne |].
    intros Hvalid Hget.
    match goal with |- ∃ _, _ _ _ ?w1 = _ => set (w' := w1) end.
    destruct (getUserPermissions_miss codec email w') as (w'' & E & _).
    + exact Hvalid.
    + exact Hget.
    + cbn. fold key. by rewrite lookup_delete_eq.
    + by exists w''.
Qed.

(** X6: what a fresh permission resolution writes, a later one reads
    back.  When the codec reads its own text for the record, a
    resolution that missed the cache leaves the record's text under the
    identity's key, and every later resolution that finds that entry
    there returns the same record, whatever else the cache holds by
    then and whatever the table and the clock say by then; the later
    resolution leaves the cache as it is. *)
Theorem getUserPermissions_served_from_cache codec (email : value)
    (w : World) :
  let key := UserService.permissionsKey (config w) email in
  let perm := permissionsFromConfig (config w) (Date_now (platform w)) email in
  JSON_parse codec (JSON_stringify codec perm) = Ok perm →
  JSON_stringify codec perm ≠ "" →
  isValidEmail (config w) email = true →
  Cache_raises (platform w) CacheGet key = false →
  Cache_raises (platform w) CachePut key = false →
  cached_truthy (cache w !! key) = false →
  ∃ w1,
    UserService.getUserPermissions codec email w = (Ok perm, w1)
    ∧ cache w1 !! key = Some (JSON_stringify codec perm)
    ∧ ∀ later : World,
        cache later !! key = Some (JSON_stringify codec perm) →
        UserService.permissionsKey (config later) email = key →
        isValidEmail (config later) email = true →
        Cache_raises (platform later) CacheGet key = false →
        ∃ w2,
          UserService.getUserPermissions codec email later = (Ok perm, w2)
          ∧ cache w2 = cache later.
Proof.
  intros key perm Hround Hnonempty Hvalid Hget Hput Hmiss.
  destruct (getUserPermissions_miss codec email w Hvalid Hget Hmiss)
    as (w1 & E1 & _ & Hcache & _).
  fold key perm in E1, Hcache. rewrite Hput in Hcache.
  exists w1. split; [exact E1 |].
  split; [by rewrite Hcache, lookup_insert_eq |].
  intros later Hentry Hkey Hvalid' Hget'.
  destruct (getUserPermissions_cached codec email later
              (JSON_stringify codec perm))
    as (w2 & _ & Hcache2 & Hrun).
  - exact Hvalid'.
  - by rewrite Hkey.
  - by rewrite Hkey.
  - exact Hnonempty.
  - rewrite Hround in Hrun. by exists w2.
Qed.

(** X7: an entry under the identity's permissions key that the codec
    cannot read makes permission resolution raise the generic permission
    error, with the parse error as its cause: the table is not consulted
    and the entry stays in the cache, so the next resolution meets it
    again. *)
Theorem getUserPermissions_unreadable_entry codec (email : value)
    (w : World) (text : string) (e0 : Exn) :
  let key := UserService.permissionsKey (config w) email in
  isValidEmail (config w) email = true →
  Cache_raises (platform w) CacheGet key = false →
  cache w !! key = Some text →
  text ≠ "" →
  JSON_parse codec text = Throw e0 →
  ∃ e w',
    UserService.getUserPermissions codec email w = (Throw e, w')
    ∧ exn_message e = ERROR_MESSAGES.PERMISSION_ERROR
    ∧ exn_originalError e = Some (exn_message e0)
    ∧ cache w' = cache w
    ∧ same_services w w'.
Proof.
  intros key Hvalid Hget Hentry Hnonempty Hparse.
  destruct (getUserPermissions_cached codec email w text
              Hvalid Hget Hentry Hnonempty)
    as (w' & Hsame & Hcache & Hrun).
  rewrite Hparse in Hrun. destruct Hrun as (e & E & Hmsg & Horig).
  by exists e, w'.
Qed.

(** A run of X6: the administrator's record is resolved from the table
    and then read back from a cache that has gained another entry in
    between. *)
Lemma getUserPermissions_served_from_cache_witness :
  let email := VString "linda.rodriguez@nisd.net" in
  let w := sample_world (Ok email) "0.4fzyo82mvyr" (λ _ _, false) in
  let perm := permissionsFromConfig (config w) (Date_now (platform w)) email in
  ∃ w1 w2,
    UserService.getUserPermissions (sample_codec_for perm) email w
    = (Ok perm, w1)
    ∧ UserService.getUserPermissions (sample_codec_for perm) email
        (set_cache (insert "health_test" "test") w1)
      = (Ok perm, w2)
    ∧ role perm = "administrator".
Proof.
  intros email w perm.
  destruct (getUserPermissions_served_from_cache (sample_codec_for perm)
              email w)
    as (w1 & E1 & Hentry & Hlater);
    [reflexivity | discriminate | reflexivity | reflexivity | reflexivity
    | reflexivity |].
  pose proof (keeps_config_getUserPermissions (sample_codec_for perm) email w)
    as Hconfig.
  rewrite E1 in Hconfig. cbn [snd] in Hconfig.
  assert (Hplatform : platform w1 = platform w).
  { destruct (getUserPermissions_miss (sample_codec_for perm) email w)
      as (w1' & E1' & [_ Hp] & _); [reflexivity | reflexivity | reflexivity |].
    rewrite E1 in E1'. injection E1' as Heq. by rewrite Heq. }
  destruct (Hlater (set_cache (insert "health_test" "test") w1))
    as (w2 & E2 & _).
  - cbn [cache set_cache]. rewrite lookup_insert_ne; [exact Hentry |].
    intros Hkey. vm_compute in Hkey. discriminate Hkey.
  - cbn [config set_cache]. by rewrite Hconfig.
  - cbn [config set_cache]. by rewrite Hconfig.
  - cbn [platform set_cache]. by rewrite Hplatform.
  - exists w1, w2. by repeat split.
Defined.

(** A run of X7: an entry that is not JSON under a coordinator's key. *)
Lemma getUserPermissions_unreadable_entry_witness :
  let email := VString "dora.salazar@nisd.net" in
  let w0 := sample_world (Ok email) "0.4fzyo82mvyr" (λ _ _, false) in
  let key := UserService.permissionsKey (config w0) email in
  let w := set_cache (insert key "{hasAccess:tr") w0 in
  ∃ e w',
    UserService.getUserPermissions sample_codec email w = (Throw e, w')
    ∧ exn_message e = ERROR_MESSAGES.PERMISSION_ERROR
    ∧ cache w' !! key = Some "{hasAccess:tr".
Proof.
  intros email w0 key w.
  destruct (getUserPermissions_unreadable_entry sample_codec email w
              "{hasAccess:tr" (Error "SyntaxError: Unexpected token"))
    as (e & w' & E & Hmsg & _ & Hcache & _);
    [reflexivity | reflexivity | apply lookup_insert_eq | discriminate
    | reflexivity |].
  exists e, w'. split; [exact E |]. split; [exact Hmsg |].
  rewrite Hcache. apply lookup_insert_eq.
Defined.

(** ** Column removal beyond index lists without repetitions *)

Section ColumnEdgeCases.
Context {A : Type}.
Implicit Types (row : list A) (cols : list nat).

Lemma length_insert_desc c cols :
  length (insert_desc c cols) = S (length cols).
Proof.
  induction cols as [| d cols IH]; cbn; [done |].
  destruct (d <=? c)%nat; cbn; [done | by rewrite IH].
Qed.

Lemma length_sort_desc cols : length (sort_desc cols) = length cols.
Proof.
  induction cols as [| c cols IH]; [done |].
  change (sort_desc (c :: cols)) with (insert_desc c (sort_desc cols)).
  by rewrite length_insert_desc, IH.
Qed.

Lemma splice1_cons k (x : A) row :
  splice1 (S k) (x :: row) = x :: splice1 k row.
Proof. reflexivity. Qed.

Lemma splice1_nil k : splice1 k (@nil A) = [].
Proof. unfold splice1. by rewrite take_nil, drop_nil. Qed.

Lemma length_splice1 k row :
  (k < length row)%nat → length (splice1 k row) = (length row - 1)%nat.
Proof.
  revert row.
  induction k as [| k IH]; intros [| x row] Hlt; cbn [length] in Hlt |- *;
    try lia.
  - unfold splice1. cbn. rewrite drop_0. lia.
  - rewrite splice1_cons. cbn [length]. rewrite IH by lia. lia.
Qed.

Lemma splice1_ge k row : (length row ≤ k)%nat → splice1 k row = row.
Proof.
  intros Hle. unfold splice1.
  rewrite take_ge by lia. rewrite drop_ge by lia. apply app_nil_r.
Qed.

Lemma foldl_splice_length cols row :
  descending cols →
  Forall (λ c, (c < length row)%nat) cols →
  length (foldl (λ newRow colIndex, splice1 colIndex newRow) row cols)
  = (length row - length cols)%nat.
Proof.
  unfold descending. intros Hsorted. revert row.
  induction Hsorted as [| k cols Hs IH Hall]; intros row Hrange;
    cbn [foldl length]; [lia |].
  apply Forall_cons in Hrange as [Hk Hrange].
  rewrite IH.
  - rewrite length_splice1 by exact Hk. lia.
  - rewrite length_splice1 by exact Hk.
    apply Forall_forall. intros c Hc.
    pose proof (proj1 (Forall_forall _ _) Hall c Hc). cbn in *. lia.
Qed.

Lemma foldl_splice_ge cols row :
  Forall (λ c, (length row ≤ c)%nat) cols →
  foldl (λ newRow colIndex, splice1 colIndex newRow) row cols = row.
Proof.
  induction 1 as [| c cols Hc Hall IH]; cbn [foldl]; [done |].
  by rewrite splice1_ge.
Qed.

Lemma insert_desc_comm a b cols :
  insert_desc a (insert_desc b cols) = insert_desc b (insert_desc a cols).
Proof.
  induction cols as [| d cols IH]; cbn.
  - destruct (b <=? a)%nat eqn:Hba, (a <=? b)%nat eqn:Hab; try done.
    + apply Nat.leb_le in Hba, Hab. by replace a with b by lia.
    + apply Nat.leb_gt in Hba, Hab. lia.
  - destruct (d <=? b)%nat eqn:Hdb, (d <=? a)%nat eqn:Hda; cbn;
      rewrite ?Hdb, ?Hda;
      destruct (b <=? a)%nat eqn:Hba, (a <=? b)%nat eqn:Hab; try done;
      repeat match goal with
             | H : (_ <=? _)%nat = true |- _ => apply Nat.leb_le in H
             | H : (_ <=? _)%nat = false |- _ => apply Nat.leb_gt in H
             end;
      try lia; try (by rewrite IH); by replace a with b by lia.
Qed.

Lemma sort_desc_permutation cols cols' :
  cols ≡ₚ cols' → sort_desc cols = sort_desc cols'.
Proof.
  induction 1 as [| c l l' _ IH | a b l | l1 l2 l3 _ IH1 _ IH2].
  - done.
  - change (insert_desc c (sort_desc l) = insert_desc c (sort_desc l')).
    by rewrite IH.
  - apply (insert_desc_comm b a (sort_desc l)).
  - by rewrite IH1.
Qed.

Lemma sort_desc_replicate n k :
  sort_desc (replicate n k) = replicate n k.
Proof.
  induction n as [| n IH]; [done |].
  change (sort_desc (replicate (S n) k))
    with (insert_desc k (sort_desc (replicate n k))).
  rewrite IH. destruct n as [| n]; cbn; [done |].
  by rewrite Nat.leb_refl.
Qed.

Lemma foldl_splice_replicate_cons n k (x : A) row :
  foldl (λ newRow colIndex, splice1 colIndex newRow) (x :: row)
    (replicate n (S k))
  = x :: foldl (λ newRow colIndex, splice1 colIndex newRow) row
           (replicate n k).
Proof.
  revert row. induction n as [| n IH]; intros row; cbn [replicate foldl];
    [done |].
  by rewrite splice1_cons, IH.
Qed.

Lemma foldl_splice_replicate_nil n k :
  foldl (λ newRow colIndex, splice1 colIndex newRow) (@nil A)
    (replicate n k) = [].
Proof.
  induction n as [| n IH]; cbn [replicate foldl]; [done |].
  by rewrite splice1_nil.
Qed.

Lemma foldl_splice_replicate_0 n row :
  foldl (λ newRow colIndex, splice1 colIndex newRow) row (replicate n 0%nat)
  = drop n row.
Proof.
  revert row. induction n as [| n IH]; intros row; cbn [replicate foldl];
    [done |].
  rewrite IH. destruct row as [| x row]; [by rewrite splice1_nil, !drop_nil |].
  unfold splice1. cbn. by rewrite drop_0.
Qed.

Lemma foldl_splice_replicate n k row :
  foldl (λ newRow colIndex, splice1 colIndex newRow) row (replicate n k)
  = (take k row ++ drop (k + n)%nat row)%list.
Proof.
  revert row. induction k as [| k IH]; intros row.
  - apply foldl_splice_replicate_0.
  - destruct row as [| x row].
    + by rewrite foldl_splice_replicate_nil.
    + rewrite foldl_splice_replicate_cons, IH. reflexivity.
Qed.

(** The cell at original index [i + n] sits, after the removal, behind
    the surviving cells of the indices before it. *)
Lemma kept_cells_from_lookup i n cols row :
  (i + n)%nat ∉ cols →
  kept_cells_from i cols row
    !! length (List.filter (λ j, negb (bool_decide (j ∈ cols))) (seq i n))
  = row !! n.
Proof.
  revert i n. induction row as [| x row IH]; intros i n Hn; [done |].
  destruct n as [| n].
  - rewrite Nat.add_0_r in Hn. cbn.
    by rewrite bool_decide_eq_false_2.
  - cbn [seq List.filter kept_cells_from].
    replace (i + S n)%nat with (S i + n)%nat in Hn by lia.
    destruct (bool_decide (i ∈ cols)); cbn [negb length];
      apply (IH (S i) n Hn).
Qed.

End ColumnEdgeCases.

(** X8: a row loses one cell for each listed index: for an index list
    without repetitions whose indices all lie inside the row, the row
    that comes out of the column removal is shorter by the length of the
    list. *)
Theorem removeColumnsRow_length {A : Type} (cols : list nat) (row : list A) :
  NoDup cols →
  Forall (λ c, (c < length row)%nat) cols →
  length (removeColumnsRow cols row) = (length row - length cols)%nat.
Proof.
  intros Hnd Hrange. unfold removeColumnsRow.
  rewrite foldl_splice_length.
  - by rewrite length_sort_desc.
  - by apply sort_desc_descending.
  - apply Forall_forall. intros c Hc. rewrite elem_of_sort_desc in Hc.
    exact (proj1 (Forall_forall _ _) Hrange c Hc).
Qed.

(** A run of X8: the six hidden columns of a fifteen-column row. *)
Lemma removeColumnsRow_length_witness :
  length (removeColumnsRow (COLUMNS_TO_REMOVE (SPREADSHEET CONFIG))
            (replicate 15 "x")) = 9%nat.
Proof.
  apply (removeColumnsRow_length (COLUMNS_TO_REMOVE (SPREADSHEET CONFIG))
           (replicate 15 "x")).
  - apply (bool_decide_unpack _). by vm_compute.
  - apply (bool_decide_unpack _). by vm_compute.
Defined.

(** X9: indices at or past the end of a row remove nothing from it: a
    row too short to have any of the listed columns comes out of the
    column removal as it went in, repetitions in the list or not. *)
Theorem removeColumnsRow_short_row {A : Type} (cols : list nat)
    (row : list A) :
  Forall (λ c, (length row ≤ c)%nat) cols →
  removeColumnsRow cols row = row.
Proof.
  intros Hrange. unfold removeColumnsRow. apply foldl_splice_ge.
  apply Forall_forall. intros c Hc. rewrite elem_of_sort_desc in Hc.
  exact (proj1 (Forall_forall _ _) Hrange c Hc).
Qed.

(** A run of X9: a seven-column row under the configured list. *)
Lemma removeColumnsRow_short_row_witness :
  removeColumnsRow (COLUMNS_TO_REMOVE (SPREADSHEET CONFIG))
    ["a"; "b"; "c"; "d"; "e"; "f"; "g"]
  = ["a"; "b"; "c"; "d"; "e"; "f"; "g"].
Proof.
  apply (removeColumnsRow_short_row (COLUMNS_TO_REMOVE (SPREADSHEET CONFIG))).
  apply (bool_decide_unpack _). by vm_compute.
Defined.

(** X10: the column removal does not depend on the order in which the
    indices are listed: two lists with the same indices, each as often,
    remove the same cells from every row. *)
Theorem removeColumnsRow_any_order {A : Type} (cols cols' : list nat)
    (row : list A) :
  cols ≡ₚ cols' → removeColumnsRow cols row = removeColumnsRow cols' row.
Proof.
  intros Hperm. unfold removeColumnsRow.
  by rewrite (sort_desc_permutation cols cols' Hperm).
Qed.

(** A run of X10: the configured list written backwards. *)
Lemma removeColumnsRow_any_order_witness :
  removeColumnsRow [14; 13; 12; 9; 8; 7]%nat (replicate 15 "x")
  = removeColumnsRow (COLUMNS_TO_REMOVE (SPREADSHEET CONFIG))
      (replicate 15 "x").
Proof.
  apply (removeColumnsRow_any_order [14; 13; 12; 9; 8; 7]%nat
           (COLUMNS_TO_REMOVE (SPREADSHEET CONFIG))).
  symmetry. apply (reverse_Permutation [14; 13; 12; 9; 8; 7]%nat).
Defined.

(** X11: an index listed more than once removes its right-hand
    neighbours as well: [n] copies of the index [k] remove the [n]
    columns [k, ..., k + n - 1].  So the removal deletes exactly the
    listed columns only for lists without repetitions. *)
Theorem removeColumnsRow_repeated_index {A : Type} (n k : nat)
    (row : list A) :
  removeColumnsRow (replicate n k) row
  = (take k row ++ drop (k + n)%nat row)%list.
Proof.
  unfold removeColumnsRow.
  by rewrite sort_desc_replicate, foldl_splice_replicate.
Qed.

(** ** The row filter and its place before the column removal *)

Lemma filter_indexed_filter {A} (f : nat → A → bool) (g : A → bool) i l :
  (∀ j x, (i ≤ j)%nat → f j x = g x) →
  filter_indexed f i l = filter (λ x, g x = true) l.
Proof.
  revert i. induction l as [| x l IH]; intros i Hfg; [done |].
  cbn [filter_indexed]. rewrite (Hfg i x) by lia.
  rewrite filter_cons, (IH (S i)) by (intros j y Hj; apply Hfg; lia).
  destruct (g x); by destruct (decide _).
Qed.

Lemma filter_indexed_map {A B} (f : nat → B → bool) (f' : nat → A → bool)
    (g : A → B) i l :
  (∀ j x, f j (g x) = f' j x) →
  filter_indexed f i (map g l) = map g (filter_indexed f' i l).
Proof.
  intros Hfg. revert i.
  induction l as [| x l IH]; intros i; [done |].
  cbn [map filter_indexed]. rewrite Hfg, IH. by destruct (f' i x).
Qed.

Lemma row_in_campuses_spec userCampuses campusIndex row :
  row_in_campuses userCampuses campusIndex row = true
  ↔ ∃ campus, row !! campusIndex = Some campus ∧ campus ∈ userCampuses.
Proof.
  unfold row_in_campuses. destruct (row !! campusIndex) as [campus |].
  - rewrite bool_decide_eq_true. split.
    + intros Hin. by exists campus.
    + by intros (c & [= ->] & Hin).
  - split; [done | by intros (c & [=] & _)].
Qed.

(** X12: the row filter of the data pipeline keeps the header row
    whatever its campus cell holds, and of the data rows exactly those
    whose campus cell is one of the user's campuses: the result is the
    header followed by the data rows that pass the test, each as often
    as it occurs and in the original order.  Filtering again changes
    nothing, and a user without campuses is left with the header
    alone. *)
Theorem filterRowsByCampus_rows (userCampuses : list string)
    (campusIndex : nat) (header : list string) (rows : list (list string)) :
  ∃ kept,
    filterRowsByCampus userCampuses campusIndex (header :: rows)
    = header :: kept
    ∧ kept
      = filter (λ row, row_in_campuses userCampuses campusIndex row = true)
          rows
    ∧ (∀ row, row_in_campuses userCampuses campusIndex row = true ↔
         ∃ campus, row !! campusIndex = Some campus
                   ∧ campus ∈ userCampuses)
    ∧ kept `sublist_of` rows
    ∧ (∀ row, row ∈ kept ↔
         row ∈ rows
         ∧ ∃ campus, row !! campusIndex = Some campus
                     ∧ campus ∈ userCampuses)
    ∧ filterRowsByCampus userCampuses campusIndex (header :: kept)
      = header :: kept
    ∧ (userCampuses = [] → kept = []).
Proof.
  assert (Hrun : ∀ l,
            filterRowsByCampus userCampuses campusIndex (header :: l)
            = header :: filter (λ row, row_in_campuses userCampuses
                                         campusIndex row = true) l).
  { intros l. unfold filterRowsByCampus. cbn [filter_indexed Nat.eqb].
    f_equal. apply filter_indexed_filter. intros [| j] x Hj; [lia | done]. }
  set (P := λ row, row_in_campuses userCampuses campusIndex row = true)
    in *.
  assert (Hkept : ∀ row, row ∈ filter P rows ↔
            row ∈ rows
            ∧ ∃ campus, row !! campusIndex = Some campus
                        ∧ campus ∈ userCampuses).
  { intros row. rewrite list_elem_of_filter. unfold P.
    rewrite row_in_campuses_spec. tauto. }
  exists (filter P rows).
  split; [apply Hrun |]. split; [reflexivity |].
  split; [intros row; apply row_in_campuses_spec |].
  split; [apply sublist_filter |].
  split; [exact Hkept |]. split.
  - rewrite Hrun. f_equal. by apply list_filter_filter_l.
  - intros ->. destruct (filter P rows) as [| row kept] eqn:E; [done |].
    assert (Hin : row ∈ row :: kept) by (apply elem_of_cons; by left).
    apply Hkept in Hin as (_ & campus & _ & Hin).
    by apply elem_of_nil in Hin.
Qed.

(** X13: filtering rows by campus and removing columns can be done in
    either order.  For an index list without repetitions that does not
    list the campus column, removing the columns from the filtered grid
    gives the grid obtained by removing the columns first and filtering
    on the campus column at its new index, the number of surviving
    columns before it. *)
Theorem removeColumns_after_campus_filter (userCampuses : list string)
    (campusIndex : nat) (cols : list nat) (data : list (list string)) :
  NoDup cols →
  campusIndex ∉ cols →
  DataService.removeColumns
    (filterRowsByCampus userCampuses campusIndex data) cols
  = filterRowsByCampus userCampuses (index_after_removal cols campusIndex)
      (DataService.removeColumns data cols).
Proof.
  intros Hnd Hcampus.
  unfold DataService.removeColumns, filterRowsByCampus.
  symmetry. apply filter_indexed_map. intros j row.
  destruct (j =? 0)%nat; [done |].
  unfold row_in_campuses, index_after_removal.
  rewrite (removeColumnsRow_kept_cells cols row Hnd). unfold kept_cells.
  by rewrite (kept_cells_from_lookup 0 campusIndex cols row Hcampus).
Qed.

(** A run of X13: the grid of the end-to-end simulation, dates written
    as text. *)
Lemma removeColumns_after_campus_filter_witness :
  let mockRawData :=
    [ ["Student"; "Campus"; "Date"; "Hidden1"; "Hidden2"; "Status"];
      ["John Doe"; "Brandeis"; "2024-01-01"; "x"; "y"; "Active"];
      ["Jane Smith"; "Clark"; "2024-01-02"; "x"; "y"; "Active"] ] in
  DataService.removeColumns
    (filterRowsByCampus ["Brandeis"] 1 mockRawData) [3; 4]%nat
  = filterRowsByCampus ["Brandeis"] 1
      (DataService.removeColumns mockRawData [3; 4]%nat).
Proof.
  intros mockRawData.
  apply (removeColumns_after_campus_filter ["Brandeis"] 1 [3; 4]%nat
           mockRawData).
  - apply (bool_decide_unpack _). by vm_compute.
  - apply (bool_decide_unpack _). by vm_compute.
Defined.

(** ** Migration.js: the compatibility score *)

Lemma num_gt_true (x : option Z) (n : Z) :
  num_gt x n = true ↔ ∃ v, x = Some v ∧ (n < v)%Z.
Proof.
  destruct x as [v |]; cbn.
  - rewrite Z.ltb_lt. split; [by exists v | by intros (? & [= ->] & ?)].
  - split; [done | by intros (? & [=] & _)].
Qed.

Lemma num_between_true (x : option Z) (lo hi : Z) :
  num_ge x lo && num_le x hi = true
  ↔ ∃ v, x = Some v ∧ (lo ≤ v ≤ hi)%Z.
Proof.
  destruct x as [v |]; cbn.
  - rewrite andb_true_iff, !Z.leb_le.
    split; [by exists v | by intros (? & [= ->] & ?)].
  - split; [done | by intros (? & [=] & _)].
Qed.

Lemma campus_found_true (x : option bool) :
  from_option id false x = true ↔ x = Some true.
Proof. destruct x as [[] |]; cbn; split; congruence. Qed.

Lemma headers_found_true {A} (x : option (list A)) :
  from_option (λ h, (0 <? length h)%nat) false x = true
  ↔ ∃ headers, x = Some headers ∧ headers ≠ [].
Proof.
  destruct x as [[| c h] |]; cbn.
  - split; [done | by intros (? & [= <-] & ?)].
  - split; [by exists (c :: h) | done].
  - split; [done | by intros (? & [=] & _)].
Qed.

(** X14: [analyzeDataCompatibility] answers without logging.  The score
    lies between 0 and 100 and is 100 exactly when there is no warning;
    there are at most five warnings.  The level is ["EXCELLENT"] exactly
    when the sheet has a data row, a campus column, a header and between
    5 and 50 columns (the volume check alone cannot cost the level), and
    ["POOR"] exactly when the score is below 50. *)
Theorem analyzeDataCompatibility_score
    (currentConfig : SpreadsheetConfigAnswer) (t : ConnectionTest)
    (w : World) :
  ∃ c,
    analyzeDataCompatibility currentConfig t w = (Ok c, w)
    ∧ (0 ≤ comp_score c ≤ 100)%Z
    ∧ (comp_score c = 100%Z ↔ comp_warnings c = [])
    ∧ (length (comp_warnings c) ≤ 5)%nat
    ∧ (comp_level c = "EXCELLENT" ↔
         (∃ rows, ct_dataRows t = Some rows ∧ (0 < rows)%Z)
         ∧ ct_campusColumnFound t = Some true
         ∧ (∃ headers, ct_headers t = Some headers ∧ headers ≠ [])
         ∧ (∃ columns, ct_dataColumns t = Some columns
                       ∧ (5 ≤ columns ≤ 50)%Z))
    ∧ (comp_level c = "POOR" ↔ (comp_score c < 50)%Z).
Proof.
  exists (compatibilityOf t). split; [reflexivity |].
  pose proof (num_gt_true (ct_dataRows t) 0) as Hrows.
  pose proof (campus_found_true (ct_campusColumnFound t)) as Hcampus.
  pose proof (headers_found_true (ct_headers t)) as Hheaders.
  pose proof (num_between_true (ct_dataColumns t) 5 50) as Hcolumns.
  unfold compatibilityOf.
  revert Hrows Hcampus Hheaders Hcolumns.
  generalize (num_gt (ct_dataRows t) 0)
    (from_option id false (ct_campusColumnFound t))
    (from_option (λ headers, (0 <? length headers)%nat) false (ct_headers t))
    (num_ge (ct_dataColumns t) 5 && num_le (ct_dataColumns t) 50)
    (num_lt (ct_dataColumns t) 5)
    (num_ge (ct_dataRows t) 10 && num_le (ct_dataRows t) 10000)
    (num_lt (ct_dataRows t) 10).
  intros [] [] [] [] fewColumns [] fewRows Hrows Hcampus Hheaders Hcolumns;
    cbn [tallyChecks comp_score comp_warnings comp_level fst snd app length];
    (split; [lia |]);
    (split; [split; [try lia; done | try done; intros [=] ] |]);
    (split; [lia |]);
    (split; [| cbn; split; [try lia; done | try lia; done]]);
    cbn; (split; [try done | intros (H1 & H2 & H3 & H4)]);
    try (repeat split; [by apply Hrows | by apply Hcampus
                        | by apply Hheaders | by apply Hcolumns]);
    first [ by apply Hrows in H1 | by apply Hcampus in H2
          | by apply Hheaders in H3 | by apply Hcolumns in H4 | done ].
Qed.

(** ** The spreadsheet connection test *)

Lemma findIndex_from_ge {A} (f : A → bool) (i : Z) (l : list A) :
  findIndex_from f i l = (-1)%Z ∨ (i ≤ findIndex_from f i l)%Z.
Proof.
  revert i. induction l as [| x l IH]; intros i; cbn; [by left |].
  destruct (f x); [right; lia |].
  destruct (IH (i + 1)%Z) as [-> | Hle]; [by left | right; lia].
Qed.

(** [findIndex] answers the position of the first element that
    satisfies the test, and [-1] when there is none. *)
Lemma findIndex_from_spec {A} (f : A → bool) (i : Z) (l : list A) :
  (0 ≤ i)%Z →
  if (0 <=? findIndex_from f i l)%Z
  then ∃ n x, findIndex_from f i l = (i + Z.of_nat n)%Z
              ∧ l !! n = Some x ∧ f x = true
              ∧ Forall (λ y, f y = false) (take n l)
  else findIndex_from f i l = (-1)%Z ∧ Forall (λ y, f y = false) l.
Proof.
  revert i. induction l as [| x l IH]; intros i Hi; cbn [findIndex_from].
  - by cbn.
  - destruct (f x) eqn:Hfx.
    + rewrite (proj2 (Z.leb_le 0 i) Hi).
      exists 0%nat, x. split; [cbn; lia |]. split; [done |].
      split; [exact Hfx | constructor].
    + specialize (IH (i + 1)%Z ltac:(lia)).
      destruct (0 <=? findIndex_from f (i + 1) l)%Z.
      * destruct IH as (n & y & Heq & Hy & Hfy & Hbefore).
        exists (S n), y. rewrite Heq.
        split; [lia |]. split; [exact Hy |]. split; [exact Hfy |].
        cbn [take]. by constructor.
      * destruct IH as [Heq Hnone]. split; [exact Heq | by constructor].
Qed.

Lemma findIndex_found {A} (f : A → bool) (l : list A) :
  (0 <=? findIndex f l)%Z = true ↔ ∃ x, x ∈ l ∧ f x = true.
Proof.
  unfold findIndex.
  pose proof (findIndex_from_spec f 0 l ltac:(lia)) as Hspec.
  destruct (0 <=? findIndex_from f 0 l)%Z.
  - destruct Hspec as (n & x & _ & Hx & Hfx & _).
    split; [intros _ | done]. exists x.
    split; [by eapply list_elem_of_lookup_2 | exact Hfx].
  - destruct Hspec as [_ Hnone]. split; [done |].
    intros (x & Hx & Hfx).
    rewrite (proj1 (Forall_forall _ _) Hnone x Hx) in Hfx. done.
Qed.

(** A failing session makes [getCurrentUserEmail] raise the permission
    error. *)
Lemma getCurrentUserEmail_throw (w : World) (e0 : Exn) :
  Session_getEmail (platform w) = Throw e0 →
  ∃ e w', UserService.getCurrentUserEmail w = (Throw e, w')
          ∧ same_services w w' ∧ cache w' = cache w
          ∧ exn_message e = ERROR_MESSAGES.PERMISSION_ERROR.
Proof.
  intros E0.
  unfold UserService.getCurrentUserEmail, try_catch, bind, ask_platform,
    lift_result.
  rewrite E0. eexists _, _. split; [reflexivity |]. by repeat split.
Qed.

Lemma getCurrentUserEmail_ok (w : World) (email : value) :
  Session_getEmail (platform w) = Ok email →
  ∃ entry, UserService.getCurrentUserEmail w = (Ok email, add_log entry w).
Proof.
  intros E0.
  unfold UserService.getCurrentUserEmail, try_catch, bind, ask_platform,
    lift_result.
  rewrite E0. eexists. reflexivity.
Qed.

Lemma testSpreadsheetConnection_run header_truthy header_toUpperCase
    (spreadsheetId sheetName : string) (w : World) :
  ∃ r w',
    testSpreadsheetConnection header_truthy header_toUpperCase
      spreadsheetId sheetName w = (Ok r, w')
    ∧ same_services w w' ∧ cache w' = cache w
    ∧ match connection_outcome w spreadsheetId sheetName with
      | Some (email, ss, headers, rows) =>
          r = {| ct_success := true;
                 ct_message := "Spreadsheet connection test successful";
                 ct_spreadsheetId := spreadsheetId;
                 ct_sheetName := sheetName;
                 ct_spreadsheetName := Some (ss_name ss);
                 ct_dataRows :=
                   Some (Z.of_nat (length (headers :: rows)) - 1)%Z;
                 ct_dataColumns := Some (Z.of_nat (length headers));
                 ct_headers := Some headers;
                 ct_campusColumnFound :=
                   Some (0 <=? findIndex
                                 (mentions_campus header_truthy
                                    header_toUpperCase) headers)%Z;
                 ct_campusColumnIndex :=
                   Some (findIndex (mentions_campus header_truthy
                                      header_toUpperCase) headers);
                 ct_sampleData := Some (take 3 (headers :: rows));
                 ct_testedBy := Some email;
                 ct_errorId := None;
                 ct_timestamp := Some (toISOString (Date_now (platform w))) |}
      | None => ct_success r = false
      end.
Proof.
  unfold connection_outcome, testSpreadsheetConnection.
  destruct (Session_getEmail (platform w)) as [email | e0] eqn:E0.
  - destruct (getCurrentUserEmail_ok w email E0) as [entry E].
    unfold try_catch at 1. unfold bind at 1. rewrite E.
    unfold bind, logInfo, logError, log, ask_platform, lift_result,
      generateErrorId, ret, throw.
    cbn [platform add_log].
    destruct (SpreadsheetApp_openById (platform w) spreadsheetId)
      as [ss | e1].
    + destruct (ss_sheets ss !! sheetName) as [[| headers rows] |].
      * eexists _, _. split; [reflexivity |]. by repeat split.
      * eexists _, _. split; [reflexivity |]. by repeat split.
      * eexists _, _. split; [reflexivity |]. by repeat split.
    + eexists _, _. split; [reflexivity |]. by repeat split.
  - destruct (getCurrentUserEmail_throw w e0 E0)
      as (e & w1 & E & [Hc Hp] & Hcache & _).
    unfold try_catch at 1. unfold bind at 1. rewrite E.
    unfold bind, logError, log, ask_platform, generateErrorId, ret.
    eexists _, _. split; [reflexivity |]. by repeat split.
Qed.

(** X15: [testSpreadsheetConnection] always answers, and leaves cache
    and configuration alone.  The test succeeds exactly when the session
    yields an identity, the spreadsheet opens and the named sheet has at
    least one row: the identity is neither validated nor looked up in
    the table.  A successful answer carries the header row, the first
    three rows of the sheet, the number of rows after the header and the
    width of the header; it reports a campus column exactly when some
    header cell mentions the campus. *)
Theorem testSpreadsheetConnection_spec header_truthy header_toUpperCase
    (spreadsheetId sheetName : string) (w : World) :
  ∃ r w',
    testSpreadsheetConnection header_truthy header_toUpperCase
      spreadsheetId sheetName w = (Ok r, w')
    ∧ same_services w w' ∧ cache w' = cache w
    ∧ (ct_success r = true ↔
         ∃ email ss headers rows,
           Session_getEmail (platform w) = Ok email
           ∧ SpreadsheetApp_openById (platform w) spreadsheetId = Ok ss
           ∧ ss_sheets ss !! sheetName = Some (headers :: rows))
    ∧ (∀ email ss headers rows,
         Session_getEmail (platform w) = Ok email →
         SpreadsheetApp_openById (platform w) spreadsheetId = Ok ss →
         ss_sheets ss !! sheetName = Some (headers :: rows) →
         ct_testedBy r = Some email
         ∧ ct_spreadsheetName r = Some (ss_name ss)
         ∧ ct_headers r = Some headers
         ∧ ct_sampleData r = Some (take 3 (headers :: rows))
         ∧ ct_dataRows r = Some (Z.of_nat (length rows))
         ∧ ct_dataColumns r = Some (Z.of_nat (length headers))
         ∧ (ct_campusColumnFound r = Some true ↔
              ∃ header, header ∈ headers
                        ∧ mentions_campus header_truthy header_toUpperCase
                            header = true)).
Proof.
  destruct (testSpreadsheetConnection_run header_truthy header_toUpperCase
              spreadsheetId sheetName w)
    as (r & w' & E & Hsame & Hcache & Hr).
  exists r, w'. split; [exact E |]. split; [exact Hsame |].
  split; [exact Hcache |].
  unfold connection_outcome in Hr.
  assert (Hfail : ct_success r = false →
            (¬ ∃ email ss headers rows,
                 Session_getEmail (platform w) = Ok email
                 ∧ SpreadsheetApp_openById (platform w) spreadsheetId = Ok ss
                 ∧ ss_sheets ss !! sheetName = Some (headers :: rows)) →
            (ct_success r = true ↔
               ∃ email ss headers rows,
                 Session_getEmail (platform w) = Ok email
                 ∧ SpreadsheetApp_openById (platform w) spreadsheetId = Ok ss
                 ∧ ss_sheets ss !! sheetName = Some (headers :: rows))).
  { intros Hr' Hnone. split; [congruence | done]. }
  destruct (Session_getEmail (platform w)) as [email | e0] eqn:E0;
    [| split; [apply Hfail; [exact Hr |] | intros; congruence];
       intros (? & ? & ? & ? & ? & ? & ?); congruence].
  destruct (SpreadsheetApp_openById (platform w) spreadsheetId)
    as [ss | e1] eqn:E1;
    [| split; [apply Hfail; [exact Hr |] | intros; congruence];
       intros (? & ? & ? & ? & ? & ? & ?); congruence].
  destruct (ss_sheets ss !! sheetName) as [[| headers rows] |] eqn:E2;
    [split; [apply Hfail; [exact Hr |] | intros; congruence];
       intros (? & ? & ? & ? & ? & ? & ?); congruence
    | | split; [apply Hfail; [exact Hr |] | intros; congruence];
          intros (? & ? & ? & ? & ? & ? & ?); congruence].
  clear Hfail. subst r. cbn. split.
  - split; [intros _ | done]. by exists email, ss, headers, rows.
  - intros email' ss' headers' rows' [= <-] [= <-] Hsheet.
    rewrite E2 in Hsheet. injection Hsheet as <- <-.
    repeat split; try done.
    + do 2 f_equal. lia.
    + intros [= Hfound]. by apply findIndex_found.
    + intros Hfound. f_equal. by apply findIndex_found.
Qed.

(** ** Migration.js: rollback and migration *)

Lemma returns_clearUserCache ds : returns (clearUserCache ds).
Proof.
  unfold clearUserCache. apply returns_try_catch. intros e.
  apply returns_bind; [apply returns_log |]. intros _.
  apply returns_handleException.
Qed.

(** A successful connection test is one whose platform answers do. *)
Lemma connection_outcome_success header_truthy header_toUpperCase
    (spreadsheetId sheetName : string) (w w' : World) (t : ConnectionTest) :
  testSpreadsheetConnection header_truthy header_toUpperCase
    spreadsheetId sheetName w = (Ok t, w') →
  ct_success t = true
  ↔ ∃ email ss headers rows,
      Session_getEmail (platform w) = Ok email
      ∧ SpreadsheetApp_openById (platform w) spreadsheetId = Ok ss
      ∧ ss_sheets ss !! sheetName = Some (headers :: rows).
Proof.
  intros E.
  destruct (testSpreadsheetConnection_run header_truthy header_toUpperCase
              spreadsheetId sheetName w)
    as (r & w1 & E1 & _ & _ & Hr).
  rewrite E in E1. injection E1 as <- _.
  unfold connection_outcome in Hr.
  destruct (Session_getEmail (platform w)) as [email | e0] eqn:E0;
    [| split; [congruence | intros (? & ? & ? & ? & ? & ? & ?); congruence]].
  destruct (SpreadsheetApp_openById (platform w) spreadsheetId)
    as [ss | e1] eqn:E1;
    [| split; [congruence | intros (? & ? & ? & ? & ? & ? & ?); congruence]].
  destruct (ss_sheets ss !! sheetName) as [[| headers rows] |] eqn:E2;
    [split; [congruence | intros (? & ? & ? & ? & ? & ? & ?); congruence]
    | | split; [congruence | intros (? & ? & ? & ? & ? & ? & ?); congruence]].
  subst t. split; [intros _ | done]. by exists email, ss, headers, rows.
Qed.

(** X16: [emergencyRollback] always answers, and it asks for no
    administrator: it reports success exactly when the session yields an
    identity, the target spreadsheet opens and its sheet
    ["CURRENT CASELOAD"] has at least one row, whoever the identity is
    and whatever sheet name the configuration holds.  A failure carries
    its error message. *)
Theorem emergencyRollback_spec ds header_truthy header_toUpperCase
    (previousSpreadsheetId : string) (w : World) :
  ∃ r w',
    emergencyRollback ds header_truthy header_toUpperCase
      previousSpreadsheetId w = (Ok r, w')
    ∧ (rb_success r = true ↔
         ∃ email ss headers rows,
           Session_getEmail (platform w) = Ok email
           ∧ SpreadsheetApp_openById (platform w) previousSpreadsheetId
             = Ok ss
           ∧ ss_sheets ss !! "CURRENT CASELOAD" = Some (headers :: rows))
    ∧ (rb_success r = false → ∃ text, rb_error r = Some text).
Proof.
  unfold emergencyRollback.
  destruct (Session_getEmail (platform w)) as [email | e0] eqn:E0.
  - destruct (getCurrentUserEmail_ok w email E0) as [entry E].
    unfold try_catch at 1. rewrite (bind_ok _ _ _ _ _ E). cbv beta.
    unfold logWarn at 1, log at 1, bind at 1.
    match goal with
    | |- context [bind (testSpreadsheetConnection _ _ _ _) _ ?w2] =>
        set (w1 := w2);
        destruct (testSpreadsheetConnection_run header_truthy
                    header_toUpperCase previousSpreadsheetId
                    "CURRENT CASELOAD" w1)
          as (t & w3 & E3 & _ & _ & _);
        pose proof (connection_outcome_success _ _ _ _ _ _ _ E3) as Ht
    end.
    change (platform w1) with (platform w) in Ht. rewrite E0 in Ht.
    rewrite (bind_ok _ _ _ _ _ E3). cbv beta.
    destruct (ct_success t); cbn [negb].
    + destruct (returns_clearUserCache ds w3) as (resp & w4 & E4).
      rewrite (bind_ok _ _ _ _ _ E4). cbv beta.
      eexists _, _. split; [reflexivity |]. cbn. split; [| done].
      split; [intros _ | done].
      destruct (proj1 Ht eq_refl) as (? & ss & headers & rows & _ & ? & ?).
      by exists email, ss, headers, rows.
    + eexists _, _. split; [reflexivity |]. cbn. split; [| eauto].
      split; [done |].
      intros (email' & ss & headers & rows & _ & H1 & H2).
      apply Ht. by exists email, ss, headers, rows.
  - destruct (getCurrentUserEmail_throw w e0 E0) as (e & w1 & E & _).
    unfold try_catch at 1. rewrite (bind_throw _ _ _ _ _ E).
    eexists _, _. split; [reflexivity |]. cbn. split; [| eauto].
    split; [done | by intros (? & ? & ? & ? & [=] & _)].
Qed.

Lemma returns_getSpreadsheetConfig : returns getSpreadsheetConfig.
Proof.
  unfold getSpreadsheetConfig. apply returns_try_catch. intros e.
  unfold logError. eauto 10 with script_returns.
Qed.

(** The administrator test of the migration entry points: one of the two
    addresses occurs somewhere in the identity. *)
Lemma admin_gate (s : string) :
  negb (includes s "alvaro.gomez@nisd.net")
  && negb (includes s "linda.rodriguez@nisd.net") = false
  ↔ includes s "alvaro.gomez@nisd.net" = true
    ∨ includes s "linda.rodriguez@nisd.net" = true.
Proof.
  destruct (includes s "alvaro.gomez@nisd.net"),
    (includes s "linda.rodriguez@nisd.net"); cbn; intuition congruence.
Qed.

Lemma getSpreadsheetConfig_ok (w : World) (email : value) :
  Session_getEmail (platform w) = Ok email →
  ∃ cfg w',
    getSpreadsheetConfig w = (Ok cfg, w')
    ∧ sca_spreadsheetId cfg = Some (SPREADSHEET_ID (SPREADSHEET (config w)))
    ∧ sca_sheetName cfg = Some (SHEET_NAME (SPREADSHEET (config w))).
Proof.
  intros E0. destruct (getCurrentUserEmail_ok w email E0) as [entry E].
  unfold getSpreadsheetConfig, try_catch. rewrite (bind_ok _ _ _ _ _ E).
  eexists _, _. split; [reflexivity |]. by split.
Qed.

(** X17: [migrateToNewSchoolYear] reads the identity before it enters
    its [try] block, so a failing session makes it raise the permission
    error instead of answering.  With an identity it always answers, and
    it reports success exactly when the identity is a string in which
    one of the two administrator addresses occurs, the new spreadsheet
    opens and the named sheet has at least one row.  The success answer
    names the new spreadsheet and the current one, and its compatibility
    member is the analysis of the connection test of the new sheet (its
    header row, its width and the number of its data rows), with the
    warnings of that analysis. *)
Theorem migrateToNewSchoolYear_spec ds header_truthy header_toUpperCase
    (newSpreadsheetId newSheetName : string) (w : World) :
  match Session_getEmail (platform w) with
  | Throw _ =>
      ∃ e w',
        migrateToNewSchoolYear ds header_truthy header_toUpperCase
          newSpreadsheetId newSheetName w = (Throw e, w')
        ∧ exn_message e = ERROR_MESSAGES.PERMISSION_ERROR
  | Ok email =>
      ∃ r w',
        migrateToNewSchoolYear ds header_truthy header_toUpperCase
          newSpreadsheetId newSheetName w = (Ok r, w')
        ∧ (mig_success r = true ↔
             ∃ s ss headers rows,
               email = VString s
               ∧ (includes s "alvaro.gomez@nisd.net" = true
                  ∨ includes s "linda.rodriguez@nisd.net" = true)
               ∧ SpreadsheetApp_openById (platform w) newSpreadsheetId
                 = Ok ss
               ∧ ss_sheets ss !! newSheetName = Some (headers :: rows))
        ∧ (mig_success r = true →
           mig_newSpreadsheetId r = Some newSpreadsheetId
           ∧ mig_newSheetName r = Some newSheetName
           ∧ ∃ c, mig_compatibility r = Some c
                  ∧ mig_warnings r = comp_warnings c)
        ∧ (mig_success r = true →
           ∀ s ss headers rows,
             email = VString s →
             SpreadsheetApp_openById (platform w) newSpreadsheetId = Ok ss →
             ss_sheets ss !! newSheetName = Some (headers :: rows) →
             mig_compatibility r
             = Some (compatibilityOf
                       (successfulConnectionTest header_truthy
                          header_toUpperCase newSpreadsheetId newSheetName
                          email ss headers rows (Date_now (platform w))))
             ∧ mig_warnings r
               = comp_warnings
                   (compatibilityOf
                      (successfulConnectionTest header_truthy
                         header_toUpperCase newSpreadsheetId newSheetName
                         email ss headers rows (Date_now (platform w))))
             ∧ mig_performedBy r = Some s
             ∧ mig_spreadsheetName r = Some (ss_name ss)
             ∧ mig_dataRows r = Some (Z.of_nat (length rows))
             ∧ mig_dataColumns r = Some (Z.of_nat (length headers))
             ∧ mig_currentSpreadsheetId r
               = Some (SPREADSHEET_ID (SPREADSHEET (config w)))
             ∧ mig_currentSheetName r
               = Some (SHEET_NAME (SPREADSHEET (config w))))
        ∧ (mig_success r = false → ∃ text, mig_error r = Some text)
  end.
Proof.
  unfold migrateToNewSchoolYear.
  destruct (Session_getEmail (platform w)) as [email | e0] eqn:E0.
  - destruct (getCurrentUserEmail_ok w email E0) as [entry E].
    rewrite (bind_ok _ _ _ _ _ E). cbv beta.
    unfold try_catch at 1. unfold logInfo at 1, log at 1, bind at 1.
    destruct email as [| | b | n | s |];
      try (eexists _, _; split; [reflexivity |];
           cbn [mig_success mig_error];
           split; [split; [done | by intros (? & ? & ? & ? & [=] & _)] |];
           split; [done |]; split; [done | eauto]).
    destruct (negb (includes s "alvaro.gomez@nisd.net")
              && negb (includes s "linda.rodriguez@nisd.net")) eqn:Hgate.
    { eexists _, _. split; [reflexivity |]. cbn [mig_success mig_error].
      split; [| split; [done |]; split; [done | eauto]].
      split; [done |]. intros (s' & ? & ? & ? & [= <-] & Hadmin & _).
      apply admin_gate in Hadmin. congruence. }
    apply admin_gate in Hgate.
    match goal with
    | |- context [bind (testSpreadsheetConnection _ _ _ _) _ ?w2] =>
        set (w1 := w2);
        destruct (testSpreadsheetConnection_run header_truthy
                    header_toUpperCase newSpreadsheetId newSheetName w1)
          as (t & w3 & E3 & [Hc3 Hp3] & _ & Hrec);
        pose proof (connection_outcome_success _ _ _ _ _ _ _ E3) as Ht
    end.
    unfold connection_outcome in Hrec.
    change (platform w1) with (platform w) in Ht, Hrec, Hp3.
    change (config w1) with (config w) in Hc3.
    rewrite E0 in Ht, Hrec.
    rewrite (bind_ok _ _ _ _ _ E3). cbv beta.
    destruct (ct_success t) eqn:Hsuccess; cbn [negb].
    + assert (E0' : Session_getEmail (platform w3) = Ok (VString s))
        by by rewrite Hp3.
      destruct (getSpreadsheetConfig_ok w3 (VString s) E0')
        as (cfg & w4 & E4 & Hid & Hname).
      rewrite Hc3 in Hid, Hname.
      rewrite (bind_ok _ _ _ _ _ E4). cbv beta.
      unfold analyzeDataCompatibility at 1, try_catch at 1, ret at 1,
        bind at 1.
      unfold generateErrorId at 1, ask_platform at 1, bind at 1, ret at 1,
        bind at 1, ask_platform at 1, bind at 1.
      destruct (returns_clearUserCache ds w4) as (resp & w5 & E5).
      rewrite (bind_ok _ _ _ _ _ E5). cbv beta.
      eexists _, _. split; [reflexivity |].
      cbn [mig_success mig_newSpreadsheetId mig_newSheetName
           mig_compatibility mig_warnings mig_error mig_performedBy
           mig_spreadsheetName mig_dataRows mig_dataColumns
           mig_currentSpreadsheetId mig_currentSheetName].
      split; [| split; [eauto |]; split; [| done]].
      * split; [intros _ | done].
        destruct (proj1 Ht eq_refl) as (? & ss & headers & rows & _ & ? & ?).
        by exists s, ss, headers, rows.
      * intros _ s' ss headers rows [= <-] Hopen Hsheet.
        rewrite Hopen, Hsheet in Hrec.
        split; [by rewrite Hrec |]. split; [by rewrite Hrec |].
        split; [done |]. rewrite Hrec. cbn [ct_spreadsheetName
          ct_dataRows ct_dataColumns].
        split; [done |].
        split; [f_equal; cbn [length]; lia |].
        by repeat split.
    + eexists _, _. split; [reflexivity |]. cbn [mig_success mig_error].
      split; [| split; [done |]; split; [done | eauto]].
      split; [done |].
      intros (s' & ss & headers & rows & _ & _ & H1 & H2).
      apply Ht. by exists (VString s), ss, headers, rows.
  - destruct (getCurrentUserEmail_throw w e0 E0)
      as (e & w1 & E & _ & _ & Hmsg).
    rewrite (bind_throw _ _ _ _ _ E). by exists e, w1.
Qed.

(** ** The administrator test of [updateSpreadsheetConfig] *)

(** X18: [updateSpreadsheetConfig] reports success exactly when the
    session yields a string in which one of the two administrator
    addresses occurs, the new spreadsheet opens and the named sheet has
    at least one row.  The test is one of occurrence, not of equality:
    the permission table and the full-access flag play no part.  A
    request that fails it is answered with the unauthorized message, and
    neither the cache nor the services are touched. *)
Theorem updateSpreadsheetConfig_authorisation ds
    (newSpreadsheetId newSheetName : string) (w : World) :
  ∃ r w',
    updateSpreadsheetConfig ds newSpreadsheetId newSheetName w = (Ok r, w')
    ∧ (upd_success r = true ↔
         ∃ s ss headers rows,
           Session_getEmail (platform w) = Ok (VString s)
           ∧ (includes s "alvaro.gomez@nisd.net" = true
              ∨ includes s "linda.rodriguez@nisd.net" = true)
           ∧ SpreadsheetApp_openById (platform w) newSpreadsheetId = Ok ss
           ∧ ss_sheets ss !! newSheetName = Some (headers :: rows))
    ∧ (∀ s,
         Session_getEmail (platform w) = Ok (VString s) →
         includes s "alvaro.gomez@nisd.net" = false →
         includes s "linda.rodriguez@nisd.net" = false →
         upd_message r
         = "Unauthorized: Only administrators can update spreadsheet configuration"
         ∧ cache w' = cache w ∧ same_services w w').
Proof.
  unfold updateSpreadsheetConfig.
  destruct (Session_getEmail (platform w)) as [email | e0] eqn:E0.
  - destruct (getCurrentUserEmail_ok w email E0) as [entry E].
    unfold try_catch at 1. rewrite (bind_ok _ _ _ _ _ E). cbv beta.
    destruct email as [| | b | n | s |];
      try (eexists _, _; split; [reflexivity |]; cbn;
           split; [split; [done | by intros (? & ? & ? & ? & [=] & _)]
                  | by intros ? [=]]).
    destruct (negb (includes s "alvaro.gomez@nisd.net")
              && negb (includes s "linda.rodriguez@nisd.net")) eqn:Hgate.
    { eexists _, _. split; [reflexivity |]. cbn.
      split; [| by intros _ _ _ _].
      split; [done |]. intros (s' & ? & ? & ? & [= <-] & Hadmin & _).
      apply admin_gate in Hadmin. congruence. }
    apply admin_gate in Hgate.
    assert (Hdenied : ∀ (P : Prop) (s0 : string),
              @Ok value (VString s) = Ok (VString s0) →
              includes s0 "alvaro.gomez@nisd.net" = false →
              includes s0 "linda.rodriguez@nisd.net" = false → P).
    { intros P s0 [= <-] Ha Hl. destruct Hgate; congruence. }
    unfold logInfo at 1, log at 1, bind at 1.
    unfold bind at 1, try_catch at 1, bind at 1, ask_platform at 1,
      bind at 1, lift_result at 1.
    cbn [platform add_log].
    destruct (SpreadsheetApp_openById (platform w) newSpreadsheetId)
      as [ss | e1] eqn:E1.
    + destruct (ss_sheets ss !! newSheetName) as [[| headers rows] |] eqn:E2.
      * eexists _, _. split; [reflexivity |]. cbn.
        split; [| intros s0; apply Hdenied]. split; [done |].
        intros (? & ? & ? & ? & _ & _ & ? & ?). congruence.
      * unfold logInfo at 1, log at 1.
        match goal with
        | |- context [bind (clearUserCache ds) _ ?w2] =>
            destruct (returns_clearUserCache ds w2) as (resp & w5 & E5)
        end.
        rewrite (bind_ok _ _ _ _ _ E5). cbv beta.
        eexists _, _. split; [reflexivity |]. cbn.
        split; [| intros s0; apply Hdenied]. split; [intros _ | done].
        by exists s, ss, headers, rows.
      * eexists _, _. split; [reflexivity |]. cbn.
        split; [| intros s0; apply Hdenied]. split; [done |].
        intros (? & ? & ? & ? & _ & _ & ? & ?). congruence.
    + eexists _, _. split; [reflexivity |]. cbn.
      split; [| intros s0; apply Hdenied]. split; [done |].
      intros (? & ? & ? & ? & _ & _ & ? & ?). congruence.
  - destruct (getCurrentUserEmail_throw w e0 E0) as (e & w1 & E & _).
    unfold try_catch at 1. rewrite (bind_throw _ _ _ _ _ E).
    eexists _, _. split; [reflexivity |]. cbn.
    split; [| by intros ? [=]].
    split; [done | by intros (? & ? & ? & ? & [=] & _)].
Qed.

(** ** The full-access gate of the administrative queries *)

Lemma hasFullAccess_run codec (email : value) (w : World) :
  ∃ b w',
    UserService.hasFullAccess codec email w = (Ok b, w')
    ∧ config w' = config w
    ∧ match UserService.getUserPermissions codec email w with
      | (Ok p, _) => b = isFullAccess p
      | (Throw _, _) => b = false
      end.
Proof.
  pose proof (keeps_config_getUserPermissions codec email w) as Hkeep.
  unfold UserService.hasFullAccess.
  destruct (UserService.getUserPermissions codec email w) as [[p|e] w1] eqn:E.
  - eexists _, _. split; [| split; [| reflexivity]].
    + apply try_catch_ok. by rewrite (bind_ok _ _ _ _ _ E).
    + exact Hkeep.
  - eexists _, _. split; [| split; [| reflexivity]].
    + by rewrite (try_catch_throw _ _ _ _ _ (bind_throw _ _ _ _ _ E)).
    + exact Hkeep.
Qed.

(** The full-access flag of an identity, as [hasFullAccess] answers it
    in a world whose cache holds nothing for the identity. *)
Lemma hasFullAccess_miss codec (email : value) (w w' : World) (b : bool) :
  UserService.hasFullAccess codec email w = (Ok b, w') →
  Cache_raises (platform w) CacheGet
    (UserService.permissionsKey (config w) email) = false →
  cached_truthy
    (cache w !! UserService.permissionsKey (config w) email) = false →
  b = isValidEmail (config w) email && table_full_access (config w) email.
Proof.
  intros E Hget Hmiss.
  destruct (hasFullAccess_run codec email w) as (b' & w1 & E1 & _ & Hb).
  rewrite E in E1. injection E1 as <- _.
  destruct (isValidEmail (config w) email) eqn:Hvalid; cbn [andb].
  - destruct (getUserPermissions_miss codec email w Hvalid Hget Hmiss)
      as (w2 & E2 & _).
    rewrite E2 in Hb. rewrite Hb.
    unfold permissionsFromConfig, table_full_access.
    by destruct (LEGACY_EMAIL_CAMPUS_MAPPING (config w) !! ToString email).
  - destruct (getUserPermissions_invalid codec email w Hvalid)
      as (e & w2 & E2 & _).
    by rewrite E2 in Hb.
Qed.

(** In the reference table the address of the one administrator is the
    only identity that passes validation and meets the threshold. *)
Lemma reference_full_access (email : value) :
  isValidEmail CONFIG email && table_full_access CONFIG email = true
  ↔ email = VString "linda.rodriguez@nisd.net".
Proof.
  split.
  - intros [Hvalid Hfull]%andb_prop.
    unfold table_full_access in Hfull.
    destruct (LEGACY_EMAIL_CAMPUS_MAPPING CONFIG !! ToString email)
      as [campusList |] eqn:Hlookup; [| done].
    apply reference_table_lookup in Hlookup as [_ Hadmin].
    apply Nat.leb_le in Hfull. apply Hadmin in Hfull. cbn in Hfull.
    unfold isValidEmail in Hvalid.
    apply andb_prop in Hvalid as [[[_ Htype]%andb_prop _]%andb_prop _].
    destruct email as [| | b | n | s |]; try discriminate Htype.
    cbn in Hfull. by rewrite Hfull.
  - intros ->. reflexivity.
Qed.

(** X19: [getAppConfig] always answers.  With a failing session the
    answer is the failure response; with an identity it is the access
    denial or the view of the configuration, and never anything else.
    An identity that fails validation is denied.  When the cache holds
    nothing for the identity, the view is granted exactly when the table
    lists the identity with at least the threshold number of campuses;
    the administrator addresses that [updateSpreadsheetConfig] tests for
    play no part. *)
Theorem getAppConfig_gate codec (w : World) :
  ∃ a w',
    getAppConfig codec w = (Ok a, w')
    ∧ match Session_getEmail (platform w) with
      | Throw _ => ∃ r, a = Failed r ∧ success r = false
      | Ok email =>
          (a = AccessDenied ∨ a = Granted (safeConfigOf (config w)))
          ∧ (isValidEmail (config w) email = false → a = AccessDenied)
          ∧ (Cache_raises (platform w) CacheGet
               (UserService.permissionsKey (config w) email) = false →
             cached_truthy
               (cache w !! UserService.permissionsKey (config w) email)
             = false →
             a = if isValidEmail (config w) email
                    && table_full_access (config w) email
                 then Granted (safeConfigOf (config w))
                 else AccessDenied)
      end.
Proof.
  unfold getAppConfig.
  destruct (Session_getEmail (platform w)) as [email | e0] eqn:E0.
  - destruct (getCurrentUserEmail_ok w email E0) as [entry E].
    set (w1 := add_log entry w) in *.
    destruct (hasFullAccess_run codec email w1) as (b & w2 & E2 & Hcfg & Hb).
    pose proof (hasFullAccess_miss codec email w1 w2 b E2) as Hmiss.
    unfold try_catch at 1.
    rewrite (bind_ok _ _ _ _ _ E). cbv beta.
    rewrite (bind_ok _ _ _ _ _ E2). cbv beta.
    assert (Hanswer : ∃ w3,
              (if negb b
               then ret AccessDenied
               else
                 cfg <- ask_config ;;
                 logInfo "App configuration requested" "getAppConfig" ;;
                 ret (Granted (safeConfigOf cfg))) w2
              = (Ok (if b then Granted (safeConfigOf (config w))
                     else AccessDenied), w3)).
    { destruct b; cbn [negb]; [| eexists; reflexivity].
      unfold bind, ask_config, logInfo, log, ret. rewrite Hcfg.
      eexists. reflexivity. }
    destruct Hanswer as [w3 Hanswer].
    change (λ cfg : Config,
              logInfo "App configuration requested" "getAppConfig" ;;
              ret (Granted (safeConfigOf cfg)))
      with (λ cfg : Config,
              logInfo "App configuration requested" "getAppConfig" ;;
              ret (Granted
                     {| safe_app := APP cfg;
                        safe_sheetName := SHEET_NAME (SPREADSHEET cfg);
                        safe_campusColumn := CAMPUS_COLUMN (SPREADSHEET cfg);
                        safe_dateColumns := DATE_COLUMNS (SPREADSHEET cfg);
                        safe_dateFormat := DATE_FORMAT (SPREADSHEET cfg);
                        safe_campuses := CAMPUSES cfg;
                        safe_contacts := CONTACTS cfg;
                        safe_version := "2.0.0" |})) in Hanswer.
    rewrite Hanswer.
    eexists _, _. split; [reflexivity |].
    split; [destruct b; [by right | by left] |]. split.
    + intros Hinvalid.
      destruct (getUserPermissions_invalid codec email w1 Hinvalid)
        as (e & w4 & E4 & _).
      rewrite E4 in Hb. by rewrite Hb.
    + intros Hget Hnone. by rewrite (Hmiss Hget Hnone).
  - destruct (getCurrentUserEmail_throw w e0 E0) as (e & w1 & E & _).
    unfold try_catch at 1. rewrite (bind_throw _ _ _ _ _ E).
    unfold logError at 1, log at 1, bind at 1.
    match goal with
    | |- context [bind (ErrorUtils.handleException ?err ?ctx) _ ?w2] =>
        unfold ErrorUtils.handleException, generateErrorId, logError, log,
          bind, ask_platform, ret
    end.
    eexists _, _. split; [reflexivity |]. by eexists.
Qed.

(** X20: under the reference configuration, and with nothing cached for
    the identity, [getAppConfig] grants the configuration view to
    linda.rodriguez@nisd.net and to no other identity; alvaro.gomez,
    whom [updateSpreadsheetConfig] treats as an administrator, is
    denied like everyone else. *)
Theorem getAppConfig_reference_administrator codec (w : World)
    (email : value) :
  config w = CONFIG →
  Session_getEmail (platform w) = Ok email →
  Cache_raises (platform w) CacheGet
    (UserService.permissionsKey (config w) email) = false →
  cached_truthy
    (cache w !! UserService.permissionsKey (config w) email) = false →
  ∃ a w',
    getAppConfig codec w = (Ok a, w')
    ∧ (a = Granted (safeConfigOf CONFIG)
       ↔ email = VString "linda.rodriguez@nisd.net")
    ∧ (a = AccessDenied ↔ email ≠ VString "linda.rodriguez@nisd.net").
Proof.
  intros Hconfig E0 Hget Hnone.
  destruct (getCurrentUserEmail_ok w email E0) as [entry E].
  set (w1 := add_log entry w) in *.
  destruct (hasFullAccess_run codec email w1) as (b & w2 & E2 & Hcfg & _).
  pose proof (hasFullAccess_miss codec email w1 w2 b E2 Hget Hnone) as Hb.
  change (config w1) with (config w) in Hb, Hcfg.
  rewrite Hconfig in Hb, Hcfg.
  pose proof (reference_full_access email) as Href. rewrite <- Hb in Href.
  unfold getAppConfig, try_catch.
  rewrite (bind_ok _ _ _ _ _ E). cbv beta.
  rewrite (bind_ok _ _ _ _ _ E2). cbv beta.
  destruct b; cbn [negb].
  - unfold bind, ask_config, logInfo, log, ret. rewrite Hcfg.
    eexists _, _. split; [reflexivity |].
    split; [split; [intros _; by apply Href | done] |].
    split; [done | intros Hne; destruct Hne; by apply Href].
  - eexists _, _. split; [reflexivity |].
    split; [split; [done | intros Heq; by apply Href in Heq] |].
    split; [intros _ Heq; by apply Href in Heq | done].
Qed.

(** A run of X20: the administrator asks for the view. *)
Lemma getAppConfig_reference_administrator_witness :
  let email := VString "linda.rodriguez@nisd.net" in
  let w := sample_world (Ok email) "0.4fzyo82mvyr" (λ _ _, false) in
  ∃ w', getAppConfig sample_codec w
        = (Ok (Granted (safeConfigOf CONFIG)), w').
Proof.
  intros email w.
  destruct (getAppConfig_reference_administrator sample_codec w email)
    as (a & w' & E & Hgranted & _);
    [reflexivity | reflexivity | reflexivity | reflexivity |].
  exists w'. rewrite E. f_equal. f_equal. by apply Hgranted.
Defined.

(** ** Requests that are turned away *)

(** X21: a request that is turned away never reaches the data service.
    When the session fails, the identity is empty or fails validation,
    permission resolution raises or the record has no access, the answer
    of [filterCaseloadData], its log and the cache it leaves behind are
    the same whatever the data service is: none of its methods is
    run. *)
Theorem filterCaseloadData_denied_without_data_service codec (w : World)
    (ds1 ds2 : DataServiceImpl) :
  reaches_data_fetch codec w = false →
  filterCaseloadData ds1 codec w = filterCaseloadData ds2 codec w.
Proof.
  unfold reaches_data_fetch, filterCaseloadData, try_catch_local.
  destruct ((logInfo "Starting caseload data filtering" "filterCaseloadData" ;;
             UserService.getCurrentUserEmail)%script w)
    as [[userEmail | e] w1]; [| reflexivity].
  destruct (truthy userEmail); cbn [negb andb]; [| reflexivity].
  unfold try_catch, bind, logInfo, logDebug, log. cbv beta iota.
  destruct (UserService.validateUserEmail userEmail _)
    as [[[|] | e] w2]; cbn [negb]; [| reflexivity | reflexivity].
  destruct (UserService.getUserPermissions codec userEmail w2)
    as [[permissions | e] w3]; [| reflexivity].
  intros ->. reflexivity.
Qed.

(** A run of X21: an identity of the domain that the table does not
    list, against a data service that would serve a row. *)
Lemma filterCaseloadData_denied_without_data_service_witness :
  let w := sample_world (Ok (VString "new.teacher@nisd.net")) "0.4fzyo82mvyr"
             (λ _ _, false) in
  let serving :=
    {| initializeSpreadsheet := ret tt;
       getCachedDataForUser := λ _, ret (Some [[ {| cell_json := "1" |} ]]);
       getDataStatistics := ret {| stats_error := None |};
       clearDataCache := λ _, ret tt |} in
  filterCaseloadData sample_dataService sample_codec w
  = filterCaseloadData serving sample_codec w.
Proof.
  intros w serving.
  apply (filterCaseloadData_denied_without_data_service sample_codec w
           sample_dataService serving).
  vm_compute. reflexivity.
Defined.

(** ** Queries without a gate, and the gate of [getUserInfo] *)

(** X22: [getSpreadsheetConfig] always answers and asks for no
    permission: whenever the session yields an identity, be it empty,
    outside the domain or absent from the table, the answer is a success
    that carries the spreadsheet identifier, the sheet name and the list
    of hidden columns of the configuration.  Only a failing session
    makes it answer a failure, which carries none of them.  Cache and
    configuration are left alone. *)
Theorem getSpreadsheetConfig_ungated (w : World) :
  ∃ r w',
    getSpreadsheetConfig w = (Ok r, w')
    ∧ same_services w w' ∧ cache w' = cache w
    ∧ match Session_getEmail (platform w) with
      | Ok email =>
          sca_success r = true
          ∧ sca_requestedBy r = Some email
          ∧ sca_spreadsheetId r
            = Some (SPREADSHEET_ID (SPREADSHEET (config w)))
          ∧ sca_sheetName r = Some (SHEET_NAME (SPREADSHEET (config w)))
          ∧ sca_columnsToRemove r
            = Some (COLUMNS_TO_REMOVE (SPREADSHEET (config w)))
      | Throw _ =>
          sca_success r = false
          ∧ sca_spreadsheetId r = None
          ∧ sca_sheetName r = None
          ∧ sca_columnsToRemove r = None
          ∧ sca_message r = Some ERROR_MESSAGES.PERMISSION_ERROR
      end.
Proof.
  unfold getSpreadsheetConfig.
  destruct (Session_getEmail (platform w)) as [email | e0] eqn:E0.
  - destruct (getCurrentUserEmail_ok w email E0) as [entry E].
    unfold try_catch. rewrite (bind_ok _ _ _ _ _ E).
    eexists _, _. split; [reflexivity |]. by repeat split.
  - destruct (getCurrentUserEmail_throw w e0 E0)
      as (e & w1 & E & [Hc Hp] & Hcache & Hmsg).
    unfold try_catch. rewrite (bind_throw _ _ _ _ _ E).
    eexists _, _. split; [reflexivity |]. cbn.
    rewrite Hmsg. by repeat split.
Qed.

Lemma getUserSummary_run codec (email : value) (w : World) :
  ∃ r w', getUserSummary codec email w = (Ok r, w')
          ∧ summary_email r = email.
Proof.
  unfold getUserSummary.
  destruct (UserService.getUserPermissions codec email w) as [[p|e] w1] eqn:E.
  - destruct (validateUserEmail_run email w1) as [entry Ev].
    eexists _, _. split.
    { apply try_catch_ok.
      by rewrite (bind_ok _ _ _ _ _ E), (bind_ok _ _ _ _ _ Ev). }
    reflexivity.
  - eexists _, _. split.
    { by rewrite (try_catch_throw _ _ _ _ _ (bind_throw _ _ _ _ _ E)). }
    reflexivity.
Qed.

(** X23: [getUserInfo] always answers, and its gate tests the requester,
    not the identity asked about.  A requester that fails validation is
    denied, and so is, when nothing is cached for it, a requester whom
    the table does not list with the threshold number of campuses,
    whatever the target.  An answer that is granted describes the
    target: the identity passed in, or the requester when none was. *)
Theorem getUserInfo_gate ds codec (email : value) (w : World) :
  ∃ a w',
    getUserInfo ds codec email w = (Ok a, w')
    ∧ match Session_getEmail (platform w) with
      | Throw _ => ∃ r, a = Failed r
      | Ok requester =>
          (a = AccessDenied ∨ (∃ r, a = Failed r)
           ∨ ∃ info, a = Granted info
                     ∧ summary_email (info_user info)
                       = if truthy email then email else requester)
          ∧ (isValidEmail (config w) requester = false → a = AccessDenied)
          ∧ (Cache_raises (platform w) CacheGet
               (UserService.permissionsKey (config w) requester) = false →
             cached_truthy
               (cache w !! UserService.permissionsKey (config w) requester)
             = false →
             table_full_access (config w) requester = false →
             a = AccessDenied)
      end.
Proof.
  unfold getUserInfo.
  destruct (Session_getEmail (platform w)) as [requester | e0] eqn:E0.
  - assert (Hfirst : ∃ w1,
              (if truthy email then ret email
               else UserService.getCurrentUserEmail) w
              = (Ok (if truthy email then email else requester), w1)
              ∧ config w1 = config w ∧ cache w1 = cache w
              ∧ platform w1 = platform w).
    { destruct (truthy email).
      - by exists w.
      - destruct (getCurrentUserEmail_ok w requester E0) as [entry E].
        eexists. split; [exact E | done]. }
    destruct Hfirst as (w1 & E1 & Hc1 & Hcache1 & Hp1).
    assert (E0' : Session_getEmail (platform w1) = Ok requester)
      by by rewrite Hp1.
    destruct (getCurrentUserEmail_ok w1 requester E0') as [entry E2].
    set (w2 := add_log entry w1) in *.
    destruct (hasFullAccess_run codec requester w2)
      as (b & w3 & E3 & Hcfg & Hb).
    pose proof (hasFullAccess_miss codec requester w2 w3 b E3) as Hmiss.
    change (config w2) with (config w1) in Hmiss, Hb.
    change (cache w2) with (cache w1) in Hmiss.
    change (platform w2) with (platform w1) in Hmiss.
    rewrite Hc1, Hcache1, Hp1 in Hmiss.
    unfold try_catch at 1.
    rewrite (bind_ok _ _ _ _ _ E1). cbv beta.
    rewrite (bind_ok _ _ _ _ _ E2). cbv beta.
    rewrite (bind_ok _ _ _ _ _ E3). cbv beta.
    destruct b; cbn [negb].
    + destruct (getUserSummary_run codec
                  (if truthy email then email else requester) w3)
        as (summary & w4 & E4 & Hsummary).
      rewrite (bind_ok _ _ _ _ _ E4). cbv beta.
      destruct (getDataStatistics ds w4) as [[stats | e] w5] eqn:E5.
      * rewrite (bind_ok _ _ _ _ _ E5). cbv beta.
        eexists _, _. split; [reflexivity |]. split; [| split].
        -- right. right. eexists. split; [reflexivity | exact Hsummary].
        -- intros Hinvalid.
           destruct (getUserPermissions_invalid codec requester w2)
             as (e & w6 & E6 & _); [by rewrite <- Hc1 in Hinvalid |].
           by rewrite E6 in Hb.
        -- intros Hget Hnone Htable.
           specialize (Hmiss Hget Hnone). rewrite Htable in Hmiss.
           by rewrite andb_false_r in Hmiss.
      * rewrite (bind_throw _ _ _ _ _ E5).
        destruct (returns_handleException e "getUserInfo"
                    (add_log {| log_level := ERROR;
                                log_message := "Error getting user info";
                                log_context := "getUserInfo" |} w5))
          as (r & w6 & E6).
        unfold logError at 1, log at 1, bind at 1.
        rewrite (bind_ok _ _ _ _ _ E6). cbv beta.
        eexists _, _. split; [reflexivity |]. split; [| split].
        -- right. left. by eexists.
        -- intros Hinvalid.
           destruct (getUserPermissions_invalid codec requester w2)
             as (e' & w7 & E7 & _); [by rewrite <- Hc1 in Hinvalid |].
           by rewrite E7 in Hb.
        -- intros Hget Hnone Htable.
           specialize (Hmiss Hget Hnone). rewrite Htable in Hmiss.
           by rewrite andb_false_r in Hmiss.
    + eexists _, _. split; [reflexivity |].
      split; [by left |]. by split.
  - assert (Hthrow : ∃ e w1,
              (targetEmail <- (if truthy email then ret email
                               else UserService.getCurrentUserEmail) ;;
               currentUserEmail <- UserService.getCurrentUserEmail ;;
               full <- UserService.hasFullAccess codec currentUserEmail ;;
               if negb full then ret AccessDenied
               else
                 userSummary <- getUserSummary codec targetEmail ;;
                 dataStats <- getDataStatistics ds ;;
                 logInfo "User info requested" "getUserInfo" ;;
                 p <- ask_platform ;;
                 ret (Granted {| info_user := userSummary;
                                 info_dataStatistics := dataStats;
                                 info_timestamp :=
                                   toISOString (Date_now p) |}))%script w
              = (Throw e, w1)).
    { destruct (getCurrentUserEmail_throw w e0 E0) as (e & w1 & E & _).
      destruct (truthy email).
      - unfold bind at 1, ret at 1.
        rewrite (bind_throw _ _ _ _ _ E). by eexists _, _.
      - rewrite (bind_throw _ _ _ _ _ E). by eexists _, _. }
    destruct Hthrow as (e & w1 & E).
    unfold try_catch. rewrite E.
    destruct (returns_handleException e "getUserInfo"
                (add_log {| log_level := ERROR;
                            log_message := "Error getting user info";
                            log_context := "getUserInfo" |} w1))
      as (r & w2 & E2).
    unfold logError at 1, log at 1, bind at 1.
    rewrite (bind_ok _ _ _ _ _ E2). cbv beta.
    eexists _, _. split; [reflexivity |]. by eexists.
Qed.
